(** * SiteFast Edge Optimizer: a shallow embedding of [worker/src/index.js]

    The worker is a Cloudflare [fetch] handler that resolves an origin,
    fetches it, extracts a page context with one [HTMLRewriter] pass, asks a
    generative service for suggestions and rewrites the page with a second
    [HTMLRewriter] pass.

    Conventions of the embedding:
    - JavaScript values that come out of [JSON.parse] are [JsVal]; [undefined]
      is a constructor of its own because property access produces it.
    - A thrown exception is [Err]; code that can throw lives in [result].
    - The network is a [World] of oracles; every network call and the
      extraction pass leave an [Event] in the trace the handler returns.
    - An HTML stream is the forest of nodes the streaming tokenizer sees, with
      tag and attribute names already lower-cased as the rewriter reports them,
      and every element closed before the stream ends.
    - A string stands for its UTF-8 encoding; where JavaScript works on code
      points (iteration, indexing) the embedding groups the bytes of each.
    - Platform functions the worker calls but does not define ([JSON.parse],
      [JSON.stringify], [new URL(..).origin], the serializer of
      [URLSearchParams], the decoder of [HTMLRewriter]) are variables of the
      section [Worker]. *)

From stdpp Require Import base option list strings gmap.
From Stdlib Require Import ZArith Ascii String Lia.

Local Open Scope string_scope.
Local Open Scope list_scope.
Set Warnings "-register-all".

(** ** Strings *)

Module Str.

(** The double quote and the line feed, which the templates of the worker
    contain. *)
Definition dq : string := String (ascii_of_nat 34) EmptyString.
Definition nl : string := String (ascii_of_nat 10) EmptyString.

(** [s.startsWith(p)] *)
Definition startsWith (s p : string) : bool := String.prefix p s.

(** [s.includes(needle)] *)
Fixpoint includes (s needle : string) : bool :=
  String.prefix needle s ||
  match s with
  | EmptyString => false
  | String _ rest => includes rest needle
  end.

Definition lower_ascii (c : ascii) : ascii :=
  let n := nat_of_ascii c in
  if (65 <=? n)%nat && (n <=? 90)%nat then ascii_of_nat (n + 32) else c.

(** [s.toLowerCase()] on the ASCII range, which is all that a comparison
    with an ASCII literal or an HTTP header name needs. *)
Fixpoint toLowerCase (s : string) : string :=
  match s with
  | EmptyString => EmptyString
  | String c rest => String (lower_ascii c) (toLowerCase rest)
  end.

(** [s.split('.').pop()]: what follows the last dot, the whole string when
    there is none. [acc] is the segment being read. *)
Fixpoint last_segment_from (acc s : string) : string :=
  match s with
  | EmptyString => acc
  | String c rest =>
      if bool_decide (c = "."%char)
      then last_segment_from EmptyString rest
      else last_segment_from (acc +:+ String c EmptyString) rest
  end.

Definition last_segment (s : string) : string :=
  last_segment_from EmptyString s.

(** The suffix of [s] that starts at its first opening brace. *)
Fixpoint from_first_open (s : string) : option string :=
  match s with
  | EmptyString => None
  | String c rest =>
      if bool_decide (c = "{"%char) then Some s else from_first_open rest
  end.

(** The longest prefix of [s] that ends with a closing brace. *)
Fixpoint upto_last_close (s : string) : option string :=
  match s with
  | EmptyString => None
  | String c rest =>
      match upto_last_close rest with
      | Some p => Some (String c p)
      | None =>
          if bool_decide (c = "}"%char)
          then Some (String c EmptyString) else None
      end
  end.

(** [s.match(/\{[\s\S]*\}/)]: the leftmost opening brace and, greedily,
    everything up to the last closing brace after it; [None] is the [null]
    of a failed match, [Some m] is [jsonMatch[0]]. *)
Definition match_braces (s : string) : option string :=
  from_first_open s ≫= upto_last_close.

End Str.

(** ** JavaScript values *)

Inductive JsError : Type :=
| TypeError
| RangeError
| SyntaxError
| NetworkError.

Inductive result (A : Type) : Type :=
| Ok (a : A)
| Err (e : JsError).
Arguments Ok {A} a.
Arguments Err {A} e.

Definition rbind {A B : Type} (r : result A) (f : A -> result B) : result B :=
  match r with
  | Ok a => f a
  | Err e => Err e
  end.

(** [try { body } catch (e) { handler }] *)
Definition try_catch {A : Type} (body : result A) (handler : JsError -> result A)
  : result A :=
  match body with
  | Ok a => Ok a
  | Err e => handler e
  end.

(** [result] is a monad; the worker's sequencing of statements that can throw
    is written with stdpp's [x ← c; k]. *)
#[global] Instance result_ret : MRet result := @Ok.
#[global] Instance result_bind : MBind result := fun A B f r => rbind r f.

(** A value produced by [JSON.parse] or by a property access on one. A number
    is carried by its JavaScript rendering [String(n)]; zero renders as
    ["0"]. *)
Inductive JsVal : Type :=
| JUndefined
| JNull
| JBool (b : bool)
| JNum (repr : string)
| JStr (s : string)
| JArr (items : list JsVal)
| JObj (fields : list (string * JsVal)).

Module Js.

(** ToBoolean *)
Definition truthy (v : JsVal) : bool :=
  match v with
  | JUndefined | JNull => false
  | JBool b => b
  | JNum r => negb (String.eqb r "0" || String.eqb r "NaN")
  | JStr s => negb (String.eqb s EmptyString)
  | JArr _ | JObj _ => true
  end.

Definition nullish (v : JsVal) : bool :=
  match v with
  | JUndefined | JNull => true
  | _ => false
  end.

(** [a || b] *)
Definition or (a b : JsVal) : JsVal := if truthy a then a else b.

Fixpoint assoc (k : string) (fs : list (string * JsVal)) : JsVal :=
  match fs with
  | [] => JUndefined
  | (k', v) :: rest => if String.eqb k k' then v else assoc k rest
  end.

(** [v.k] for a value that is not nullish and a key [k] that no prototype
    defines (the worker reads [candidates], [content], [parts], [text],
    [jsonLd], [metaDescription], [preconnectDomains], [criticalResources]). *)
Definition prop (v : JsVal) (k : string) : JsVal :=
  match v with
  | JObj fs => assoc k fs
  | _ => JUndefined
  end.

(** A string stands for its UTF-8 encoding: a byte [10xxxxxx] continues the
    code point of the byte before it. *)
Definition continuation (c : ascii) : bool :=
  let n := nat_of_ascii c in (128 <=? n)%nat && (n <? 192)%nat.

(** The code points of [s] in order, each as the bytes that encode it. The
    first component holds continuation bytes that come before any leading
    byte, which a well-formed string does not have. *)
Fixpoint code_points_from (s : string) : string * list string :=
  match s with
  | EmptyString => (EmptyString, [])
  | String c rest =>
      let '(k, l) := code_points_from rest in
      if continuation c then (String c k, l) else (EmptyString, String c k :: l)
  end.

Definition code_points (s : string) : list string :=
  let '(k, l) := code_points_from s in
  if String.eqb k EmptyString then l else k :: l.

(** [v[0]] for a value that is not nullish. *)
Definition index0 (v : JsVal) : JsVal :=
  match v with
  | JArr (x :: _) => x
  | JStr s => match code_points s with
              | x :: _ => JStr x
              | [] => JUndefined
              end
  | JObj fs => assoc "0" fs
  | _ => JUndefined
  end.

(** [v.k], which throws on [null] and [undefined]. *)
Definition get (v : JsVal) (k : string) : result JsVal :=
  if nullish v then Err TypeError else Ok (prop v k).

(** [v?.k] and [v?.[0]] *)
Definition opt_get (v : JsVal) (k : string) : JsVal :=
  if nullish v then JUndefined else prop v k.
Definition opt_index0 (v : JsVal) : JsVal :=
  if nullish v then JUndefined else index0 v.

(** ToString, as a template literal applies it. *)
Fixpoint to_string (v : JsVal) : string :=
  match v with
  | JUndefined => "undefined"
  | JNull => "null"
  | JBool true => "true"
  | JBool false => "false"
  | JNum r => r
  | JStr s => s
  | JArr items =>
      (fix join (l : list JsVal) : string :=
         match l with
         | [] => EmptyString
         | x :: rest =>
             (match x with
              | JUndefined | JNull => EmptyString
              | _ => to_string x
              end) +:+
             (match rest with
              | [] => EmptyString
              | _ :: _ => "," +:+ join rest
              end)
         end) items
  | JObj _ => "[object Object]"
  end.

(** The strings that iterating over [s] yields: one per code point. *)
Definition chars (s : string) : list JsVal := map JStr (code_points s).

(** What [for (const x of v)] iterates over; it throws a [TypeError] on a
    value that is not iterable. A string is iterated code point by
    code point. *)
Definition iterate (v : JsVal) : result (list JsVal) :=
  match v with
  | JArr items => Ok items
  | JStr s => Ok (chars s)
  | _ => Err TypeError
  end.

(** ToBoolean of a [string | null] ([None] is [null] or [undefined]): the
    empty string is falsy like [null]. *)
Definition truthy_s (o : option string) : bool :=
  match o with
  | None => false
  | Some s => negb (String.eqb s EmptyString)
  end.

(** [a || b] on [string | null] operands *)
Definition or_s (a b : option string) : option string :=
  if truthy_s a then a else b.

(** [a || d] where [d] is a string *)
Definition or_default (a : option string) (d : string) : string :=
  match a with
  | Some s => if String.eqb s EmptyString then d else s
  | None => d
  end.

End Js.

(** ** The HTML stream and the HTMLRewriter *)

(** Attributes in source order; [Raw] is markup the rewriter passes through
    without offering it to any handler: comments, the doctype, and content a
    handler inserted with [{ html: true }]. *)
Inductive Node : Type :=
| Element (tag : string) (attrs : list (string * string)) (children : list Node)
| Text (s : string)
| Raw (html : string).

Module El.

(** The element handle a handler receives: the attributes of the start tag,
    what [el.prepend] put after the start tag and what [el.append] put before
    the end tag. *)
Record Handle : Type := mkHandle {
  attrs : list (string * string);
  prepended : list string;
  appended : list string
}.

Definition of_attrs (a : list (string * string)) : Handle :=
  {| attrs := a; prepended := []; appended := [] |}.

Fixpoint lookup_attr (name : string) (a : list (string * string)) : option string :=
  match a with
  | [] => None
  | (n, v) :: rest => if String.eqb n name then Some v else lookup_attr name rest
  end.

Fixpoint store_attr (name value : string) (a : list (string * string))
  : list (string * string) :=
  match a with
  | [] => [(name, value)]
  | (n, v) :: rest =>
      if String.eqb n name then (n, value) :: rest
      else (n, v) :: store_attr name value rest
  end.

(** [el.getAttribute(name)]: [None] is [null]. *)
Definition getAttribute (el : Handle) (name : string) : option string :=
  lookup_attr name (attrs el).

(** [el.setAttribute(name, value)] *)
Definition setAttribute (el : Handle) (name value : string) : Handle :=
  {| attrs := store_attr name value (attrs el);
     prepended := prepended el;
     appended := appended el |}.

(** [el.prepend(html, { html: true })]: right after the start tag, so before
    what earlier calls prepended. *)
Definition prepend (el : Handle) (html : string) : Handle :=
  {| attrs := attrs el;
     prepended := html :: prepended el;
     appended := appended el |}.

(** [el.append(html, { html: true })]: right before the end tag, so after
    what earlier calls appended. *)
Definition append (el : Handle) (html : string) : Handle :=
  {| attrs := attrs el;
     prepended := prepended el;
     appended := appended el ++ [html] |}.

End El.

(** The selectors the worker registers. *)
Inductive Selector : Type :=
| SelTag (tag : string)                        (* [tag] *)
| SelHas (tag attr : string)                   (* [tag[attr]] *)
| SelEq (tag attr value : string)              (* [tag[attr="value"]] *)
| SelOr (a b : Selector).                      (* [a, b] *)

(** The attributes whose values a selector compares without regard to ASCII
    case on an HTML element (the list of the HTML standard, which the
    selector engine of the rewriter follows); the value of any other
    attribute is compared as it is. *)
Definition case_insensitive_attributes : list string :=
  [ "accept"; "accept-charset"; "align"; "alink"; "axis"; "bgcolor"; "charset";
    "checked"; "clear"; "codetype"; "color"; "compact"; "declare"; "defer"; "dir";
    "direction"; "disabled"; "enctype"; "face"; "frame"; "hreflang"; "http-equiv";
    "lang"; "language"; "link"; "media"; "method"; "multiple"; "nohref";
    "noresize"; "noshade"; "nowrap"; "readonly"; "rel"; "rev"; "rules"; "scope";
    "scrolling"; "selected"; "shape"; "target"; "text"; "type"; "valign";
    "valuetype"; "vlink" ].

(** [[attr="value"]] on the attributes [a] *)
Definition attr_equals (attr value : string) (a : list (string * string)) : bool :=
  if existsb (String.eqb attr) case_insensitive_attributes
  then bool_decide (Str.toLowerCase <$> El.lookup_attr attr a =
                    Some (Str.toLowerCase value))
  else bool_decide (El.lookup_attr attr a = Some value).

Fixpoint matches (sel : Selector) (tag : string) (a : list (string * string)) : bool :=
  match sel with
  | SelTag t => String.eqb tag t
  | SelHas t n => String.eqb tag t && bool_decide (is_Some (El.lookup_attr n a))
  | SelEq t n v => String.eqb tag t && attr_equals n v a
  | SelOr x y => matches x tag a || matches y tag a
  end.

Section HTMLRewriter.

(** The state the handlers close over: the page context of the extraction
    pass, the image counter of the rewriting pass. *)
Context {S : Type}.

(** One [.on(selector, { element, text })] registration. *)
Record Registration : Type := mkRegistration {
  selector : Selector;
  on_element : option (S -> El.Handle -> result (S * El.Handle));
  on_text : option (S -> string -> S)
}.

(** The element handlers of every registration that matches the start tag,
    in registration order. *)
Fixpoint run_element (regs : list Registration) (tag : string)
  (a : list (string * string)) (st : S) (el : El.Handle) : result (S * El.Handle) :=
  match regs with
  | [] => Ok (st, el)
  | r :: rest =>
      match (if matches (selector r) tag a then on_element r else None) with
      | Some f => '(st', el') ← f st el; run_element rest tag a st' el'
      | None => run_element rest tag a st el
      end
  end.

(** The text handlers that run on a chunk of text: the handler of every
    registration whose selector some open element matches, once each however
    many open elements match it, in registration order. *)
Definition opened (r : Registration) (open : list (string * list (string * string)))
  : bool :=
  existsb (fun e => matches (selector r) (fst e) (snd e)) open.

Fixpoint run_text (regs : list Registration)
  (open : list (string * list (string * string))) (s : string) (st : S) : S :=
  match regs with
  | [] => st
  | r :: rest =>
      match (if opened r open then on_text r else None) with
      | Some f => run_text rest open s (f st s)
      | None => run_text rest open s st
      end
  end.

(** One forward pass over a node, in document order. [open] are the start
    tags of the elements that are open, the outermost first. *)
Fixpoint transform_node (regs : list Registration)
  (open : list (string * list (string * string))) (n : Node) (st : S)
  : result (S * Node) :=
  match n with
  | Text s => Ok (run_text regs open s st, n)
  | Raw _ => Ok (st, n)
  | Element tag a children =>
      '(st1, el) ← run_element regs tag a st (El.of_attrs a);
      '(st2, children') ←
        (fix go (l : list Node) (acc : S) : result (S * list Node) :=
           match l with
           | [] => Ok (acc, [])
           | x :: rest =>
               '(acc1, x') ← transform_node regs (open ++ [(tag, a)]) x acc;
               '(acc2, rest') ← go rest acc1;
               Ok (acc2, x' :: rest')
           end) children st1;
      Ok (st2, Element tag (El.attrs el)
                 (map Raw (El.prepended el) ++ children' ++ map Raw (El.appended el)))
  end.

Fixpoint transform_nodes (regs : list Registration)
  (open : list (string * list (string * string))) (l : list Node) (st : S)
  : result (S * list Node) :=
  match l with
  | [] => Ok (st, [])
  | x :: rest =>
      '(st1, x') ← transform_node regs open x st;
      '(st2, rest') ← transform_nodes regs open rest st1;
      Ok (st2, x' :: rest')
  end.

(** [rewriter.transform(response)] on the document of the body. *)
Definition transform (regs : list Registration) (doc : list Node) (st : S)
  : result (S * list Node) :=
  transform_nodes regs [] doc st.

End HTMLRewriter.

Arguments Registration S : clear implicits.

(** ** Requests, responses and the network *)

(** [Headers]: names are case-insensitive, so the map is keyed by the
    lower-cased name. *)
Definition headers_get (h : gmap string string) (name : string) : option string :=
  h !! Str.toLowerCase name.

Definition headers_set (h : gmap string string) (name value : string)
  : gmap string string :=
  <[Str.toLowerCase name := value]> h.

(** The body is a stream: [Err] is a stream that fails while it is read. *)
Record Response : Type := mkResponse {
  status : Z;
  headers : gmap string string;
  body : result (list Node)
}.

(** [new Response(body, { status, headers })] throws a [RangeError] for a
    status outside 200..599. *)
Definition new_Response (b : result (list Node)) (st : Z) (h : gmap string string)
  : result Response :=
  if bool_decide (200 <= st <= 599)%Z
  then Ok {| status := st; headers := h; body := b |}
  else Err RangeError.

(** The parsed [request.url]: [searchParams] are the decoded pairs of the
    query in order. *)
Record Url : Type := mkUrl {
  pathname : string;
  searchParams : list (string * string)
}.

Record Request : Type := mkRequest {
  url : Url;
  request_headers : gmap string string
}.

Record Env : Type := mkEnv {
  ORIGIN_DOMAIN : option string;
  GEMINI_API_KEY : option string
}.

(** What the worker does that an observer outside can see, in order. *)
Inductive Event : Type :=
| EvOriginFetch (target userAgent accept : string)  (* [fetch(originUrl, { headers, cf })] *)
| EvExtract                                         (* the context pass on the clone *)
| EvAdvisorFetch (target payload : string)          (* the POST to the generative service *)
| EvPlainFetch (target : string).                   (* [fetch(originUrl)] *)

(** The answers of the network. [advisor_fetch] answers with the text of the
    reply body; [Err] is a rejected [fetch] or a body that cannot be read. *)
Record World : Type := mkWorld {
  origin_fetch : string -> string -> string -> result Response;
  advisor_fetch : string -> string -> result string;
  plain_fetch : string -> result Response
}.

(** A computation that leaves a trace and may throw. *)
Definition M (A : Type) : Type := (list Event * result A)%type.

#[global] Instance M_ret : MRet M := fun A a => ([], Ok a).
#[global] Instance M_bind : MBind M := fun A B f m =>
  match m with
  | (t, Ok a) => let '(t', r) := f a in (t ++ t', r)
  | (t, Err e) => (t, Err e)
  end.

Definition lift {A : Type} (r : result A) : M A := ([], r).
Definition emit {A : Type} (ev : Event) (r : result A) : M A := ([ev], r).

(** ** The page context *)

Record PageContext : Type := mkPageContext {
  title : string;
  h1 : string;
  description : string;
  images : list string;
  externalDomains : list string   (* a [Set]: first-seen order, no duplicates *)
}.

Definition empty_context : PageContext :=
  {| title := EmptyString; h1 := EmptyString; description := EmptyString;
     images := []; externalDomains := [] |}.

(** [set.add(d)] on a [Set] kept in insertion order. *)
Definition set_add (d : string) (s : list string) : list string :=
  if bool_decide (d ∈ s) then s else s ++ [d].

Section Worker.

(** Platform functions: [JSON.parse] ([Err] is its [SyntaxError]),
    [JSON.stringify], [new URL(href).origin] ([Err] is the [TypeError] of an
    invalid URL), the serializer behind [url.search], and whether
    [HTMLRewriter] can decode a response with a given [Content-Type] header
    ([None] is a response without one): the charset the header names, UTF-8
    when it names none, has to be an encoding the rewriter knows and can
    stream. *)
Variable JSON_parse : string -> result JsVal.
Variable JSON_stringify : JsVal -> string.
Variable URL_origin : string -> result string.
Variable URLSearchParams_toString : list (string * string) -> string.
Variable HTMLRewriter_decodes : option string -> bool.

(** ** Origin resolution (index.js, lines 18 to 35) *)

(** [url.searchParams.get(name)] *)
Fixpoint searchParams_get (name : string) (ps : list (string * string))
  : option string :=
  match ps with
  | [] => None
  | (k, v) :: rest => if String.eqb k name then Some v else searchParams_get name rest
  end.

(** [url.searchParams.delete(name)] *)
Definition searchParams_delete (name : string) (ps : list (string * string))
  : list (string * string) :=
  filter (fun p => negb (String.eqb (fst p) name)) ps.

(** [url.search] once the parameters have been written back: empty when
    nothing is left to serialize. *)
Definition search_of (ps : list (string * string)) : string :=
  let q := URLSearchParams_toString ps in
  if String.eqb q EmptyString then EmptyString else "?" +:+ q.

Definition fallback_origin : string := "https://example.com".

Definition chooseOrigin (request : Request) (env : Env) : string :=
  Js.or_default
    (Js.or_s
       (Js.or_s (searchParams_get "origin" (searchParams (url request)))
                (headers_get (request_headers request) "X-Origin-Domain"))
       (ORIGIN_DOMAIN env))
    fallback_origin.

Definition cleanOrigin (originDomain : string) : string :=
  if negb (Str.startsWith originDomain "http")
  then "https://" +:+ originDomain
  else originDomain.

Definition resolveOriginDomain (request : Request) (env : Env) : string :=
  cleanOrigin (chooseOrigin request env).

Definition pathAndQuery (request : Request) : string :=
  pathname (url request) +:+
  search_of (searchParams_delete "origin" (searchParams (url request))).

Definition resolveOriginUrl (request : Request) (env : Env) : string :=
  resolveOriginDomain request env +:+ pathAndQuery request.

(** ** Context extraction (index.js, lines 57 to 96) *)

Definition context_title_text (ctx : PageContext) (t : string) : PageContext :=
  {| title := title ctx +:+ t; h1 := h1 ctx; description := description ctx;
     images := images ctx; externalDomains := externalDomains ctx |}.

Definition context_h1_text (ctx : PageContext) (t : string) : PageContext :=
  {| title := title ctx; h1 := h1 ctx +:+ t; description := description ctx;
     images := images ctx; externalDomains := externalDomains ctx |}.

Definition context_description (ctx : PageContext) (el : El.Handle)
  : result (PageContext * El.Handle) :=
  Ok ({| title := title ctx; h1 := h1 ctx;
         description := Js.or_default (El.getAttribute el "content") EmptyString;
         images := images ctx; externalDomains := externalDomains ctx |}, el).

Definition context_image (ctx : PageContext) (el : El.Handle)
  : result (PageContext * El.Handle) :=
  let src := El.getAttribute el "src" in
  Ok ({| title := title ctx; h1 := h1 ctx; description := description ctx;
         images := match src with
                   | Some s => if Js.truthy_s src then images ctx ++ [s] else images ctx
                   | None => images ctx
                   end;
         externalDomains := externalDomains ctx |}, el).

Definition context_resource (ctx : PageContext) (el : El.Handle)
  : result (PageContext * El.Handle) :=
  let href := Js.or_s (El.getAttribute el "href") (El.getAttribute el "src") in
  let domains :=
    match href with
    | Some h =>
        if Js.truthy_s href && Str.startsWith h "http"
        then match URL_origin h with
             | Ok domain => set_add domain (externalDomains ctx)
             | Err _ => externalDomains ctx
             end
        else externalDomains ctx
    | None => externalDomains ctx
    end in
  Ok ({| title := title ctx; h1 := h1 ctx; description := description ctx;
         images := images ctx; externalDomains := domains |}, el).

Definition contextRewriter : list (Registration PageContext) :=
  [ {| selector := SelTag "title"; on_element := None;
       on_text := Some context_title_text |};
    {| selector := SelTag "h1"; on_element := None;
       on_text := Some context_h1_text |};
    {| selector := SelEq "meta" "name" "description";
       on_element := Some context_description; on_text := None |};
    {| selector := SelHas "img" "src";
       on_element := Some context_image; on_text := None |};
    {| selector := SelOr (SelHas "link" "href") (SelHas "script" "src");
       on_element := Some context_resource; on_text := None |} ].

(** What [rewriter.transform(response)] does before it reads anything: it
    builds the rewriter for the encoding the response declares and throws a
    [TypeError] when the rewriter cannot decode it. *)
Definition build_rewriter (response : Response) : result unit :=
  if HTMLRewriter_decodes (headers_get (headers response) "content-type")
  then Ok tt else Err TypeError.

(** [await contextRewriter.transform(clonedRes).text()]: the clone is read to
    its end and the output dropped; a failing stream rejects. *)
Definition extractContext (response : Response) : result PageContext :=
  _ ← build_rewriter response;
  doc ← body response;
  '(ctx, _) ← transform contextRewriter doc empty_context;
  Ok ctx.

(** ** The advisor (index.js, lines 128 to 173) *)

Definition prompt (ctx : PageContext) (originDomain : string) : string :=
  "You are an SEO expert. Based on this website data, generate optimizations."
  +:+ Str.nl +:+ Str.nl
  +:+ "Website: " +:+ originDomain +:+ Str.nl
  +:+ "Title: " +:+ Str.dq +:+ title ctx +:+ Str.dq +:+ Str.nl
  +:+ "Main Heading: " +:+ Str.dq +:+ h1 ctx +:+ Str.dq +:+ Str.nl
  +:+ "Description: " +:+ Str.dq +:+ description ctx +:+ Str.dq +:+ Str.nl
  +:+ Str.nl
  +:+ "Return a JSON object (no markdown) with these fields:" +:+ Str.nl
  +:+ "{" +:+ Str.nl
  +:+ "  " +:+ Str.dq +:+ "jsonLd" +:+ Str.dq
  +:+ ": { valid JSON-LD Organization schema }," +:+ Str.nl
  +:+ "  " +:+ Str.dq +:+ "metaDescription" +:+ Str.dq +:+ ": " +:+ Str.dq
  +:+ "optimized meta description if current one is weak, or null"
  +:+ Str.dq +:+ "," +:+ Str.nl
  +:+ "  " +:+ Str.dq +:+ "preconnectDomains" +:+ Str.dq +:+ ": [" +:+ Str.dq
  +:+ "list of domains that should have preconnect hints"
  +:+ Str.dq +:+ "]," +:+ Str.nl
  +:+ "  " +:+ Str.dq +:+ "criticalResources" +:+ Str.dq +:+ ": [" +:+ Str.dq
  +:+ "list of resources that should be preloaded"
  +:+ Str.dq +:+ "]" +:+ Str.nl
  +:+ "}".

Definition advisor_endpoint (apiKey : string) : string :=
  "https://generativelanguage.googleapis.com/v1beta/models/gemini-2.0-flash:generateContent?key="
  +:+ apiKey.

Definition advisor_payload (p : string) : JsVal :=
  JObj [ ("contents", JArr [ JObj [ ("parts", JArr [ JObj [ ("text", JStr p) ] ]) ] ]);
         ("generationConfig",
          JObj [ ("temperature", JNum "0.2"); ("maxOutputTokens", JNum "1024") ]) ].

(** [data.candidates?.[0]?.content?.parts?.[0]?.text || ''] *)
Definition reply_text (data : JsVal) : result JsVal :=
  candidates ← Js.get data "candidates";
  Ok (Js.or
        (Js.opt_get
           (Js.opt_index0
              (Js.opt_get (Js.opt_get (Js.opt_index0 candidates) "content") "parts"))
           "text")
        (JStr EmptyString)).

(** [text.match(/\{[\s\S]*\}/)]: only a string has the method. *)
Definition text_match (text : JsVal) : result (option string) :=
  match text with
  | JStr s => Ok (Str.match_braces s)
  | _ => Err TypeError
  end.

(** The body of the [try] block: [Some v] is [return JSON.parse(..)], [None]
    is falling out of the block. *)
Definition advisor_try (reply : result string) : result (option JsVal) :=
  raw ← reply;
  data ← JSON_parse raw;
  text ← reply_text data;
  jsonMatch ← text_match text;
  match jsonMatch with
  | Some m => v ← JSON_parse m; Ok (Some v)
  | None => Ok None
  end.

(** [generateOptimizations] given the answer of the network: [JNull] is its
    [return null]. *)
Definition advisor_result (reply : result string) : result JsVal :=
  returned ← try_catch (advisor_try reply) (fun _ => Ok None);
  Ok (default JNull returned).

Definition generateOptimizations (w : World) (apiKey : string) (ctx : PageContext)
  (originDomain : string) : M JsVal :=
  let target := advisor_endpoint apiKey in
  let payload := JSON_stringify (advisor_payload (prompt ctx originDomain)) in
  emit (EvAdvisorFetch target payload)
       (advisor_result (advisor_fetch w target payload)).

(** ** The rewrite engine (index.js, lines 178 to 310) *)

Definition base_tag (originDomain : string) : string :=
  "<base href=" +:+ Str.dq +:+ originDomain +:+ "/" +:+ Str.dq +:+ ">".

Definition preconnect_tag (domain : string) : string :=
  "<link rel=" +:+ Str.dq +:+ "preconnect" +:+ Str.dq +:+ " href=" +:+ Str.dq
  +:+ domain +:+ Str.dq +:+ " crossorigin>".

Definition dns_prefetch_tag (domain : string) : string :=
  "<link rel=" +:+ Str.dq +:+ "dns-prefetch" +:+ Str.dq +:+ " href=" +:+ Str.dq
  +:+ domain +:+ Str.dq +:+ ">".

Definition jsonld_script (payload : string) : string :=
  "<script type=" +:+ Str.dq +:+ "application/ld+json" +:+ Str.dq +:+ ">"
  +:+ payload +:+ "</script>".

Definition preload_tag (resource asType : string) : string :=
  "<link rel=" +:+ Str.dq +:+ "preload" +:+ Str.dq +:+ " href=" +:+ Str.dq
  +:+ resource +:+ Str.dq +:+ " as=" +:+ Str.dq +:+ asType +:+ Str.dq +:+ ">".

Definition viewport_metas : string :=
  Str.nl +:+ "        <meta name=" +:+ Str.dq +:+ "viewport" +:+ Str.dq
  +:+ " content=" +:+ Str.dq +:+ "width=device-width, initial-scale=1" +:+ Str.dq
  +:+ ">" +:+ Str.nl
  +:+ "        <meta http-equiv=" +:+ Str.dq +:+ "X-UA-Compatible" +:+ Str.dq
  +:+ " content=" +:+ Str.dq +:+ "IE=edge" +:+ Str.dq +:+ ">" +:+ Str.nl
  +:+ "      ".

Definition attribution_comment : string :=
  "<!-- Optimized by SiteFast.pro Edge -->".

(** [Array.from(set).slice(0, 5)] and [.slice(5, 10)] *)
Definition slice_0_5 (l : list string) : list string := take 5 l.
Definition slice_5_10 (l : list string) : list string := take 5 (drop 5 l).

(** [geminiOptimizations?.preconnectDomains ||
     Array.from(pageContext.externalDomains).slice(0, 5)] *)
Definition preconnectDomains (ctx : PageContext) (sugg : JsVal) : JsVal :=
  Js.or (Js.opt_get sugg "preconnectDomains")
        (JArr (map JStr (slice_0_5 (externalDomains ctx)))).

(** [resource.split('.').pop()?.toLowerCase()] and the choice of [as]; only a
    string has [split]. *)
Definition asType (resource : JsVal) : result (string * string) :=
  match resource with
  | JStr r =>
      let ext := Str.toLowerCase (Str.last_segment r) in
      Ok (r, if String.eqb ext "css" then "style"
             else if String.eqb ext "js" then "script"
             else "fetch")
  | _ => Err TypeError
  end.

(** The loop over [criticalResources]. *)
Fixpoint append_preloads (resources : list JsVal) (el : El.Handle) : result El.Handle :=
  match resources with
  | [] => Ok el
  | resource :: rest =>
      '(r, a) ← asType resource;
      append_preloads rest (El.append el (preload_tag r a))
  end.

(** The [element] handler of [head]. *)
Definition head_element (ctx : PageContext) (sugg : JsVal) (originDomain : string)
  (el : El.Handle) : result El.Handle :=
  let el := El.prepend el (base_tag originDomain) in
  domains ← Js.iterate (preconnectDomains ctx sugg);
  let el := foldl (fun e domain => El.append e (preconnect_tag (Js.to_string domain)))
                  el domains in
  let el := foldl (fun e domain => El.append e (dns_prefetch_tag domain))
                  el (slice_5_10 (externalDomains ctx)) in
  let el := if Js.truthy (Js.opt_get sugg "jsonLd")
            then El.append el (jsonld_script (JSON_stringify (Js.prop sugg "jsonLd")))
            else el in
  el ← (if Js.truthy (Js.opt_get sugg "criticalResources")
        then resources ← Js.iterate (Js.prop sugg "criticalResources");
             append_preloads resources el
        else Ok el);
  Ok (El.append el viewport_metas).

(** The [element] handler of [meta[name="description"]]. *)
Definition description_element (sugg : JsVal) (el : El.Handle) : El.Handle :=
  El.setAttribute el "content" (Js.to_string (Js.prop sugg "metaDescription")).

(** The [element] handler of [img]; [imageCount] is the counter it closes
    over, returned incremented. *)
Definition img_element (imageCount : nat) (el : El.Handle) : nat * El.Handle :=
  let imageCount := Datatypes.S imageCount in
  let el :=
    if (2 <? imageCount)%nat then
      let el := if negb (Js.truthy_s (El.getAttribute el "loading"))
                then El.setAttribute el "loading" "lazy" else el in
      if negb (Js.truthy_s (El.getAttribute el "decoding"))
      then El.setAttribute el "decoding" "async" else el
    else el in
  let el :=
    if negb (Js.truthy_s (El.getAttribute el "width")) &&
       negb (Js.truthy_s (El.getAttribute el "height"))
    then if (imageCount <=? 2)%nat
         then El.setAttribute el "fetchpriority" "high" else el
    else el in
  (imageCount, el).

(** The [element] handler of [iframe]. *)
Definition iframe_element (el : El.Handle) : El.Handle :=
  if negb (Js.truthy_s (El.getAttribute el "loading"))
  then El.setAttribute el "loading" "lazy" else el.

(** The [element] handler of [script[src]]. *)
Definition script_element (el : El.Handle) : El.Handle :=
  let src := Js.or_default (El.getAttribute el "src") EmptyString in
  if Str.includes src "analytics" || Str.includes src "gtag"
     || Str.includes src "facebook"
  then if negb (Js.truthy_s (El.getAttribute el "async")) &&
          negb (Js.truthy_s (El.getAttribute el "defer"))
       then El.setAttribute el "async" EmptyString else el
  else el.

(** The [element] handler of [link[rel="stylesheet"]]. *)
Definition stylesheet_element (el : El.Handle) : El.Handle :=
  let href := Js.or_default (El.getAttribute el "href") EmptyString in
  if Str.includes href "font" || Str.includes href "icon"
  then El.setAttribute (El.setAttribute el "media" "print") "onload" "this.media='all'"
  else el.

(** The [element] handler of [body]. *)
Definition body_element (el : El.Handle) : El.Handle :=
  El.prepend el attribution_comment.

(** A handler that leaves the counter alone and cannot throw. *)
Definition pure_handler (f : El.Handle -> El.Handle)
  : option (nat -> El.Handle -> result (nat * El.Handle)) :=
  Some (fun imageCount el => Ok (imageCount, f el)).

(** The registrations in the order [applyOptimizations] makes them; the one
    for the description exists only under
    [if (geminiOptimizations?.metaDescription)]. *)
Definition rewriteRegistrations (ctx : PageContext) (sugg : JsVal)
  (originDomain : string) : list (Registration nat) :=
  [ {| selector := SelTag "head";
       on_element := Some (fun imageCount el =>
                             el' ← head_element ctx sugg originDomain el;
                             Ok (imageCount, el'));
       on_text := None |} ]
  ++ (if Js.truthy (Js.opt_get sugg "metaDescription")
      then [ {| selector := SelEq "meta" "name" "description";
                on_element := pure_handler (description_element sugg);
                on_text := None |} ]
      else [])
  ++ [ {| selector := SelTag "img";
          on_element := Some (fun imageCount el => Ok (img_element imageCount el));
          on_text := None |};
       {| selector := SelTag "iframe";
          on_element := pure_handler iframe_element; on_text := None |};
       {| selector := SelHas "script" "src";
          on_element := pure_handler script_element; on_text := None |};
       {| selector := SelEq "link" "rel" "stylesheet";
          on_element := pure_handler stylesheet_element; on_text := None |};
       {| selector := SelTag "body";
          on_element := pure_handler body_element; on_text := None |} ].

(** The rewriting pass over a document, with [imageCount] starting at 0. *)
Definition rewriteDocument (ctx : PageContext) (sugg : JsVal) (originDomain : string)
  (doc : list Node) : result (list Node) :=
  '(_, doc') ← transform (rewriteRegistrations ctx sugg originDomain) doc 0%nat;
  Ok doc'.

(** [applyOptimizations]: status and headers are those of the response, the
    body is the stream the handlers rewrite while it is read; a handler that
    throws fails the stream, not the call. The call itself throws only when
    the rewriter cannot be built. *)
Definition applyOptimizations (response : Response) (ctx : PageContext)
  (sugg : JsVal) (originDomain : string) : result Response :=
  _ ← build_rewriter response;
  Ok {| status := status response;
        headers := headers response;
        body := doc ← body response; rewriteDocument ctx sugg originDomain doc |}.

(** ** The handler (index.js, lines 17 to 122) *)

Definition marker_header : string := "X-SiteFast-Optimized".
Definition cache_header : string := "Cache-Control".
Definition cache_directives : string := "public, max-age=3600, s-maxage=86400".

(** Step 3 of the handler: [geminiOptimizations] stays [null] unless
    [env.GEMINI_API_KEY] is truthy. *)
Definition advise (w : World) (env : Env) (pageContext : PageContext)
  (originDomain : string) : M JsVal :=
  match GEMINI_API_KEY env with
  | Some apiKey =>
      if Js.truthy_s (Some apiKey)
      then generateOptimizations w apiKey pageContext originDomain
      else mret JNull
  | None => mret JNull
  end.

(** The body of the [try] block. *)
Definition pipeline (w : World) (request : Request) (env : Env)
  (originDomain originUrl : string) : M Response :=
  let userAgent :=
    Js.or_default (headers_get (request_headers request) "User-Agent")
                  "SiteFast-Edge/1.0" in
  let accept :=
    Js.or_default (headers_get (request_headers request) "Accept") "text/html" in
  originalResponse ←
    emit (EvOriginFetch originUrl userAgent accept)
         (origin_fetch w originUrl userAgent accept);
  let contentType :=
    Js.or_default (headers_get (headers originalResponse) "content-type")
                  EmptyString in
  if negb (Str.includes contentType "text/html") then mret originalResponse
  else
    pageContext ← emit EvExtract (extractContext originalResponse);
    geminiOptimizations ← advise w env pageContext originDomain;
    optimizedResponse ←
      lift (applyOptimizations originalResponse pageContext geminiOptimizations
                               originDomain);
    let h := headers_set (headers optimizedResponse) marker_header "true" in
    let h := headers_set h cache_header cache_directives in
    lift (new_Response (body optimizedResponse) (status optimizedResponse) h).

(** [export default { fetch }]: the [catch] re-fetches the origin and returns
    whatever that fetch gives. *)
Definition fetch (w : World) (request : Request) (env : Env) : M Response :=
  let originDomain := resolveOriginDomain request env in
  let originUrl := resolveOriginUrl request env in
  match pipeline w request env originDomain originUrl with
  | (trace, Ok response) => (trace, Ok response)
  | (trace, Err _) => (trace ++ [EvPlainFetch originUrl], plain_fetch w originUrl)
  end.

End Worker.

(** ** Vocabulary of the properties *)

(** The start tags of a document, in document order. *)
Fixpoint elements (n : Node) : list (string * list (string * string)) :=
  match n with
  | Element tag a children => (tag, a) :: flat_map elements children
  | Text _ | Raw _ => []
  end.

Definition doc_elements (doc : list Node) : list (string * list (string * string)) :=
  flat_map elements doc.

(** The attributes of the elements with a given tag, in document order. *)
Definition tagged (tag : string) (es : list (string * list (string * string)))
  : list (list (string * string)) :=
  map snd (filter (fun e => String.eqb (fst e) tag) es).

Definition images_of (doc : list Node) : list (list (string * string)) :=
  tagged "img" (doc_elements doc).

Definition metas_of (doc : list Node) : list (list (string * string)) :=
  tagged "meta" (doc_elements doc).

Definition count_heads (doc : list Node) : nat :=
  List.length (tagged "head" (doc_elements doc)).

Definition is_description (a : list (string * string)) : bool :=
  bool_decide (El.lookup_attr "name" a = Some "description").

(** [[rel="stylesheet"]], which is compared without regard to ASCII case. *)
Definition is_stylesheet (a : list (string * string)) : bool :=
  bool_decide (Str.toLowerCase <$> El.lookup_attr "rel" a = Some "stylesheet").

(** The markup that no handler is offered, in document order. *)
Fixpoint raws (n : Node) : list string :=
  match n with
  | Element _ _ children => flat_map raws children
  | Text _ => []
  | Raw html => [html]
  end.

Definition doc_raws (doc : list Node) : list string := flat_map raws doc.

Definition is_base_tag (html : string) : bool :=
  Str.startsWith html "<base ".

Definition is_preconnect (html : string) : bool :=
  Str.startsWith html ("<link rel=" +:+ Str.dq +:+ "preconnect" +:+ Str.dq).

Definition is_dns_prefetch (html : string) : bool :=
  Str.startsWith html ("<link rel=" +:+ Str.dq +:+ "dns-prefetch" +:+ Str.dq).

Definition count_base_tags (doc : list Node) : nat :=
  List.length (filter (fun h => is_base_tag h) (doc_raws doc)).

(** The handlers run over a sequence of start tags, one after the other. *)
Fixpoint run_elements {S : Type} (regs : list (Registration S))
  (es : list (string * list (string * string))) (st : S)
  : result (S * list El.Handle) :=
  match es with
  | [] => Ok (st, [])
  | (tag, a) :: rest =>
      '(st1, el) ← run_element regs tag a st (El.of_attrs a);
      '(st2, els) ← run_elements regs rest st1;
      Ok (st2, el :: els)
  end.

Definition injected (els : list El.Handle) : list string :=
  flat_map (fun el => El.prepended el ++ El.appended el) els.

(** The registrations have no text handler, as those of the rewriting pass. *)
Definition textless {S : Type} (regs : list (Registration S)) : Prop :=
  Forall (fun r => on_text r = None) regs.

(** What a pass did to a document, read off its start tags: the handlers
    ran over them in document order, the start tags of the output are those
    of the input with the attributes the handlers left, and the raw markup of
    the output is that of the input plus what the handlers inserted. *)
Definition flat_view {S : Type} (regs : list (Registration S))
  (es es' : list (string * list (string * string)))
  (rs rs' : list string) (st st' : S) : Prop :=
  exists els,
    run_elements regs es st = Ok (st', els) /\
    es' = zip_with (fun e el => (fst e, El.attrs el)) es els /\
    List.length els = List.length es /\
    rs' ≡ₚ rs ++ injected els.

(** The suggestion has, where the [head] handler iterates, the types of the
    data model: [preconnectDomains] is absent or a sequence, and
    [criticalResources] is absent or a sequence of strings. (A string is a
    sequence of one-character strings for [for .. of].) *)
Definition iterable (v : JsVal) : bool :=
  match v with
  | JArr _ | JStr _ => true
  | _ => false
  end.

Definition is_string (v : JsVal) : bool :=
  match v with
  | JStr _ => true
  | _ => false
  end.

Definition items (v : JsVal) : list JsVal :=
  match v with
  | JArr l => l
  | JStr s => Js.chars s
  | _ => []
  end.

Definition well_typed (sugg : JsVal) : bool :=
  let pd := Js.opt_get sugg "preconnectDomains" in
  let cr := Js.opt_get sugg "criticalResources" in
  (negb (Js.truthy pd) || iterable pd) &&
  (negb (Js.truthy cr) || (iterable cr && forallb is_string (items cr))).

Definition preload_of (resource : JsVal) : string :=
  match asType resource with
  | Ok (r, a) => preload_tag r a
  | Err _ => EmptyString
  end.

(** What the [head] handler appends for a well-typed suggestion, in order. *)
Definition head_appended (stringify : JsVal -> string) (ctx : PageContext)
  (sugg : JsVal) : list string :=
  map (fun d => preconnect_tag (Js.to_string d)) (items (preconnectDomains ctx sugg))
  ++ map dns_prefetch_tag (slice_5_10 (externalDomains ctx))
  ++ (if Js.truthy (Js.opt_get sugg "jsonLd")
      then [jsonld_script (stringify (Js.prop sugg "jsonLd"))] else [])
  ++ (if Js.truthy (Js.opt_get sugg "criticalResources")
      then map preload_of (items (Js.prop sugg "criticalResources")) else [])
  ++ [viewport_metas].

(** The content type the handler reads off a response, and its test for
    HTML. *)
Definition contentType (r : Response) : string :=
  Js.or_default (headers_get (headers r) "content-type") EmptyString.

(** The rewriter can decode the response. *)
Definition decodable (decodes : option string -> bool) (r : Response) : bool :=
  decodes (headers_get (headers r) "content-type").

(** What [applyOptimizations] returns on a response the rewriter can decode:
    the response with the rewriting pass on its body. *)
Definition rewritten_response (stringify : JsVal -> string) (r : Response)
  (ctx : PageContext) (sugg : JsVal) (originDomain : string) : Response :=
  {| status := status r; headers := headers r;
     body := doc ← body r; rewriteDocument stringify ctx sugg originDomain doc |}.

Definition is_html (r : Response) : bool :=
  Str.includes (contentType r) "text/html".

(** The headers of the origin fetch. *)
Definition userAgent (request : Request) : string :=
  Js.or_default (headers_get (request_headers request) "User-Agent")
                "SiteFast-Edge/1.0".

Definition accept (request : Request) : string :=
  Js.or_default (headers_get (request_headers request) "Accept") "text/html".

Definition is_plain_fetch (ev : Event) : bool :=
  match ev with
  | EvPlainFetch _ => true
  | _ => false
  end.

(** The ways the call to the advisor fails: the transport fails; the
    envelope is not JSON; the envelope is an object without [candidates], as
    the error envelope of the service is; the envelope yields no reply text
    that is a string; the text holds no brace-delimited object; the object
    does not parse. *)
Inductive AdvisorFailure (parse : string -> result JsVal) (reply : result string)
  : Prop :=
| TransportFailure (e : JsError) :
    reply = Err e -> AdvisorFailure parse reply
| EnvelopeNotJson (raw : string) (e : JsError) :
    reply = Ok raw -> parse raw = Err e -> AdvisorFailure parse reply
| EnvelopeError (raw : string) (fields : list (string * JsVal)) :
    reply = Ok raw -> parse raw = Ok (JObj fields) ->
    Js.assoc "candidates" fields = JUndefined -> AdvisorFailure parse reply
| EnvelopeWithoutText (raw : string) (data : JsVal) :
    reply = Ok raw -> parse raw = Ok data ->
    (forall s, reply_text data <> Ok (JStr s)) -> AdvisorFailure parse reply
| NoObjectInText (raw : string) (data : JsVal) (s : string) :
    reply = Ok raw -> parse raw = Ok data -> reply_text data = Ok (JStr s) ->
    Str.match_braces s = None -> AdvisorFailure parse reply
| ObjectNotParsable (raw : string) (data : JsVal) (s m : string) (e : JsError) :
    reply = Ok raw -> parse raw = Ok data -> reply_text data = Ok (JStr s) ->
    Str.match_braces s = Some m -> parse m = Err e -> AdvisorFailure parse reply.

(** The image rule on the attributes of the image with ordinal [k]: an
    attribute counts as given when its value is not empty. *)
Definition keep_or_set (name value : string) (a : list (string * string))
  : list (string * string) :=
  if Js.truthy_s (El.lookup_attr name a) then a else El.store_attr name value a.

Definition image_rule (k : nat) (a : list (string * string)) : list (string * string) :=
  if (k <=? 2)%nat
  then if Js.truthy_s (El.lookup_attr "width" a) || Js.truthy_s (El.lookup_attr "height" a)
       then a else El.store_attr "fetchpriority" "high" a
  else keep_or_set "decoding" "async" (keep_or_set "loading" "lazy" a).

(** The image rule along the images of a document, [seen] of which came
    before. *)
Fixpoint image_rules (seen : nat) (imgs : list (list (string * string)))
  : list (list (string * string)) :=
  match imgs with
  | [] => []
  | a :: rest => image_rule (Datatypes.S seen) a :: image_rules (Datatypes.S seen) rest
  end.

(** The description rule on the attributes of a [meta] element. *)
Definition description_rule (sugg : JsVal) (a : list (string * string))
  : list (string * string) :=
  if Js.truthy (Js.opt_get sugg "metaDescription") && is_description a
  then El.store_attr "content" (Js.to_string (Js.prop sugg "metaDescription")) a
  else a.

(** Induction on a node with the hypothesis for every child. *)
Section NodeInduction.

Variable P : Node -> Prop.
Hypothesis on_Element : forall tag a children,
  Forall P children -> P (Element tag a children).
Hypothesis on_Text : forall s, P (Text s).
Hypothesis on_Raw : forall html, P (Raw html).

Fixpoint Node_forest_ind (n : Node) : P n :=
  match n with
  | Element tag a children =>
      on_Element tag a children
        ((fix go (l : list Node) : Forall P l :=
            match l with
            | [] => @List.Forall_nil Node P
            | x :: rest => @List.Forall_cons Node P x rest (Node_forest_ind x) (go rest)
            end) children)
  | Text s => on_Text s
  | Raw html => on_Raw html
  end.

End NodeInduction.

(** ** Vocabulary of the extraction pass *)

(** The effect of the extraction handlers on the context at one start tag. *)
Definition context_step (url_origin : string -> result string)
  (e : string * list (string * string)) (ctx : PageContext) : PageContext :=
  match run_element (contextRewriter url_origin) (fst e) (snd e) ctx
                    (El.of_attrs (snd e)) with
  | Ok (ctx', _) => ctx'
  | Err _ => ctx
  end.

(** The source an [img] start tag contributes: its [src] when not empty. *)
Definition image_source (e : string * list (string * string)) : list string :=
  if String.eqb (fst e) "img"
  then match El.lookup_attr "src" (snd e) with
       | Some s => if String.eqb s EmptyString then [] else [s]
       | None => []
       end
  else [].

(** The absolute URL a [link[href]] or [script[src]] start tag refers to:
    [href] if it has a value, else [src], when it begins with [http]. *)
Definition resource_href (e : string * list (string * string)) : option string :=
  if matches (SelOr (SelHas "link" "href") (SelHas "script" "src")) (fst e) (snd e)
  then match Js.or_s (El.lookup_attr "href" (snd e)) (El.lookup_attr "src" (snd e)) with
       | Some h =>
           if negb (String.eqb h EmptyString) && Str.startsWith h "http"
           then Some h else None
       | None => None
       end
  else None.

(** Its origin, when the URL parses. *)
Definition resource_origin (url_origin : string -> result string)
  (e : string * list (string * string)) : option string :=
  match resource_href e with
  | Some h => match url_origin h with
              | Ok d => Some d
              | Err _ => None
              end
  | None => None
  end.

(** The description a [meta[name="description"]] start tag carries. *)
Definition meta_description (e : string * list (string * string)) : option string :=
  if String.eqb (fst e) "meta" && is_description (snd e)
  then Some (Js.or_default (El.lookup_attr "content" (snd e)) EmptyString)
  else None.

(** [set.add] along a sequence of values. *)
Definition set_add_all (ds : list string) (s : list string) : list string :=
  foldl (fun acc d => set_add d acc) s ds.

(** The facts of a context that the element handlers write. *)
Definition element_facts (ctx : PageContext) : string * list string * list string :=
  (description ctx, images ctx, externalDomains ctx).

(** ** Vocabulary of the rewriting pass *)

(** The script rule on the attributes of a [script] element. *)
Definition tracking_src (a : list (string * string)) : bool :=
  let src := Js.or_default (El.lookup_attr "src" a) EmptyString in
  Str.includes src "analytics" || Str.includes src "gtag" || Str.includes src "facebook".

Definition script_rule (a : list (string * string)) : list (string * string) :=
  if tracking_src a && negb (Js.truthy_s (El.lookup_attr "async" a))
     && negb (Js.truthy_s (El.lookup_attr "defer" a))
  then El.store_attr "async" EmptyString a else a.

(** The stylesheet rule on the attributes of a [link] element. *)
Definition deferred_stylesheet (a : list (string * string)) : bool :=
  let href := Js.or_default (El.lookup_attr "href" a) EmptyString in
  is_stylesheet a &&
  (Str.includes href "font" || Str.includes href "icon").

Definition stylesheet_rule (a : list (string * string)) : list (string * string) :=
  if deferred_stylesheet a
  then El.store_attr "onload" "this.media='all'" (El.store_attr "media" "print" a)
  else a.

(** What the rewriting pass leaves of the attributes of a start tag, by tag;
    [seen] images came before. *)
Definition element_rule (sugg : JsVal) (seen : nat) (tag : string)
  (a : list (string * string)) : list (string * string) :=
  if String.eqb tag "meta" then description_rule sugg a
  else if String.eqb tag "img" then image_rule (Datatypes.S seen) a
  else if String.eqb tag "iframe" then keep_or_set "loading" "lazy" a
  else if String.eqb tag "script" then script_rule a
  else if String.eqb tag "link" then stylesheet_rule a
  else a.

Fixpoint apply_rules (sugg : JsVal) (seen : nat)
  (es : list (string * list (string * string)))
  : list (string * list (string * string)) :=
  match es with
  | [] => []
  | (tag, a) :: rest =>
      (tag, element_rule sugg seen tag a) ::
      apply_rules sugg (if String.eqb tag "img" then Datatypes.S seen else seen) rest
  end.

Definition is_preload (html : string) : bool :=
  Str.startsWith html ("<link rel=" +:+ Str.dq +:+ "preload" +:+ Str.dq).

Definition is_attribution (html : string) : bool :=
  String.eqb html attribution_comment.

(** A string without a dot. *)
Fixpoint dotless (s : string) : bool :=
  match s with
  | EmptyString => true
  | String c rest => negb (bool_decide (c = "."%char)) && dotless rest
  end.



Definition count_bodies (doc : list Node) : nat :=
  List.length (tagged "body" (doc_elements doc)).

Definition count_attributions (doc : list Node) : nat :=
  List.length (filter (fun h => is_attribution h) (doc_raws doc)).

(** Every byte of [s] is an ASCII character. *)
Fixpoint ascii_only (s : string) : bool :=
  match s with
  | EmptyString => true
  | String c rest => (nat_of_ascii c <? 128)%nat && ascii_only rest
  end.

(** What the rewriting pass inserts into an element, by its tag: the base
    tag and the hints into a [head], the attribution comment into a [body],
    nothing into any other element. *)
Definition inserted_into (stringify : JsVal -> string) (ctx : PageContext)
  (sugg : JsVal) (originDomain : string) (tag : string) : list string :=
  if String.eqb tag "head"
  then base_tag originDomain :: head_appended stringify ctx sugg
  else if String.eqb tag "body" then [attribution_comment] else [].

(** What it inserts into a document, element by element. *)
Definition doc_inserted (stringify : JsVal -> string) (ctx : PageContext)
  (sugg : JsVal) (originDomain : string) (doc : list Node) : list string :=
  flat_map (fun e => inserted_into stringify ctx sugg originDomain (fst e))
           (doc_elements doc).



(** [s] holds the character [c]. *)
Fixpoint contains (c : ascii) (s : string) : bool :=
  match s with
  | EmptyString => false
  | String d rest => bool_decide (d = c) || contains c rest
  end.

(** The [as] of a preload, from the lower-cased extension. *)
Definition as_of_extension (ext : string) : string :=
  if String.eqb (Str.toLowerCase ext) "css" then "style"
  else if String.eqb (Str.toLowerCase ext) "js" then "script"
  else "fetch".

(** The text directly inside an element. *)
Definition own_text (children : list Node) : string :=
  foldr (fun n acc => match n with Text t => t +:+ acc | _ => acc end)
        EmptyString children.

(** The text directly inside the elements of one tag, in document order. *)
Fixpoint heading_text (tag : string) (n : Node) : string :=
  match n with
  | Element t _ children =>
      (if String.eqb t tag then own_text children else EmptyString) +:+
      (fix go (l : list Node) : string :=
         match l with
         | [] => EmptyString
         | x :: rest => heading_text tag x +:+ go rest
         end) children
  | Text _ | Raw _ => EmptyString
  end.

Definition doc_heading_text (tag : string) (doc : list Node) : string :=
  foldr (fun n acc => heading_text tag n +:+ acc) EmptyString doc.

(** Some open element has the tag [tag]. *)
Definition has_open (tag : string) (open : list (string * list (string * string)))
  : bool :=
  existsb (fun e => String.eqb (fst e) tag) open.

Definition is_element (n : Node) : bool :=
  match n with
  | Element _ _ _ => true
  | Text _ | Raw _ => false
  end.

(** Every [title] and [h1] element holds text only. *)
Fixpoint plain_headings (n : Node) : bool :=
  match n with
  | Element t _ children =>
      if String.eqb t "title" || String.eqb t "h1"
      then forallb (fun c => negb (is_element c)) children
      else (fix go (l : list Node) : bool :=
              match l with
              | [] => true
              | x :: rest => plain_headings x && go rest
              end) children
  | Text _ | Raw _ => true
  end.

(** ** The properties as the specification words them

    Where the code does something else than a sentence of the specification
    says, the sentence is kept here as it is worded, next to what is proved
    of the code. *)

(** Preconnect hints: whatever the suggestion, a [head] element receives at
    most 5 preconnect tags. *)
Definition preconnect_cap_as_claimed : Prop :=
  forall (stringify : JsVal -> string) ctx sugg originDomain a el',
    head_element stringify ctx sugg originDomain (El.of_attrs a) = Ok el' ->
    (List.length (filter (fun h => is_preconnect h) (El.appended el')) <= 5)%nat.

(** Base tag: a document with a [head] element comes out of the rewriting
    pass with exactly one more base tag than it had. *)
Definition one_base_tag_as_claimed : Prop :=
  forall (stringify : JsVal -> string) ctx sugg originDomain doc out,
    rewriteDocument stringify ctx sugg originDomain doc = Ok out ->
    (1 <= count_heads doc)%nat ->
    count_base_tags out = (count_base_tags doc + 1)%nat.

(** Images: the image with ordinal [imageCount + 1] keeps its [loading]
    when it is one of the first two, and then gets [fetchpriority] exactly
    when it has neither a [width] nor a [height] attribute; from the third
    on an attribute [loading] or [decoding] that the document has is kept
    and one that it lacks is set. *)
Definition image_rule_as_claimed : Prop :=
  forall (imageCount : nat) (el : El.Handle),
    let ordinal := Datatypes.S imageCount in
    let el' := snd (img_element imageCount el) in
    ((ordinal <= 2)%nat ->
       El.getAttribute el' "loading" = El.getAttribute el "loading" /\
       (El.getAttribute el "width" = None /\ El.getAttribute el "height" = None ->
          El.getAttribute el' "fetchpriority" = Some "high") /\
       (~ (El.getAttribute el "width" = None /\ El.getAttribute el "height" = None) ->
          El.attrs el' = El.attrs el)) /\
    ((2 < ordinal)%nat ->
       (forall v, El.getAttribute el "loading" = Some v ->
                  El.getAttribute el' "loading" = Some v) /\
       (El.getAttribute el "loading" = None ->
          El.getAttribute el' "loading" = Some "lazy") /\
       (forall v, El.getAttribute el "decoding" = Some v ->
                  El.getAttribute el' "decoding" = Some v) /\
       (El.getAttribute el "decoding" = None ->
          El.getAttribute el' "decoding" = Some "async")).

(** Origin priority: the [origin] query parameter if present, else the
    [X-Origin-Domain] header, else [ORIGIN_DOMAIN], else the fallback. *)
Definition priority_as_claimed : Prop :=
  forall request env,
    chooseOrigin request env =
    match searchParams_get "origin" (searchParams (url request)) with
    | Some v => v
    | None =>
        match headers_get (request_headers request) "X-Origin-Domain" with
        | Some v => v
        | None =>
            match ORIGIN_DOMAIN env with
            | Some v => v
            | None => fallback_origin
            end
        end
    end.

(** Origin normalization: a chosen value without a scheme, a bare hostname,
    is prefixed with [https://]. *)
Definition normalization_as_claimed : Prop :=
  forall request env,
    let chosen := chooseOrigin request env in
    Str.includes chosen "://" = false ->
    resolveOriginDomain request env = "https://" +:+ chosen.




(** ** Sample inputs *)

Module Sample.

(** Stand-ins for the platform functions, for evaluating the model on
    concrete inputs. *)
Definition stringify (v : JsVal) : string := "{}".
Definition url_origin (href : string) : result string := Ok href.
Definition decodes (contentType : option string) : bool :=
  negb (Str.includes (Str.toLowerCase (default EmptyString contentType))
                     "charset=utf-16").

Definition domains (n : nat) : list string :=
  map (fun i => "https://cdn" +:+ String (ascii_of_nat (48 + i)) EmptyString +:+ ".example")
      (seq 0 n).

(** A page context with seven external domains. *)
Definition context : PageContext :=
  {| title := "Home"; h1 := "Welcome"; description := "A shop";
     images := ["/hero.png"]; externalDomains := domains 7 |}.

(** A suggestion that lists six preconnect domains. *)
Definition six_preconnects : JsVal :=
  JObj [ ("preconnectDomains", JArr (map JStr (domains 6))) ].

(** A document with two [head] elements. *)
Definition two_heads : list Node :=
  [ Element "html" []
      [ Element "head" [] [ Element "title" [] [ Text "One" ] ];
        Element "head" [] [];
        Element "body" [] [ Text "Hello" ] ] ].

(** A page with a description and four images; the fourth has an empty
    [loading] attribute and the first an empty [width]. *)
Definition page : list Node :=
  [ Raw "<!DOCTYPE html>";
    Element "html" []
      [ Element "head" []
          [ Element "title" [] [ Text "Home" ];
            Element "meta" [("name", "description"); ("content", "A shop")] [];
            Element "meta" [("charset", "utf-8")] [] ];
        Element "body" []
          [ Element "h1" [] [ Text "Welcome" ];
            Element "img" [("src", "/hero.png"); ("width", EmptyString)] [];
            Element "img" [("src", "/logo.png"); ("height", "40")] [];
            Element "img" [("src", "/a.png"); ("decoding", "sync")] [];
            Element "img" [("src", "/b.png"); ("loading", EmptyString)] [] ] ] ].

(** A suggestion with an improved description and nothing else. *)
Definition better_description : JsVal :=
  JObj [ ("metaDescription", JStr "A better shop") ].

Definition serialize (ps : list (string * string)) : string :=
  foldr (fun p acc =>
           fst p +:+ "=" +:+ snd p +:+
           (if String.eqb acc EmptyString then EmptyString else "&" +:+ acc))
        EmptyString ps.

Definition no_env : Env := {| ORIGIN_DOMAIN := None; GEMINI_API_KEY := None |}.

(** [GET /shop?origin=&page=2] with [X-Origin-Domain: b.example]: the query
    parameter is present and empty. *)
Definition empty_origin_parameter : Request :=
  {| url := {| pathname := "/shop";
               searchParams := [("origin", EmptyString); ("page", "2")] |};
     request_headers := <["x-origin-domain" := "b.example"]> ∅ |}.

(** [GET /get?origin=httpbin.org]: a bare hostname that begins with the
    letters of [http]. *)
Definition http_named_host : Request :=
  {| url := {| pathname := "/get"; searchParams := [("origin", "httpbin.org")] |};
     request_headers := ∅ |}.

(** [GET /shop?origin=shop.example&page=2] *)
Definition plain_request : Request :=
  {| url := {| pathname := "/shop";
               searchParams := [("origin", "shop.example"); ("page", "2")] |};
     request_headers := ∅ |}.

(** A reply of the advisor as in the specification's example: the object
    wrapped in prose and code fences. *)
Definition suggestion_text : string :=
  "{" +:+ Str.dq +:+ "jsonLd" +:+ Str.dq +:+ ": {}, "
  +:+ Str.dq +:+ "metaDescription" +:+ Str.dq +:+ ": null, "
  +:+ Str.dq +:+ "preconnectDomains" +:+ Str.dq +:+ ": ["
  +:+ Str.dq +:+ "https://cdn.example.com" +:+ Str.dq +:+ "], "
  +:+ Str.dq +:+ "criticalResources" +:+ Str.dq +:+ ": []}".

Definition fenced_reply : string :=
  "Here is the result:" +:+ Str.nl +:+ "```json" +:+ Str.nl
  +:+ suggestion_text +:+ Str.nl +:+ "```" +:+ Str.nl +:+ "Hope this helps.".

Definition suggestion : JsVal :=
  JObj [ ("jsonLd", JObj []);
         ("metaDescription", JNull);
         ("preconnectDomains", JArr [ JStr "https://cdn.example.com" ]);
         ("criticalResources", JArr []) ].

Definition envelope : JsVal :=
  JObj [ ("candidates",
          JArr [ JObj [ ("content",
                         JObj [ ("parts", JArr [ JObj [ ("text", JStr fenced_reply) ] ]) ]) ] ]) ].

Definition error_envelope : JsVal :=
  JObj [ ("error", JObj [ ("code", JNum "429"); ("status", JStr "RESOURCE_EXHAUSTED") ]) ].

(** A stand-in for [JSON.parse] that knows the texts above. *)
Definition parse (s : string) : result JsVal :=
  if String.eqb s "ENVELOPE" then Ok envelope
  else if String.eqb s "ERROR" then Ok error_envelope
  else if String.eqb s suggestion_text then Ok suggestion
  else Err SyntaxError.

Definition html_response : Response :=
  {| status := 200%Z;
     headers := <["content-type" := "text/html; charset=utf-8"]>
                (<["cache-control" := "no-store"]> (<["etag" := "abc"]> ∅));
     body := Ok page |}.

Definition image_response : Response :=
  {| status := 200%Z;
     headers := <["content-type" := "image/png"]> ∅;
     body := Ok [ Text "PNG" ] |}.

(** The origin answers with the page, the advisor with the envelope. *)
Definition world : World :=
  {| origin_fetch := fun _ _ _ => Ok html_response;
     advisor_fetch := fun _ _ => Ok "ENVELOPE";
     plain_fetch := fun _ => Ok html_response |}.

(** The origin answers with an image. *)
Definition image_world : World :=
  {| origin_fetch := fun _ _ _ => Ok image_response;
     advisor_fetch := fun _ _ => Ok "ENVELOPE";
     plain_fetch := fun _ => Ok image_response |}.




(** The origin answers with a page in an encoding the rewriter does not
    decode. *)
Definition utf16_response : Response :=
  {| status := 200%Z;
     headers := <["content-type" := "text/html; charset=utf-16"]> ∅;
     body := Ok page |}.


(** A reply whose [criticalResources] are objects, not strings. *)
Definition ill_typed_suggestion : JsVal :=
  JObj [ ("criticalResources", JArr [ JObj [ ("href", JStr "/main.css") ] ]) ].

Definition ill_typed_envelope : JsVal :=
  JObj [ ("candidates",
          JArr [ JObj [ ("content",
                         JObj [ ("parts", JArr [ JObj [ ("text", JStr "{ILL}") ] ]) ]) ] ]) ].

Definition careless_parse (s : string) : result JsVal :=
  if String.eqb s "ENVELOPE" then Ok ill_typed_envelope
  else if String.eqb s "{ILL}" then Ok ill_typed_suggestion
  else Err SyntaxError.

Definition keyed_env : Env :=
  {| ORIGIN_DOMAIN := Some "shop.example"; GEMINI_API_KEY := Some "secret" |}.

End Sample.

(** ** Further sample inputs *)

Module Fixture.

(** A stand-in for [new URL(href).origin]: everything before the third
    slash; a URL with a space in it does not parse. *)
Fixpoint before_slash (n : nat) (s : string) : string :=
  match s with
  | EmptyString => EmptyString
  | String c rest =>
      if bool_decide (c = "/"%char)
      then match n with
           | O => EmptyString
           | Datatypes.S m => String c (before_slash m rest)
           end
      else String c (before_slash n rest)
  end.

Definition url_origin (href : string) : result string :=
  if Str.includes href " " then Err TypeError else Ok (before_slash 2 href).

(** A page with stylesheets and scripts: two resources of one origin, a
    relative one, one whose URL does not parse, a stylesheet whose [rel] is
    written in mixed case, iframes and tracking scripts. *)
Definition page : list Node :=
  [ Element "html" []
      [ Element "head" [("lang", "en")]
          [ Element "link" [("rel", "stylesheet");
                            ("href", "https://fonts.example/css?family=Inter");
                            ("media", "screen")] [];
            Element "link" [("rel", "stylesheet"); ("href", "/site.css")] [];
            Element "link" [("rel", "icon"); ("href", "https://cdn.example/favicon.ico")] [];
            Element "link" [("rel", "StyleSheet"); ("href", "/icons.css")] [];
            Element "script" [("src", "https://cdn.example/app.js")] [];
            Element "script" [("src", "https://bad host/x.js")] [];
            Element "meta" [("name", "description"); ("content", "First")] [];
            Element "meta" [("name", "description"); ("content", "Second")] [] ];
        Element "body" [("class", "home")]
          [ Element "img" [("src", "/a.png")] [];
            Element "img" [("src", EmptyString)] [];
            Element "img" [("src", "/a.png")] [];
            Element "iframe" [("src", "https://video.example/embed/1")] [];
            Element "iframe" [("src", "/map"); ("loading", "eager")] [];
            Element "script" [("src", "https://www.googletagmanager.com/gtag/js");
                              ("defer", EmptyString)] [];
            Element "script" [("src", "https://www.googletagmanager.com/gtag/js");
                              ("defer", "defer")] [];
            Element "script" [("src", "/main.js")] [];
            Element "script" [("src", "https://www.googletagmanager.com/gtag/js?id=G-1")]
                    [] ] ] ].

Definition response : Response :=
  {| status := 200%Z;
     headers := <["content-type" := "text/html"]> ∅;
     body := Ok page |}.

(** A reply of the advisor: an object with an object inside, between two
    sentences. *)
Definition prose_before : string := "Here you go: ".
Definition object_inside : string := Str.dq +:+ "jsonLd" +:+ Str.dq +:+ ": {}".
Definition prose_after : string := " Anything else?".

Definition reply_part : JsVal :=
  JObj [ ("text", JStr (prose_before +:+ "{" +:+ object_inside +:+ "}" +:+ prose_after)) ].

Definition reply_candidate : JsVal :=
  JObj [ ("content", JObj [ ("parts", JArr [ reply_part ]) ]) ].

Definition reply : JsVal := JObj [ ("candidates", JArr [ reply_candidate ]) ].

Definition parse (s : string) : result JsVal :=
  if String.eqb s "REPLY" then Ok reply
  else if String.eqb s ("{" +:+ object_inside +:+ "}")
       then Ok (JObj [ ("jsonLd", JObj []) ])
       else Err SyntaxError.

Definition stringify (v : JsVal) : string := "PAYLOAD".

(** A string of two code points in three bytes: a letter with an acute
    accent, then [x]. *)
Definition accented : string :=
  String (ascii_of_nat 195) (String (ascii_of_nat 169) "x").

(** A page with a title in two pieces and two headings. *)
Definition headings : list Node :=
  [ Element "html" []
      [ Element "head" []
          [ Element "title" [] [ Text "Shop"; Text " - Home" ] ];
        Element "body" []
          [ Element "h1" [("class", "hero")] [ Text "Welcome" ];
            Element "div" []
              [ Text "not a heading";
                Element "h1" [] [ Raw "<!-- again -->"; Text " back" ] ] ] ] ].

Definition headings_response : Response :=
  {| status := 200%Z;
     headers := <["content-type" := "text/html"]> ∅;
     body := Ok headings |}.

Definition world : World :=
  {| origin_fetch := fun _ _ _ => Ok response;
     advisor_fetch := fun _ _ => Ok "REPLY";
     plain_fetch := fun _ => Ok response |}.

End Fixture.

(** * Properties *)

(** Evaluates comparisons between string literals. *)
Ltac eval_eqb :=
  repeat match goal with
  | |- context [String.eqb (String ?c ?s) ?y] =>
      let b := eval vm_compute in (String.eqb (String c s) y) in
      change (String.eqb (String c s) y) with b
  end.

(** ** The result monad *)

Lemma rbind_Ok {A B : Type} (r : result A) (f : A -> result B) (b : B) :
  r ≫= f = Ok b <-> exists a, r = Ok a /\ f a = Ok b.
Proof.
  destruct r as [a | e]; cbn.
  - split; [intros H; exists a; auto | intros (a' & [= <-] & H); exact H].
  - split; [discriminate | intros (a' & [=] & _)].
Qed.

Lemma rbind_Err {A B : Type} (r : result A) (f : A -> result B) (e : JsError) :
  r ≫= f = Err e <-> r = Err e \/ exists a, r = Ok a /\ f a = Err e.
Proof.
  destruct r as [a | e']; cbn.
  - split; [intros H; right; exists a; auto |].
    intros [[=] | (a' & [= <-] & H)]; exact H.
  - split; [intros [= <-]; left; reflexivity |].
    intros [[= <-] | (a' & [=] & _)]; reflexivity.
Qed.

(** ** The forward pass *)

Section PassFacts.

Context {S : Type}.
Implicit Types (regs : list (Registration S)) (st : S).

Lemma transform_children regs open (l : list Node) st :
  (fix go (l : list Node) (acc : S) : result (S * list Node) :=
     match l with
     | [] => Ok (acc, [])
     | x :: rest =>
         '(acc1, x') ← transform_node regs open x acc;
         '(acc2, rest') ← go rest acc1;
         Ok (acc2, x' :: rest')
     end) l st = transform_nodes regs open l st.
Proof.
  revert st. induction l as [| x rest IH]; intros st; [reflexivity |].
  cbn [transform_nodes]. destruct (transform_node regs open x st) as [[acc1 x'] | e];
    [cbn | reflexivity].
  rewrite IH. reflexivity.
Qed.

Lemma transform_node_Element regs open tag a children st :
  transform_node regs open (Element tag a children) st =
  '(st1, el) ← run_element regs tag a st (El.of_attrs a);
  '(st2, children') ←
    transform_nodes regs (open ++ [(tag, a)]) children st1;
  Ok (st2, Element tag (El.attrs el)
             (map Raw (El.prepended el) ++ children' ++ map Raw (El.appended el))).
Proof.
  cbn [transform_node].
  destruct (run_element regs tag a st (El.of_attrs a)) as [[st1 el] | e];
    [cbn | reflexivity].
  rewrite transform_children. reflexivity.
Qed.

Lemma run_elements_app regs es1 es2 st :
  run_elements regs (es1 ++ es2) st =
  '(st1, els1) ← run_elements regs es1 st;
  '(st2, els2) ← run_elements regs es2 st1;
  Ok (st2, els1 ++ els2).
Proof.
  revert st. induction es1 as [| [tag a] rest IH]; intros st.
  - cbn. destruct (run_elements regs es2 st) as [[st2 els2] | e]; reflexivity.
  - cbn [run_elements app].
    destruct (run_element regs tag a st (El.of_attrs a)) as [[st1 el] | e];
      [cbn | reflexivity].
    rewrite IH.
    destruct (run_elements regs rest st1) as [[st2 els1] | e]; [cbn | reflexivity].
    destruct (run_elements regs es2 st2) as [[st3 els2] | e]; reflexivity.
Qed.

Lemma textless_run_text regs open s st :
  textless regs -> run_text regs open s st = st.
Proof.
  induction 1 as [| r rest Hr _ IH]; [reflexivity |].
  cbn [run_text]. rewrite Hr. destruct (opened r open); exact IH.
Qed.

(** Registrations without text handlers do not look at the open elements. *)
Lemma textless_open_node regs (Hregs : textless regs) (n : Node) :
  forall open st, transform_node regs open n st = transform_node regs [] n st.
Proof.
  induction n as [tag a children IH | s | html] using Node_forest_ind;
    intros open st; [| cbn; rewrite !textless_run_text by exact Hregs; reflexivity
                     | reflexivity].
  rewrite !transform_node_Element.
  destruct (run_element regs tag a st (El.of_attrs a)) as [[st1 el] | e];
    [| reflexivity].
  cbn [mbind result_bind rbind].
  assert (Hch : forall o c,
            transform_nodes regs o children c = transform_nodes regs [] children c).
  { induction IH as [| x rest Hx _ IHrest]; intros o c; [reflexivity |].
    cbn [transform_nodes]. rewrite (Hx o c).
    destruct (transform_node regs [] x c) as [[c1 x'] | e]; [| reflexivity].
    cbn [mbind result_bind rbind]. rewrite (IHrest o c1). reflexivity. }
  rewrite (Hch (open ++ [(tag, a)])), (Hch ([] ++ [(tag, a)])). reflexivity.
Qed.

Lemma textless_open_nodes regs (Hregs : textless regs) (l : list Node) :
  forall open st, transform_nodes regs open l st = transform_nodes regs [] l st.
Proof.
  induction l as [| x rest IH]; intros open st; [reflexivity |].
  cbn [transform_nodes]. rewrite (textless_open_node regs Hregs x open st).
  destruct (transform_node regs [] x st) as [[st1 x'] | e]; [| reflexivity].
  cbn [mbind result_bind rbind]. rewrite (IH open st1). reflexivity.
Qed.

Lemma elements_Raw (l : list string) : flat_map elements (map Raw l) = [].
Proof. induction l; auto. Qed.

Lemma raws_Raw (l : list string) : flat_map raws (map Raw l) = l.
Proof. induction l as [| h l IH]; [reflexivity |]. cbn. rewrite IH. reflexivity. Qed.

Lemma flat_view_app regs es1 es1' rs1 rs1' es2 es2' rs2 rs2' st st1 st2 :
  flat_view regs es1 es1' rs1 rs1' st st1 ->
  flat_view regs es2 es2' rs2 rs2' st1 st2 ->
  flat_view regs (es1 ++ es2) (es1' ++ es2') (rs1 ++ rs2) (rs1' ++ rs2') st st2.
Proof.
  intros (els1 & R1 & E1 & L1 & P1) (els2 & R2 & E2 & L2 & P2).
  exists (els1 ++ els2). repeat split.
  - rewrite run_elements_app, R1. cbn. rewrite R2. reflexivity.
  - subst. rewrite zip_with_app by (symmetry; exact L1). reflexivity.
  - rewrite !length_app. congruence.
  - unfold injected in *. rewrite flat_map_app, P1, P2.
    rewrite <- !app_assoc. apply Permutation_app_head.
    rewrite !app_assoc. apply Permutation_app_tail, Permutation_app_comm.
Qed.

Lemma transform_node_flat regs (Hregs : textless regs) (n : Node) :
  forall st st' n',
    transform_node regs [] n st = Ok (st', n') ->
    flat_view regs (elements n) (elements n') (raws n) (raws n') st st'.
Proof.
  induction n as [tag a children IH | s | html] using Node_forest_ind;
    intros st st' n' H.
  - rewrite transform_node_Element in H.
    apply rbind_Ok in H as ([st1 el] & Hel & H).
    apply rbind_Ok in H as ([st2 children'] & Hch0 & H).
    rewrite (textless_open_nodes regs Hregs) in Hch0.
    injection H as <- <-.
    assert (Hch : flat_view regs (flat_map elements children)
                    (flat_map elements children')
                    (flat_map raws children) (flat_map raws children') st1 st2).
    { clear Hel. revert st1 st2 children' Hch0.
      induction IH as [| x rest Hx _ IHrest]; intros st1 st2 children' Hch.
      - cbn in Hch. injection Hch as <- <-. exists []. repeat split; reflexivity.
      - cbn [transform_nodes] in Hch.
        apply rbind_Ok in Hch as ([sta x'] & Hx' & Hch).
        apply rbind_Ok in Hch as ([stb rest'] & Hrest' & Hch).
        injection Hch as <- <-.
        cbn [flat_map]. eapply flat_view_app; eauto. }
    destruct Hch as (els & R & E & L & Pm).
    exists (el :: els). repeat split.
    + cbn [elements run_elements]. rewrite Hel. cbn. rewrite R. reflexivity.
    + cbn [elements zip_with fst]. f_equal.
      rewrite !flat_map_app, !elements_Raw, app_nil_r. exact E.
    + cbn. congruence.
    + cbn [raws]. rewrite !flat_map_app, !raws_Raw, Pm.
      unfold injected. cbn [flat_map]. solve_Permutation.
  - cbn [transform_node] in H. rewrite textless_run_text in H by exact Hregs.
    injection H as <- <-. exists []. repeat split; reflexivity.
  - cbn in H. injection H as <- <-. exists []. repeat split; reflexivity.
Qed.

End PassFacts.

Lemma transform_flat {S : Type} (regs : list (Registration S)) (doc : list Node) :
  textless regs ->
  forall st st' doc',
    transform regs doc st = Ok (st', doc') ->
    flat_view regs (doc_elements doc) (doc_elements doc')
              (doc_raws doc) (doc_raws doc') st st'.
Proof.
  intros Hregs. unfold transform, doc_elements, doc_raws.
  induction doc as [| x rest IH]; intros st st' doc' H.
  - cbn in H. injection H as <- <-. exists []. repeat split; reflexivity.
  - cbn [transform_nodes] in H.
    apply rbind_Ok in H as ([st1 x'] & Hx & H).
    apply rbind_Ok in H as ([st2 rest'] & Hrest & H).
    injection H as <- <-. cbn [flat_map].
    eapply flat_view_app; [eapply transform_node_flat; eauto | eauto].
Qed.

(** ** Strings and attributes *)

Lemma lookup_store_eq name value a :
  El.lookup_attr name (El.store_attr name value a) = Some value.
Proof.
  induction a as [| [n v] rest IH]; cbn.
  - rewrite String.eqb_refl. reflexivity.
  - destruct (String.eqb n name) eqn:E; cbn; rewrite E; auto.
Qed.

Lemma lookup_store_ne name other value a :
  other <> name ->
  El.lookup_attr other (El.store_attr name value a) = El.lookup_attr other a.
Proof.
  intros Hne. induction a as [| [n v] rest IH]; cbn.
  - destruct (String.eqb_spec name other); [congruence | reflexivity].
  - destruct (String.eqb_spec n name) as [-> | Hn]; cbn.
    + destruct (String.eqb_spec name other); [congruence | reflexivity].
    + destruct (String.eqb n other); auto.
Qed.

Lemma lookup_keep_or_set_ne name other value a :
  other <> name ->
  El.lookup_attr other (keep_or_set name value a) = El.lookup_attr other a.
Proof.
  intros Hne. unfold keep_or_set.
  destruct (Js.truthy_s _); [reflexivity | apply lookup_store_ne, Hne].
Qed.

Lemma lookup_keep_or_set_eq name value a :
  El.lookup_attr name (keep_or_set name value a) =
  if Js.truthy_s (El.lookup_attr name a) then El.lookup_attr name a else Some value.
Proof.
  unfold keep_or_set. destruct (Js.truthy_s _); [reflexivity | apply lookup_store_eq].
Qed.

(** ** The handlers of the rewriting pass *)

Lemma img_element_rule (imageCount : nat) (a : list (string * string)) :
  img_element imageCount (El.of_attrs a) =
  (Datatypes.S imageCount,
   {| El.attrs := image_rule (Datatypes.S imageCount) a;
      El.prepended := []; El.appended := [] |}).
Proof.
  unfold img_element, image_rule, keep_or_set, El.getAttribute, El.setAttribute,
    El.of_attrs.
  destruct (Nat.leb_spec (Datatypes.S imageCount) 2) as [Hle | Hgt].
  - replace (2 <? Datatypes.S imageCount)%nat with false
      by (symmetry; apply Nat.ltb_ge; lia).
    cbn [El.attrs El.prepended El.appended].
    destruct (Js.truthy_s (El.lookup_attr "width" a)),
             (Js.truthy_s (El.lookup_attr "height" a)); reflexivity.
  - replace (2 <? Datatypes.S imageCount)%nat with true
      by (symmetry; apply Nat.ltb_lt; lia).
    assert (same : forall (b : bool) (x : El.Handle), (if b then x else x) = x)
      by (intros []; reflexivity).
    rewrite same. cbn [El.attrs El.prepended El.appended].
    destruct (Js.truthy_s (El.lookup_attr "loading" a));
      cbn [El.attrs El.prepended El.appended negb];
      match goal with
      | |- context [Js.truthy_s (El.lookup_attr "decoding" ?x)] =>
          destruct (Js.truthy_s (El.lookup_attr "decoding" x))
      end; reflexivity.
Qed.

Lemma opt_get_prop (v : JsVal) (k : string) :
  Js.truthy (Js.opt_get v k) = true -> Js.prop v k = Js.opt_get v k.
Proof. unfold Js.opt_get. destruct (Js.nullish v); [discriminate | reflexivity]. Qed.

Lemma iterate_items (v : JsVal) : iterable v = true -> Js.iterate v = Ok (items v).
Proof. destruct v; try discriminate; reflexivity. Qed.

Lemma iterate_fails (v : JsVal) : iterable v = false -> Js.iterate v = Err TypeError.
Proof. destruct v; try discriminate; reflexivity. Qed.

Lemma foldl_append {A : Type} (f : A -> string) (l : list A) (el : El.Handle) :
  foldl (fun e d => El.append e (f d)) el l =
  {| El.attrs := El.attrs el; El.prepended := El.prepended el;
     El.appended := El.appended el ++ map f l |}.
Proof.
  revert el. induction l as [| d rest IH]; intros el; cbn [foldl map].
  - rewrite app_nil_r. destruct el; reflexivity.
  - rewrite IH. unfold El.append. cbn. rewrite <- app_assoc. reflexivity.
Qed.

Lemma append_preloads_spec (resources : list JsVal) (el : El.Handle) :
  forallb is_string resources = true ->
  append_preloads resources el =
  Ok {| El.attrs := El.attrs el; El.prepended := El.prepended el;
        El.appended := El.appended el ++ map preload_of resources |}.
Proof.
  revert el. induction resources as [| r rest IH]; intros el H; cbn [append_preloads map].
  - rewrite app_nil_r. destruct el; reflexivity.
  - cbn [forallb] in H. apply andb_prop in H as [Hr Hrest].
    destruct r; try discriminate. cbn [asType]. cbn [mbind result_bind rbind].
    rewrite (IH _ Hrest). unfold El.append, preload_of. cbn.
    rewrite <- app_assoc. reflexivity.
Qed.

Lemma append_preloads_fails (resources : list JsVal) (el : El.Handle) :
  forallb is_string resources = false ->
  append_preloads resources el = Err TypeError.
Proof.
  revert el. induction resources as [| r rest IH]; intros el H; [discriminate |].
  cbn [forallb] in H. cbn [append_preloads].
  destruct r; try reflexivity. cbn [is_string andb] in H.
  cbn [asType]. cbn [mbind result_bind rbind]. apply IH, H.
Qed.

Section RewriteFacts.

Variable stringify : JsVal -> string.
Variables (ctx : PageContext) (sugg : JsVal) (originDomain : string).

Lemma preconnectDomains_absent :
  Js.truthy (Js.opt_get sugg "preconnectDomains") = false ->
  preconnectDomains ctx sugg = JArr (map JStr (slice_0_5 (externalDomains ctx))).
Proof. intros H. unfold preconnectDomains, Js.or. rewrite H. reflexivity. Qed.

Lemma preconnectDomains_present :
  Js.truthy (Js.opt_get sugg "preconnectDomains") = true ->
  preconnectDomains ctx sugg = Js.opt_get sugg "preconnectDomains".
Proof. intros H. unfold preconnectDomains, Js.or. rewrite H. reflexivity. Qed.

(** The handler of [head] on a well-typed suggestion: it returns, with the
    base tag prepended and [head_appended] appended. *)
Lemma head_element_spec (el : El.Handle) :
  well_typed sugg = true ->
  head_element stringify ctx sugg originDomain el =
  Ok {| El.attrs := El.attrs el;
        El.prepended := base_tag originDomain :: El.prepended el;
        El.appended := El.appended el ++ head_appended stringify ctx sugg |}.
Proof.
  unfold well_typed. intros H. apply andb_prop in H as [Hpd Hcr].
  unfold head_element, head_appended.
  assert (Hit : iterable (preconnectDomains ctx sugg) = true).
  { destruct (Js.truthy (Js.opt_get sugg "preconnectDomains")) eqn:T.
    - rewrite preconnectDomains_present by exact T. exact Hpd.
    - rewrite preconnectDomains_absent by exact T. reflexivity. }
  rewrite (iterate_items _ Hit). cbn [mbind result_bind rbind].
  rewrite !foldl_append. cbn [El.attrs El.prepended El.appended El.prepend].
  destruct (Js.truthy (Js.opt_get sugg "jsonLd")) eqn:Tj;
    destruct (Js.truthy (Js.opt_get sugg "criticalResources")) eqn:Tc;
    cbn [negb orb] in Hcr.
  all: try (apply andb_prop in Hcr as [Hi Hs];
            rewrite (opt_get_prop _ _ Tc), (iterate_items _ Hi);
            cbn [mbind result_bind rbind]; rewrite (append_preloads_spec _ _ Hs)).
  all: cbn [mbind result_bind rbind]; unfold El.append;
    cbn [El.attrs El.prepended El.appended].
  all: rewrite <- ?app_assoc; reflexivity.
Qed.

(** On any other suggestion the handler throws. *)
Lemma head_element_fails (el : El.Handle) :
  well_typed sugg = false ->
  head_element stringify ctx sugg originDomain el = Err TypeError.
Proof.
  unfold well_typed. intros H. unfold head_element.
  destruct (Js.truthy (Js.opt_get sugg "preconnectDomains")) eqn:Tp; cbn [negb orb] in H.
  - rewrite preconnectDomains_present by exact Tp.
    destruct (iterable (Js.opt_get sugg "preconnectDomains")) eqn:Ip.
    + rewrite (iterate_items _ Ip). cbn [mbind result_bind rbind andb] in *.
      destruct (Js.truthy (Js.opt_get sugg "criticalResources")) eqn:Tc;
        cbn [negb orb] in H; [| discriminate].
      rewrite (opt_get_prop _ _ Tc).
      destruct (iterable (Js.opt_get sugg "criticalResources")) eqn:Ic.
      * rewrite (iterate_items _ Ic). cbn [mbind result_bind rbind andb] in *.
        rewrite (append_preloads_fails _ _ H). reflexivity.
      * rewrite (iterate_fails _ Ic). reflexivity.
    + rewrite (iterate_fails _ Ip). reflexivity.
  - rewrite preconnectDomains_absent by exact Tp.
    cbn [Js.iterate mbind result_bind rbind andb] in *.
    destruct (Js.truthy (Js.opt_get sugg "criticalResources")) eqn:Tc;
      cbn [negb orb] in H; [| discriminate].
    rewrite (opt_get_prop _ _ Tc).
    destruct (iterable (Js.opt_get sugg "criticalResources")) eqn:Ic.
    + rewrite (iterate_items _ Ic). cbn [mbind result_bind rbind andb] in *.
      rewrite (append_preloads_fails _ _ H). reflexivity.
    + rewrite (iterate_fails _ Ic). reflexivity.
Qed.

End RewriteFacts.

(** ** Which tag is which *)

Lemma filter_map_all {A : Type} (P : string -> bool) (f : A -> string) (l : list A) :
  (forall x, P (f x) = true) -> filter (fun h => P h) (map f l) = map f l.
Proof.
  intros H. induction l as [| x rest IH]; [reflexivity |]. cbn [map].
  rewrite filter_cons_True by (rewrite H; exact I). rewrite IH. reflexivity.
Qed.

Lemma filter_map_none {A : Type} (P : string -> bool) (f : A -> string) (l : list A) :
  (forall x, P (f x) = false) -> filter (fun h => P h) (map f l) = [].
Proof.
  intros H. induction l as [| x rest IH]; [reflexivity |]. cbn [map].
  rewrite filter_cons_False by (rewrite H; exact id). exact IH.
Qed.

Lemma filter_one (P : string -> bool) (h : string) :
  filter (fun x => P x) [h] = if P h then [h] else [].
Proof.
  destruct (P h) eqn:E.
  - rewrite filter_cons_True by (rewrite E; exact I). reflexivity.
  - rewrite filter_cons_False by (rewrite E; exact id). reflexivity.
Qed.

Lemma preload_of_cases (r : JsVal) :
  preload_of r = EmptyString \/ exists s a, preload_of r = preload_tag s a.
Proof.
  unfold preload_of. destruct (asType r) as [[s a] | e]; [right; eauto | left; reflexivity].
Qed.

Lemma preconnect_is_preconnect d : is_preconnect (preconnect_tag d) = true.
Proof. reflexivity. Qed.
Lemma dns_not_preconnect d : is_preconnect (dns_prefetch_tag d) = false.
Proof. reflexivity. Qed.
Lemma jsonld_not_preconnect p : is_preconnect (jsonld_script p) = false.
Proof. reflexivity. Qed.
Lemma preload_not_preconnect r : is_preconnect (preload_of r) = false.
Proof. destruct (preload_of_cases r) as [-> | (s & a & ->)]; reflexivity. Qed.


Lemma base_is_base o : is_base_tag (base_tag o) = true.
Proof. reflexivity. Qed.
Lemma preconnect_not_base d : is_base_tag (preconnect_tag d) = false.
Proof. reflexivity. Qed.
Lemma dns_not_base d : is_base_tag (dns_prefetch_tag d) = false.
Proof. reflexivity. Qed.
Lemma jsonld_not_base p : is_base_tag (jsonld_script p) = false.
Proof. reflexivity. Qed.
Lemma preload_not_base r : is_base_tag (preload_of r) = false.
Proof. destruct (preload_of_cases r) as [-> | (s & a & ->)]; reflexivity. Qed.

Section HeadTags.

Variable stringify : JsVal -> string.
Variables (ctx : PageContext) (sugg : JsVal).

Lemma head_appended_preconnect :
  filter (fun h => is_preconnect h) (head_appended stringify ctx sugg) =
  map (fun d => preconnect_tag (Js.to_string d)) (items (preconnectDomains ctx sugg)).
Proof.
  unfold head_appended. rewrite !filter_app.
  rewrite (filter_map_all is_preconnect) by (intros; apply preconnect_is_preconnect).
  rewrite (filter_map_none is_preconnect dns_prefetch_tag)
    by (intros; apply dns_not_preconnect).
  assert (Hj : filter (fun h => is_preconnect h)
            (if Js.truthy (Js.opt_get sugg "jsonLd")
             then [jsonld_script (stringify (Js.prop sugg "jsonLd"))] else []) = []).
  { destruct (Js.truthy (Js.opt_get sugg "jsonLd")); [| reflexivity].
    rewrite filter_one, jsonld_not_preconnect. reflexivity. }
  assert (Hc : filter (fun h => is_preconnect h)
            (if Js.truthy (Js.opt_get sugg "criticalResources")
             then map preload_of (items (Js.prop sugg "criticalResources")) else []) = []).
  { destruct (Js.truthy (Js.opt_get sugg "criticalResources")); [| reflexivity].
    apply filter_map_none. intros; apply preload_not_preconnect. }
  rewrite Hj, Hc, filter_one. cbn. rewrite app_nil_r. reflexivity.
Qed.


Lemma head_appended_base :
  filter (fun h => is_base_tag h) (head_appended stringify ctx sugg) = [].
Proof.
  unfold head_appended. rewrite !filter_app.
  rewrite (filter_map_none is_base_tag) by (intros; apply preconnect_not_base).
  rewrite (filter_map_none is_base_tag dns_prefetch_tag) by (intros; apply dns_not_base).
  assert (Hj : filter (fun h => is_base_tag h)
            (if Js.truthy (Js.opt_get sugg "jsonLd")
             then [jsonld_script (stringify (Js.prop sugg "jsonLd"))] else []) = []).
  { destruct (Js.truthy (Js.opt_get sugg "jsonLd")); [| reflexivity].
    rewrite filter_one, jsonld_not_base. reflexivity. }
  assert (Hc : filter (fun h => is_base_tag h)
            (if Js.truthy (Js.opt_get sugg "criticalResources")
             then map preload_of (items (Js.prop sugg "criticalResources")) else []) = []).
  { destruct (Js.truthy (Js.opt_get sugg "criticalResources")); [| reflexivity].
    apply filter_map_none. intros; apply preload_not_base. }
  rewrite Hj, Hc, filter_one. reflexivity.
Qed.

End HeadTags.

(** ** Resource hints in the head *)

Lemma length_slice_0_5 (l : list string) :
  List.length (slice_0_5 l) = Nat.min (List.length l) 5.
Proof. unfold slice_0_5. rewrite length_take. lia. Qed.



(** C1, as amended. For a [head] element and a suggestion that is absent or
    well typed, the handler returns and the preconnect link tags it appended
    are, in order, one per entry of the list it iterates: the suggestion's
    [preconnectDomains] when that value is present (truthy), with no cap on
    its length, otherwise the first 5 entries of the extracted external-domain
    set. Only in the second case is the number of preconnect tags bounded by
    5; in the first it is the length of the suggestion's list. *)
Theorem preconnect_hints_source (stringify : JsVal -> string) (ctx : PageContext)
  (sugg : JsVal) (originDomain : string) (a : list (string * string)) :
  well_typed sugg = true ->
  exists el',
    head_element stringify ctx sugg originDomain (El.of_attrs a) = Ok el' /\
    (Js.truthy (Js.opt_get sugg "preconnectDomains") = false ->
       filter (fun h => is_preconnect h) (El.appended el') =
         map preconnect_tag (slice_0_5 (externalDomains ctx)) /\
       (List.length (filter (fun h => is_preconnect h) (El.appended el')) <= 5)%nat) /\
    (forall l, Js.opt_get sugg "preconnectDomains" = JArr l ->
       filter (fun h => is_preconnect h) (El.appended el') =
         map (fun d => preconnect_tag (Js.to_string d)) l /\
       List.length (filter (fun h => is_preconnect h) (El.appended el')) =
         List.length l).
Proof.
  intros Hwt. eexists. split; [apply head_element_spec, Hwt |].
  cbn [El.appended El.of_attrs app]. rewrite head_appended_preconnect. split.
  - intros Habsent. rewrite preconnectDomains_absent by exact Habsent.
    cbn [items]. rewrite map_map. cbn [Js.to_string]. split; [reflexivity |].
    rewrite length_map, length_slice_0_5. lia.
  - intros l Hl. rewrite preconnectDomains_present by (rewrite Hl; reflexivity).
    rewrite Hl. cbn [items]. split; [reflexivity | apply length_map].
Qed.

Lemma preconnect_hints_source_witness :
  exists el',
    head_element Sample.stringify Sample.context JNull "https://shop.example"
                 (El.of_attrs []) = Ok el' /\
    List.length (filter (fun h => is_preconnect h) (El.appended el')) = 5%nat.
Proof.
  destruct (preconnect_hints_source Sample.stringify Sample.context JNull
              "https://shop.example" [] eq_refl) as (el' & Hrun & Habsent & _).
  exists el'. split; [exact Hrun |].
  destruct (Habsent eq_refl) as [-> _]. reflexivity.
Defined.

(** C1 as worded fails: a suggestion that lists six preconnect domains gets
    six preconnect tags. *)
Lemma preconnect_cap_counterexample : ~ preconnect_cap_as_claimed.
Proof.
  intros claim.
  specialize (claim Sample.stringify Sample.context Sample.six_preconnects
                    "https://shop.example" [] _ eq_refl).
  vm_compute in claim. lia.
Qed.

(** ** The registrations of the rewriting pass *)

Section RewriteRegistrations.

Variable stringify : JsVal -> string.
Variables (ctx : PageContext) (sugg : JsVal) (originDomain : string).

Let regs := rewriteRegistrations stringify ctx sugg originDomain.

Lemma rewrite_textless : textless regs.
Proof.
  unfold regs, rewriteRegistrations, textless, pure_handler.
  destruct (Js.truthy (Js.opt_get sugg "metaDescription")); repeat constructor.
Qed.

(** Which handler an element meets: the registrations select on distinct
    tags, so at most one of them runs. *)
Lemma run_rewrite (tag : string) (a : list (string * string)) (imageCount : nat) :
  run_element regs tag a imageCount (El.of_attrs a) =
  if String.eqb tag "head" then
    el' ← head_element stringify ctx sugg originDomain (El.of_attrs a);
    Ok (imageCount, el')
  else if String.eqb tag "meta" then
    Ok (imageCount,
        if Js.truthy (Js.opt_get sugg "metaDescription") && is_description a
        then description_element sugg (El.of_attrs a) else El.of_attrs a)
  else if String.eqb tag "img" then Ok (img_element imageCount (El.of_attrs a))
  else if String.eqb tag "iframe" then Ok (imageCount, iframe_element (El.of_attrs a))
  else if String.eqb tag "script" then
    Ok (imageCount,
        if bool_decide (is_Some (El.lookup_attr "src" a))
        then script_element (El.of_attrs a) else El.of_attrs a)
  else if String.eqb tag "link" then
    Ok (imageCount,
        if is_stylesheet a
        then stylesheet_element (El.of_attrs a) else El.of_attrs a)
  else if String.eqb tag "body" then Ok (imageCount, body_element (El.of_attrs a))
  else Ok (imageCount, El.of_attrs a).
Proof.
  unfold regs, rewriteRegistrations, pure_handler, is_description.
  destruct (Js.truthy (Js.opt_get sugg "metaDescription"));
    cbn [app run_element matches selector on_element andb];
    change (attr_equals "name" "description" a)
      with (bool_decide (El.lookup_attr "name" a = Some "description"));
    change (attr_equals "rel" "stylesheet" a) with (is_stylesheet a);
    (destruct (String.eqb_spec tag "head") as [-> | _];
     [ eval_eqb; cbn [andb];
       destruct (head_element stringify ctx sugg originDomain (El.of_attrs a));
       reflexivity |]);
    (destruct (String.eqb_spec tag "meta") as [-> | _];
     [ eval_eqb; cbn [andb];
       destruct (bool_decide (El.lookup_attr "name" a = Some "description"));
       reflexivity |]);
    cbn [andb];
    (destruct (String.eqb_spec tag "img") as [-> | _];
     [ eval_eqb; cbn [andb]; destruct (img_element imageCount (El.of_attrs a));
       reflexivity |]);
    (destruct (String.eqb_spec tag "iframe") as [-> | _];
     [ eval_eqb; cbn [andb]; reflexivity |]);
    (destruct (String.eqb_spec tag "script") as [-> | _];
     [ eval_eqb; cbn [andb];
       destruct (bool_decide (is_Some (El.lookup_attr "src" a))); reflexivity |]);
    cbn [andb];
    (destruct (String.eqb_spec tag "link") as [-> | _];
     [ eval_eqb; cbn [andb];
       destruct (is_stylesheet a); reflexivity |]);
    cbn [andb];
    (destruct (String.eqb_spec tag "body") as [-> | _]; reflexivity).
Qed.

Lemma rewrite_element_effect (tag : string) (a : list (string * string))
  (k k' : nat) (el : El.Handle) :
  run_element regs tag a k (El.of_attrs a) = Ok (k', el) ->
  k' = (if String.eqb tag "img" then Datatypes.S k else k) /\
  (String.eqb tag "img" = true -> El.attrs el = image_rule (Datatypes.S k) a) /\
  (String.eqb tag "meta" = true -> El.attrs el = description_rule sugg a) /\
  filter (fun h => is_base_tag h) (El.prepended el ++ El.appended el) =
    (if String.eqb tag "head" then [base_tag originDomain] else []).
Proof.
  rewrite run_rewrite.
  destruct (String.eqb_spec tag "head") as [-> | _].
  { eval_eqb. intros H. apply rbind_Ok in H as (el' & Hel & [= <- <-]).
    destruct (well_typed sugg) eqn:Hwt.
    - rewrite head_element_spec in Hel by exact Hwt. injection Hel as <-.
      cbn [El.prepended El.appended El.of_attrs app].
      repeat split; try discriminate.
      change (base_tag originDomain :: head_appended stringify ctx sugg)
        with ([base_tag originDomain] ++ head_appended stringify ctx sugg).
      rewrite filter_app, head_appended_base, filter_one, base_is_base.
      reflexivity.
    - rewrite head_element_fails in Hel by exact Hwt. discriminate. }
  destruct (String.eqb_spec tag "meta") as [-> | _].
  { eval_eqb. intros [= <- <-]. repeat split; try discriminate.
    - intros _. unfold description_rule, description_element.
      destruct (Js.truthy _ && is_description a); reflexivity.
    - destruct (Js.truthy _ && is_description a); reflexivity. }
  destruct (String.eqb_spec tag "img") as [-> | _].
  { eval_eqb. rewrite img_element_rule. intros [= <- <-].
    repeat split; try discriminate; reflexivity. }
  destruct (String.eqb_spec tag "iframe") as [-> | _].
  { intros [= <- <-]. repeat split; try discriminate.
    unfold iframe_element. destruct (negb _); reflexivity. }
  destruct (String.eqb_spec tag "script") as [-> | _].
  { intros [= <- <-]. repeat split; try discriminate.
    unfold script_element.
    repeat match goal with |- context [if ?b then _ else _] => destruct b end;
      reflexivity. }
  destruct (String.eqb_spec tag "link") as [-> | _].
  { intros [= <- <-]. repeat split; try discriminate.
    unfold stylesheet_element.
    repeat match goal with |- context [if ?b then _ else _] => destruct b end;
      reflexivity. }
  destruct (String.eqb_spec tag "body") as [-> | _].
  { intros [= <- <-]. repeat split; discriminate. }
  intros [= <- <-]. repeat split; discriminate.
Qed.

Lemma tagged_cons (t tag : string) (a : list (string * string)) es :
  tagged t ((tag, a) :: es) =
  if String.eqb tag t then a :: tagged t es else tagged t es.
Proof.
  unfold tagged. destruct (String.eqb tag t) eqn:E.
  - rewrite filter_cons_True by (cbn; rewrite E; exact I). reflexivity.
  - rewrite filter_cons_False by (cbn; rewrite E; exact id). reflexivity.
Qed.

(** The effect of the pass on the start tags of a document, image by image
    and [meta] by [meta], and the base tags it inserted. *)
Lemma run_elements_rewrite es :
  forall k k' els,
    run_elements regs es k = Ok (k', els) ->
    let es' := zip_with (fun e el => (fst e, El.attrs el)) es els in
    k' = (k + List.length (tagged "img" es))%nat /\
    tagged "img" es' = image_rules k (tagged "img" es) /\
    tagged "meta" es' = map (description_rule sugg) (tagged "meta" es) /\
    filter (fun h => is_base_tag h) (injected els) =
      map (fun _ => base_tag originDomain) (tagged "head" es).
Proof.
  induction es as [| [tag a] rest IH]; intros k k' els H.
  - cbn in H. injection H as <- <-. cbn. repeat split; lia.
  - cbn [run_elements] in H.
    apply rbind_Ok in H as ([k1 el] & Hel & H).
    apply rbind_Ok in H as ([k2 els'] & Hrest & H).
    injection H as <- <-.
    apply rewrite_element_effect in Hel as (Hk & Himg & Hmeta & Hbase).
    destruct (IH _ _ _ Hrest) as (IHk & IHimg & IHmeta & IHbase).
    cbn [zip_with fst]. rewrite !tagged_cons.
    unfold injected in *. cbn [flat_map]. rewrite filter_app, Hbase, IHbase.
    repeat split.
    + rewrite IHk, Hk. destruct (String.eqb tag "img"); cbn; lia.
    + destruct (String.eqb tag "img").
      * cbn [image_rules]. rewrite Himg by reflexivity. rewrite IHimg, Hk.
        reflexivity.
      * rewrite IHimg, Hk. reflexivity.
    + destruct (String.eqb tag "meta").
      * cbn [map]. rewrite Hmeta by reflexivity. rewrite IHmeta. reflexivity.
      * exact IHmeta.
    + destruct (String.eqb tag "head"); reflexivity.
Qed.

End RewriteRegistrations.

(** ** The rewriting pass on a document *)

Lemma transform_node_total {S : Type} (regs : list (Registration S)) :
  (forall tag a st, exists r, run_element regs tag a st (El.of_attrs a) = Ok r) ->
  forall n active st, exists r, transform_node regs active n st = Ok r.
Proof.
  intros Hrun.
  induction n as [tag a children IH | s | html] using Node_forest_ind;
    intros active st; [| eexists; reflexivity ..].
  rewrite transform_node_Element.
  destruct (Hrun tag a st) as ([st1 el] & ->). cbn [mbind result_bind rbind].
  assert (Hch : forall act st0, exists r, transform_nodes regs act children st0 = Ok r).
  { induction IH as [| x rest Hx _ IHrest]; intros act st0; [eexists; reflexivity |].
    cbn [transform_nodes]. destruct (Hx act st0) as ([sta x'] & ->).
    cbn [mbind result_bind rbind]. destruct (IHrest act sta) as ([stb rest'] & ->).
    eexists; reflexivity. }
  destruct (Hch (active ++ [(tag, a)]) st1) as ([st2 children'] & ->).
  eexists; reflexivity.
Qed.

Lemma transform_nodes_total {S : Type} (regs : list (Registration S)) :
  (forall tag a st, exists r, run_element regs tag a st (El.of_attrs a) = Ok r) ->
  forall l active st, exists r, transform_nodes regs active l st = Ok r.
Proof.
  intros Hrun. induction l as [| x rest IH]; intros active st; [eexists; reflexivity |].
  cbn [transform_nodes].
  destruct (transform_node_total regs Hrun x active st) as ([sta x'] & ->).
  cbn [mbind result_bind rbind]. destruct (IH active sta) as ([stb rest'] & ->).
  eexists; reflexivity.
Qed.

Section RewritingPass.

Variable stringify : JsVal -> string.
Variables (ctx : PageContext) (sugg : JsVal) (originDomain : string).

Lemma run_rewrite_total :
  well_typed sugg = true ->
  forall tag a k, exists r,
    run_element (rewriteRegistrations stringify ctx sugg originDomain) tag a k
                (El.of_attrs a) = Ok r.
Proof.
  intros Hwt tag a k. rewrite run_rewrite.
  rewrite head_element_spec by exact Hwt. cbn [mbind result_bind rbind].
  repeat match goal with |- context [String.eqb tag ?t] =>
    destruct (String.eqb tag t) end; eexists; reflexivity.
Qed.

(** With a suggestion that is absent or well typed, no handler throws: the
    pass returns a document. *)
Lemma rewriteDocument_total (doc : list Node) :
  well_typed sugg = true ->
  exists out, rewriteDocument stringify ctx sugg originDomain doc = Ok out.
Proof.
  intros Hwt. unfold rewriteDocument, transform.
  destruct (transform_nodes_total _ (run_rewrite_total Hwt) doc [] 0%nat)
    as ([k out] & ->).
  eexists; reflexivity.
Qed.

Lemma rewriteDocument_view (doc out : list Node) :
  rewriteDocument stringify ctx sugg originDomain doc = Ok out ->
  images_of out = image_rules 0 (images_of doc) /\
  metas_of out = map (description_rule sugg) (metas_of doc) /\
  filter (fun h => is_base_tag h) (doc_raws out) ≡ₚ
    filter (fun h => is_base_tag h) (doc_raws doc) ++
    replicate (count_heads doc) (base_tag originDomain).
Proof.
  unfold rewriteDocument. intros H.
  apply rbind_Ok in H as ([k out'] & Hpass & [= <-]).
  apply transform_flat in Hpass as (els & Hrun & Hes & _ & Hraws);
    [| apply rewrite_textless].
  apply run_elements_rewrite in Hrun as (_ & Himg & Hmeta & Hbase).
  unfold images_of, metas_of, count_heads. rewrite Hes. repeat split; auto.
  rewrite Hraws, filter_app, Hbase. apply Permutation_app_head.
  clear. induction (tagged "head" (doc_elements doc)); cbn; auto.
Qed.

End RewritingPass.

(** ** What the pass inserts *)

Section InsertedMarkup.

Variable stringify : JsVal -> string.
Variables (ctx : PageContext) (sugg : JsVal) (originDomain : string).

(** What a handler inserted into the element it met. *)
Lemma rewrite_element_chunks (tag : string) (a : list (string * string))
  (k k' : nat) (el : El.Handle) :
  run_element (rewriteRegistrations stringify ctx sugg originDomain) tag a k
              (El.of_attrs a) = Ok (k', el) ->
  El.prepended el ++ El.appended el =
    inserted_into stringify ctx sugg originDomain tag.
Proof.
  rewrite run_rewrite. unfold inserted_into.
  destruct (String.eqb_spec tag "head") as [-> | _].
  { eval_eqb. intros H. apply rbind_Ok in H as (el' & Hel & [= <- <-]).
    destruct (well_typed sugg) eqn:Hwt.
    - rewrite head_element_spec in Hel by exact Hwt. injection Hel as <-.
      reflexivity.
    - rewrite head_element_fails in Hel by exact Hwt. discriminate. }
  destruct (String.eqb_spec tag "meta") as [-> | _].
  { eval_eqb. intros [= <- <-].
    destruct (Js.truthy _ && is_description a); reflexivity. }
  destruct (String.eqb_spec tag "img") as [-> | _].
  { eval_eqb. rewrite img_element_rule. intros [= <- <-]. reflexivity. }
  destruct (String.eqb_spec tag "iframe") as [-> | _].
  { eval_eqb. intros [= <- <-]. unfold iframe_element.
    destruct (negb _); reflexivity. }
  destruct (String.eqb_spec tag "script") as [-> | _].
  { eval_eqb. intros [= <- <-]. unfold script_element.
    repeat match goal with |- context [if ?b then _ else _] => destruct b end;
      reflexivity. }
  destruct (String.eqb_spec tag "link") as [-> | _].
  { eval_eqb. intros [= <- <-]. unfold stylesheet_element.
    repeat match goal with |- context [if ?b then _ else _] => destruct b end;
      reflexivity. }
  destruct (String.eqb_spec tag "body") as [-> | Hbody].
  { intros [= <- <-]. reflexivity. }
  intros [= <- <-].
  replace (String.eqb tag "body") with false by (symmetry; apply String.eqb_neq, Hbody).
  reflexivity.
Qed.

Lemma run_elements_chunks es :
  forall k k' els,
    run_elements (rewriteRegistrations stringify ctx sugg originDomain) es k =
      Ok (k', els) ->
    injected els =
      flat_map (fun e => inserted_into stringify ctx sugg originDomain (fst e)) es.
Proof.
  induction es as [| [tag a] rest IH]; intros k k' els H.
  - cbn in H. injection H as <- <-. reflexivity.
  - cbn [run_elements] in H.
    apply rbind_Ok in H as ([k1 el] & Hel & H).
    apply rbind_Ok in H as ([k2 els'] & Hrest & H).
    injection H as <- <-.
    unfold injected in *. cbn [flat_map fst].
    rewrite (rewrite_element_chunks _ _ _ _ _ Hel), (IH _ _ _ Hrest). reflexivity.
Qed.

(** The markup of the output is the markup of the input and what the pass
    inserted into the [head] and [body] elements. *)
Lemma rewriteDocument_chunks (doc out : list Node) :
  rewriteDocument stringify ctx sugg originDomain doc = Ok out ->
  doc_raws out ≡ₚ doc_raws doc ++ doc_inserted stringify ctx sugg originDomain doc.
Proof.
  unfold rewriteDocument. intros H.
  apply rbind_Ok in H as ([k out'] & Hpass & [= <-]).
  apply transform_flat in Hpass as (els & Hrun & _ & _ & Hraws);
    [| apply rewrite_textless].
  rewrite Hraws. unfold doc_inserted.
  rewrite (run_elements_chunks _ _ _ _ Hrun). reflexivity.
Qed.


End InsertedMarkup.


(** ** The hints *)





Lemma image_rules_lookup (imgs : list (list (string * string))) :
  forall seen i,
    image_rules seen imgs !! i = image_rule (Datatypes.S (seen + i)) <$> imgs !! i.
Proof.
  induction imgs as [| a rest IH]; intros seen i; [reflexivity |].
  destruct i as [| i]; cbn [image_rules].
  - cbn. rewrite Nat.add_0_r. reflexivity.
  - change ((image_rule (Datatypes.S seen) a :: image_rules (Datatypes.S seen) rest)
              !! Datatypes.S i)
      with (image_rules (Datatypes.S seen) rest !! i).
    change ((a :: rest) !! Datatypes.S i) with (rest !! i).
    rewrite IH. replace (Datatypes.S seen + i)%nat with (seen + Datatypes.S i)%nat by lia.
    reflexivity.
Qed.

Lemma image_rules_length (imgs : list (list (string * string))) (seen : nat) :
  List.length (image_rules seen imgs) = List.length imgs.
Proof. revert seen. induction imgs; intros; cbn; auto. Qed.

(** ** Images *)

(** C8, as amended. On every document the rewriting pass returns, with
    images numbered in document order over the whole
    pass, and an attribute counted as given when its value is not empty: the
    first two images keep [loading] and [decoding] as they are and get
    [fetchpriority="high"] exactly when neither [width] nor [height] is
    given (nothing else about them changes); every image from the third on
    gets [loading="lazy"] and [decoding="async"] unless that attribute is
    given, in which case its value is kept, and nothing else about it
    changes. An attribute that is present with an empty value is treated as
    not given, so the engine does set it. *)
Theorem image_attributes (stringify : JsVal -> string) (ctx : PageContext)
  (sugg : JsVal) (originDomain : string) (doc out : list Node) :
  rewriteDocument stringify ctx sugg originDomain doc = Ok out ->
    List.length (images_of out) = List.length (images_of doc) /\
    forall i a, images_of doc !! i = Some a ->
      exists a', images_of out !! i = Some a' /\
        ((i < 2)%nat ->
           El.lookup_attr "loading" a' = El.lookup_attr "loading" a /\
           El.lookup_attr "decoding" a' = El.lookup_attr "decoding" a /\
           a' = if Js.truthy_s (El.lookup_attr "width" a) ||
                   Js.truthy_s (El.lookup_attr "height" a)
                then a else El.store_attr "fetchpriority" "high" a) /\
        ((2 <= i)%nat ->
           El.lookup_attr "loading" a' =
             (if Js.truthy_s (El.lookup_attr "loading" a)
              then El.lookup_attr "loading" a else Some "lazy") /\
           El.lookup_attr "decoding" a' =
             (if Js.truthy_s (El.lookup_attr "decoding" a)
              then El.lookup_attr "decoding" a else Some "async") /\
           forall name, name <> "loading" -> name <> "decoding" ->
             El.lookup_attr name a' = El.lookup_attr name a).
Proof.
  intros Hout.
  apply rewriteDocument_view in Hout as (Himg & _ & _).
  rewrite Himg. split; [apply image_rules_length |].
  intros i a Ha. exists (image_rule (Datatypes.S i) a).
  rewrite image_rules_lookup, Ha. split; [reflexivity |].
  unfold image_rule. split; intros Hi.
  - replace (Datatypes.S i <=? 2)%nat with true by (symmetry; apply Nat.leb_le; lia).
    destruct (Js.truthy_s (El.lookup_attr "width" a) ||
              Js.truthy_s (El.lookup_attr "height" a)); [auto |].
    rewrite !lookup_store_ne by discriminate. auto.
  - replace (Datatypes.S i <=? 2)%nat with false by (symmetry; apply Nat.leb_gt; lia).
    repeat split.
    + rewrite lookup_keep_or_set_ne by discriminate. apply lookup_keep_or_set_eq.
    + rewrite lookup_keep_or_set_eq, lookup_keep_or_set_ne by discriminate.
      reflexivity.
    + intros name Hl Hd. rewrite !lookup_keep_or_set_ne by assumption. reflexivity.
Qed.

Lemma image_attributes_witness :
  exists out a',
    rewriteDocument Sample.stringify Sample.context JNull "https://shop.example"
                    Sample.page = Ok out /\
    images_of out !! 3%nat = Some a' /\
    El.lookup_attr "loading" a' = Some "lazy" /\
    El.lookup_attr "decoding" a' = Some "async".
Proof.
  destruct (image_attributes Sample.stringify Sample.context JNull
              "https://shop.example" Sample.page _ eq_refl) as (_ & Hrule).
  destruct (Hrule 3%nat [("src", "/b.png"); ("loading", EmptyString)] eq_refl)
    as (a' & Ha' & _ & Hlater).
  destruct (Hlater ltac:(lia)) as (Hloading & Hdecoding & _).
  eexists _, a'. split; [reflexivity |]. split; [exact Ha' |].
  split; [exact Hloading | exact Hdecoding].
Defined.

(** C8 as worded fails: the third image of a document, when it has a
    [loading] attribute whose value is empty, has it replaced by
    ["lazy"]. *)
Lemma image_rule_counterexample : ~ image_rule_as_claimed.
Proof.
  intros claim.
  destruct (claim 2%nat (El.of_attrs [("src", "/b.png"); ("loading", EmptyString)]))
    as [_ Hthird].
  destruct (Hthird ltac:(lia)) as (Hkept & _).
  specialize (Hkept EmptyString eq_refl). vm_compute in Hkept. discriminate.
Qed.

(** ** The description *)

Lemma description_rule_name (sugg : JsVal) (a : list (string * string)) :
  is_description (description_rule sugg a) = is_description a.
Proof.
  unfold description_rule.
  destruct (Js.truthy (Js.opt_get sugg "metaDescription") && is_description a);
    [| reflexivity].
  unfold is_description. rewrite lookup_store_ne by discriminate. reflexivity.
Qed.

Lemma filter_description_rule (sugg : JsVal) (metas : list (list (string * string))) :
  List.length (filter (fun a => is_description a) (map (description_rule sugg) metas)) =
  List.length (filter (fun a => is_description a) metas).
Proof.
  induction metas as [| a rest IH]; [reflexivity |]. cbn [map].
  destruct (is_description a) eqn:E.
  - rewrite !filter_cons_True by (rewrite ?description_rule_name, E; exact I).
    cbn. rewrite <- IH. reflexivity.
  - rewrite !filter_cons_False by (rewrite ?description_rule_name, E; exact id).
    exact IH.
Qed.

(** C9. The description rule never throws and creates nothing: on a
    [meta] element the handlers of the pass leave the image count alone,
    insert nothing, and change at most the [content] attribute. On every
    document the rewriting pass returns, every [meta] element is in place
    and at most its [content] attribute has changed; one has changed only if
    that element is a description [meta] and the suggestion carries a
    [metaDescription] that is neither [null] nor absent (and then the new
    content is that description); with an absent suggestion or a [null]
    [metaDescription] every [meta] element comes out as it went in. A [meta]
    element comes out with its children and nothing put before or after
    them, all the markup the pass inserts is what it inserts into the [head]
    and [body] elements, and the output has as many description [meta]
    elements as the input. *)
Theorem description_replacement (stringify : JsVal -> string) (ctx : PageContext)
  (sugg : JsVal) (originDomain : string) :
  let regs := rewriteRegistrations stringify ctx sugg originDomain in
  (forall a imageCount,
     run_element regs "meta" a imageCount (El.of_attrs a) =
       Ok (imageCount,
           {| El.attrs := description_rule sugg a;
              El.prepended := []; El.appended := [] |})) /\
  (forall a children imageCount imageCount' node,
     transform_node regs [] (Element "meta" a children) imageCount =
       Ok (imageCount', node) ->
     exists children',
       transform_nodes regs [] children imageCount = Ok (imageCount', children') /\
       node = Element "meta" (description_rule sugg a) children') /\
  (forall doc out,
     rewriteDocument stringify ctx sugg originDomain doc = Ok out ->
     List.length (metas_of out) = List.length (metas_of doc) /\
     (forall i a, metas_of doc !! i = Some a ->
        exists a', metas_of out !! i = Some a' /\
          (forall name, name <> "content" ->
             El.lookup_attr name a' = El.lookup_attr name a) /\
          (a' <> a ->
             is_description a = true /\
             Js.nullish (Js.opt_get sugg "metaDescription") = false /\
             a' = El.store_attr "content"
                    (Js.to_string (Js.prop sugg "metaDescription")) a)) /\
     (sugg = JNull \/ Js.opt_get sugg "metaDescription" = JNull ->
        metas_of out = metas_of doc) /\
     doc_raws out ≡ₚ
       doc_raws doc ++ doc_inserted stringify ctx sugg originDomain doc /\
     List.length (filter (fun a => is_description a) (metas_of out)) =
       List.length (filter (fun a => is_description a) (metas_of doc))).
Proof.
  intros regs. subst regs.
  assert (Hrule : forall a imageCount,
            run_element (rewriteRegistrations stringify ctx sugg originDomain)
                        "meta" a imageCount (El.of_attrs a) =
              Ok (imageCount,
                  {| El.attrs := description_rule sugg a;
                     El.prepended := []; El.appended := [] |})).
  { intros a k. rewrite run_rewrite. eval_eqb.
    unfold description_rule, description_element.
    destruct (Js.truthy _ && is_description a); reflexivity. }
  split; [exact Hrule |]. split.
  - intros a children k k' node H.
    rewrite transform_node_Element, Hrule in H.
    cbn [mbind result_bind rbind app] in H.
    rewrite (textless_open_nodes _ (rewrite_textless stringify ctx sugg originDomain))
      in H.
    apply rbind_Ok in H as ([k2 children'] & Hch & H).
    exists children'. injection H as <- <-. split; [exact Hch |].
    cbn [El.attrs El.prepended El.appended map app]. rewrite app_nil_r. reflexivity.
  - intros doc out Hout.
    pose proof (rewriteDocument_chunks stringify ctx sugg originDomain doc out Hout)
      as Hraws.
    apply rewriteDocument_view in Hout as (_ & Hmeta & _).
    rewrite Hmeta. split; [apply length_map |]. split; [| split; [| split]].
    + intros i a Ha. exists (description_rule sugg a).
      rewrite list_lookup_fmap, Ha. split; [reflexivity |].
      unfold description_rule.
      destruct (Js.truthy (Js.opt_get sugg "metaDescription")) eqn:T; cbn [andb].
      * destruct (is_description a) eqn:D.
        -- split; [intros name Hn; apply lookup_store_ne, Hn |].
           intros _. repeat split.
           destruct (Js.opt_get sugg "metaDescription"); try reflexivity; discriminate.
        -- split; [reflexivity | congruence].
      * split; [reflexivity | congruence].
    + intros Habsent.
      assert (T : Js.truthy (Js.opt_get sugg "metaDescription") = false)
        by (destruct Habsent as [-> | ->]; reflexivity).
      unfold description_rule. rewrite T. cbn [andb]. apply map_id.
    + exact Hraws.
    + apply filter_description_rule.
Qed.

Lemma description_replacement_witness :
  exists out a',
    rewriteDocument Sample.stringify Sample.context Sample.better_description
                    "https://shop.example" Sample.page = Ok out /\
    metas_of out !! 0%nat = Some a' /\
    List.length (metas_of out) = 2%nat /\
    El.lookup_attr "name" a' = Some "description".
Proof.
  destruct (description_replacement Sample.stringify Sample.context
              Sample.better_description "https://shop.example")
    as (_ & _ & Hdoc).
  destruct (Hdoc Sample.page _ eq_refl) as (Hlength & Hrule & _).
  destruct (Hrule 0%nat [("name", "description"); ("content", "A shop")] eq_refl)
    as (a' & Ha' & Hother & _).
  eexists _, a'. split; [reflexivity |]. split; [exact Ha' |].
  split; [exact Hlength |]. exact (Hother "name" ltac:(discriminate)).
Defined.

(** ** The base tag *)

(** C4, as amended. With a suggestion that is absent or well typed, the
    rewriting pass inserts exactly one base tag per [head] element of the
    document, each with the resolved origin followed by a slash as its
    [href]: so exactly one when the document has exactly one [head] element.
    Within a [head] element the base tag is the first child of the output,
    before the rewritten children and before everything else the handler
    injects (preconnect, dns-prefetch, JSON-LD script, preload, viewport and
    compatibility [meta]), none of which is a base tag. *)
Theorem base_tag_per_head (stringify : JsVal -> string) (ctx : PageContext)
  (sugg : JsVal) (originDomain : string) :
  well_typed sugg = true ->
  (forall doc, exists out,
     rewriteDocument stringify ctx sugg originDomain doc = Ok out /\
     filter (fun h => is_base_tag h) (doc_raws out) ≡ₚ
       filter (fun h => is_base_tag h) (doc_raws doc) ++
       replicate (count_heads doc) (base_tag originDomain) /\
     count_base_tags out = (count_base_tags doc + count_heads doc)%nat /\
     (count_heads doc = 1%nat ->
        count_base_tags out = (count_base_tags doc + 1)%nat)) /\
  (forall a children imageCount, exists imageCount' children',
     let regs := rewriteRegistrations stringify ctx sugg originDomain in
     transform_nodes regs [] children imageCount = Ok (imageCount', children') /\
     transform_node regs [] (Element "head" a children) imageCount =
       Ok (imageCount',
           Element "head" a
             (Raw (base_tag originDomain) :: children' ++
              map Raw (head_appended stringify ctx sugg))) /\
     filter (fun h => is_base_tag h) (head_appended stringify ctx sugg) = []).
Proof.
  intros Hwt. split.
  - intros doc.
    destruct (rewriteDocument_total stringify ctx sugg originDomain doc Hwt)
      as [out Hout].
    exists out. split; [exact Hout |].
    apply rewriteDocument_view in Hout as (_ & _ & Hbase).
    assert (Hcount : count_base_tags out = (count_base_tags doc + count_heads doc)%nat).
    { unfold count_base_tags. rewrite Hbase, length_app, length_replicate.
      reflexivity. }
    repeat split; [exact Hbase | exact Hcount |].
    intros Hone. rewrite Hcount, Hone. reflexivity.
  - intros a children imageCount.
    destruct (transform_nodes_total _ (run_rewrite_total stringify ctx sugg
                originDomain Hwt) children [] imageCount) as ([k' children'] & Hch).
    exists k', children'. cbn zeta. split; [exact Hch |]. split.
    + rewrite transform_node_Element.
      rewrite run_rewrite. eval_eqb.
      change (String.eqb "head" "head") with true. cbn iota.
      rewrite head_element_spec by exact Hwt.
      cbn [mbind result_bind rbind app].
      rewrite (textless_open_nodes _ (rewrite_textless stringify ctx sugg originDomain)).
      rewrite Hch.
      cbn [mbind result_bind rbind El.attrs El.prepended El.appended El.of_attrs
           map app]. reflexivity.
    + apply head_appended_base.
Qed.

Lemma base_tag_per_head_witness :
  exists out,
    rewriteDocument Sample.stringify Sample.context JNull "https://shop.example"
                    Sample.page = Ok out /\
    count_base_tags out = 1%nat.
Proof.
  destruct (base_tag_per_head Sample.stringify Sample.context JNull
              "https://shop.example" eq_refl) as [Hdoc _].
  destruct (Hdoc Sample.page) as (out & Hout & _ & _ & Hone).
  exists out. split; [exact Hout | exact (Hone eq_refl)].
Defined.

(** C4 as worded fails: a document with two [head] elements comes out with
    two base tags. *)
Lemma one_base_tag_counterexample : ~ one_base_tag_as_claimed.
Proof.
  intros claim.
  specialize (claim Sample.stringify Sample.context JNull "https://shop.example"
                    Sample.two_heads _ eq_refl).
  vm_compute in claim. specialize (claim ltac:(lia)). discriminate.
Qed.

(** ** Origin resolution *)

Lemma prefix_app (p s : string) :
  String.prefix p s = true <-> exists rest, s = p +:+ rest.
Proof.
  revert s. induction p as [| c p IH]; intros s.
  - split; [intros _; exists s; reflexivity | intros _; destruct s; reflexivity].
  - destruct s as [| d s]; cbn.
    + split; [discriminate | intros (rest & [=])].
    + destruct (ascii_dec c d) as [-> | Hne].
      * rewrite IH. split; intros (rest & H); exists rest.
        -- cbn. rewrite H. reflexivity.
        -- cbn in H. injection H as H. exact H.
      * split; [discriminate |].
        intros (rest & H). cbn in H. injection H as E _. congruence.
Qed.

Lemma startsWith_longer (s p q : string) :
  Str.startsWith s (p +:+ q) = true -> Str.startsWith s p = true.
Proof.
  unfold Str.startsWith. rewrite !prefix_app. intros (rest & ->).
  exists (q +:+ rest). clear. induction p as [| c p IH]; [reflexivity |].
  change (String c ((p +:+ q) +:+ rest) = String c (p +:+ (q +:+ rest))).
  rewrite IH. reflexivity.
Qed.

Lemma or_default_truthy (o : option string) (d v : string) :
  o = Some v -> v <> EmptyString -> Js.or_default o d = v.
Proof.
  intros -> Hv. cbn. destruct (String.eqb_spec v EmptyString); congruence.
Qed.

Lemma or_default_falsy (o : option string) (d : string) :
  Js.truthy_s o = false -> Js.or_default o d = d.
Proof.
  destruct o as [v |]; cbn; [| reflexivity].
  destruct (String.eqb v EmptyString); [reflexivity | discriminate].
Qed.

Lemma truthy_s_Some (v : string) : v <> EmptyString -> Js.truthy_s (Some v) = true.
Proof.
  intros Hv. cbn. destruct (String.eqb_spec v EmptyString); [congruence | reflexivity].
Qed.

Lemma searchParams_get_delete (name : string) (ps : list (string * string)) :
  searchParams_get name (searchParams_delete name ps) = None.
Proof.
  unfold searchParams_delete. induction ps as [| [k v] rest IH]; [reflexivity |].
  destruct (String.eqb k name) eqn:E.
  - rewrite filter_cons_False by (cbn; rewrite E; exact id). exact IH.
  - rewrite filter_cons_True by (cbn; rewrite E; exact I). cbn. rewrite E. exact IH.
Qed.

Lemma searchParams_get_delete_ne (name other : string) (ps : list (string * string)) :
  other <> name ->
  searchParams_get other (searchParams_delete name ps) = searchParams_get other ps.
Proof.
  intros Hne. unfold searchParams_delete.
  induction ps as [| [k v] rest IH]; [reflexivity |].
  destruct (String.eqb_spec k name) as [-> | Hk].
  - rewrite filter_cons_False by (cbn; rewrite String.eqb_refl; exact id).
    cbn. destruct (String.eqb_spec name other); [congruence | exact IH].
  - rewrite filter_cons_True
      by (cbn; destruct (String.eqb_spec k name); [congruence | exact I]).
    cbn. rewrite <- IH. reflexivity.
Qed.

(** C7, as amended. The origin base URL is the first value that is present
    and not empty among the [origin] query parameter, the [X-Origin-Domain]
    header and [ORIGIN_DOMAIN], and the fallback [https://example.com] when
    there is none; a chosen value that does not begin with the letters [http]
    is prefixed with [https://], one that begins with [http://] or
    [https://] is used as it is; and the upstream URL is that origin, then
    the path, then the query serialized again without the [origin]
    parameter, every other parameter kept. *)
Theorem origin_resolution (serialize : list (string * string) -> string)
  (request : Request) (env : Env) :
  let q := searchParams_get "origin" (searchParams (url request)) in
  let h := headers_get (request_headers request) "X-Origin-Domain" in
  let e := ORIGIN_DOMAIN env in
  let chosen := chooseOrigin request env in
  let kept := searchParams_delete "origin" (searchParams (url request)) in
  ((forall v, q = Some v -> v <> EmptyString -> chosen = v) /\
   (Js.truthy_s q = false ->
      forall v, h = Some v -> v <> EmptyString -> chosen = v) /\
   (Js.truthy_s q = false -> Js.truthy_s h = false ->
      forall v, e = Some v -> v <> EmptyString -> chosen = v) /\
   (Js.truthy_s q = false -> Js.truthy_s h = false -> Js.truthy_s e = false ->
      chosen = "https://example.com")) /\
  ((Str.startsWith chosen "http" = false ->
      resolveOriginDomain request env = "https://" +:+ chosen) /\
   (Str.startsWith chosen "http://" = true \/ Str.startsWith chosen "https://" = true ->
      resolveOriginDomain request env = chosen)) /\
  (resolveOriginUrl serialize request env =
     resolveOriginDomain request env +:+ pathname (url request) +:+
     search_of serialize kept /\
   searchParams_get "origin" kept = None /\
   forall name, name <> "origin" ->
     searchParams_get name kept = searchParams_get name (searchParams (url request))).
Proof.
  cbn zeta. unfold chooseOrigin, Js.or_s. repeat split.
  - intros v Hq Hv. rewrite Hq, !(truthy_s_Some v Hv).
    apply or_default_truthy; auto.
  - intros Hq v Hh Hv. rewrite Hq, Hh, (truthy_s_Some v Hv).
    apply or_default_truthy; auto.
  - intros Hq Hh v He Hv. rewrite Hq, Hh, He. apply or_default_truthy; auto.
  - intros Hq Hh He. rewrite Hq, Hh. apply or_default_falsy, He.
  - intros Hbare. unfold resolveOriginDomain, cleanOrigin, chooseOrigin, Js.or_s.
    rewrite Hbare. reflexivity.
  - intros Hscheme. unfold resolveOriginDomain, cleanOrigin, chooseOrigin, Js.or_s.
    replace (Str.startsWith _ "http") with true; [reflexivity |].
    symmetry. destruct Hscheme as [H | H].
    + apply (startsWith_longer _ "http" "://"), H.
    + apply (startsWith_longer _ "http" "s://"), H.
  - apply searchParams_get_delete.
  - intros name Hne. apply searchParams_get_delete_ne, Hne.
Qed.

Lemma origin_resolution_witness :
  resolveOriginDomain Sample.plain_request Sample.no_env = "https://shop.example" /\
  resolveOriginUrl Sample.serialize Sample.plain_request Sample.no_env =
    "https://shop.example/shop?page=2".
Proof.
  destruct (origin_resolution Sample.serialize Sample.plain_request Sample.no_env)
    as ((Hq & _) & (Hbare & _) & (Hurl & _)).
  cbn zeta in *.
  specialize (Hq "shop.example" eq_refl ltac:(discriminate)).
  rewrite Hq in Hbare. specialize (Hbare eq_refl).
  split; [exact Hbare |]. rewrite Hurl, Hbare. reflexivity.
Defined.

(** C7 as worded fails twice. An [origin] parameter that is present and
    empty is passed over for the header; and the bare hostname
    [httpbin.org], which begins with the letters [http], is not given a
    scheme. *)
Lemma origin_resolution_counterexample :
  ~ priority_as_claimed /\ ~ normalization_as_claimed.
Proof.
  split.
  - intros claim.
    specialize (claim Sample.empty_origin_parameter Sample.no_env).
    vm_compute in claim. discriminate.
  - intros claim.
    specialize (claim Sample.http_named_host Sample.no_env eq_refl).
    vm_compute in claim. discriminate.
Qed.

(** ** The advisor *)

Section AdvisorFacts.

Variable parse : string -> result JsVal.
Variable stringify : JsVal -> string.

Lemma advisor_result_cases (reply : result string) :
  advisor_result parse reply = Ok JNull \/
  exists raw data s m v,
    reply = Ok raw /\ parse raw = Ok data /\ reply_text data = Ok (JStr s) /\
    Str.match_braces s = Some m /\ parse m = Ok v /\
    advisor_result parse reply = Ok v.
Proof.
  unfold advisor_result, advisor_try.
  destruct reply as [raw | e]; [| left; reflexivity]. cbn [mbind result_bind rbind].
  destruct (parse raw) as [data | e] eqn:Hdata; [| left; reflexivity].
  cbn [mbind result_bind rbind].
  destruct (reply_text data) as [text | e] eqn:Htext; [| left; reflexivity].
  cbn [mbind result_bind rbind].
  destruct text as [| | b | r | s | l | fs]; try (left; reflexivity).
  cbn [text_match mbind result_bind rbind].
  destruct (Str.match_braces s) as [m |] eqn:Hm; [| left; reflexivity].
  destruct (parse m) as [v | e] eqn:Hv; [| left; reflexivity].
  right. exists raw, data, s, m, v. repeat split; auto.
Qed.

Lemma advisor_failure_null (reply : result string) :
  AdvisorFailure parse reply -> advisor_result parse reply = Ok JNull.
Proof.
  unfold advisor_result, advisor_try.
  intros [e -> | raw e -> Hp | raw fields -> Hp Hc | raw data -> Hp Ht
          | raw data s -> Hp Ht Hm | raw data s m e -> Hp Ht Hm He];
    cbn [mbind result_bind rbind]; try reflexivity;
    rewrite Hp; cbn [mbind result_bind rbind]; try reflexivity.
  - unfold reply_text, Js.get. cbn [Js.nullish Js.prop mbind result_bind rbind].
    rewrite Hc. reflexivity.
  - destruct (reply_text data) as [text | e]; [| reflexivity].
    cbn [mbind result_bind rbind].
    destruct text; try reflexivity. exfalso. eapply Ht. reflexivity.
  - rewrite Ht. cbn [text_match mbind result_bind rbind]. rewrite Hm. reflexivity.
  - rewrite Ht. cbn [text_match mbind result_bind rbind]. rewrite Hm, He.
    reflexivity.
Qed.

Lemma generateOptimizations_returns (w : World) (apiKey : string)
  (ctx : PageContext) (originDomain : string) :
  exists target payload v,
    generateOptimizations parse stringify w apiKey ctx originDomain =
      ([EvAdvisorFetch target payload], Ok v) /\
    advisor_result parse (advisor_fetch w target payload) = Ok v.
Proof.
  unfold generateOptimizations, emit.
  destruct (advisor_result_cases
              (advisor_fetch w (advisor_endpoint apiKey)
                 (stringify (advisor_payload (prompt ctx originDomain)))))
    as [H | (raw & data & s & m & v & _ & _ & _ & _ & _ & H)];
    rewrite H; eauto.
Qed.

(** C3. The advisor is all-or-nothing and never throws. Without a
    credential ([GEMINI_API_KEY] absent or empty) the handler makes no
    network call and the suggestion is [null]. [generateOptimizations] makes
    exactly one call and always returns; whenever the call fails in any of
    the ways of [AdvisorFailure] it returns [null], on which every suggestion
    field reads as absent; and what it returns is either [null] or the parse
    of the whole brace-delimited object of the reply text, never a part of
    one. *)
Theorem advisor_all_or_nothing :
  (forall w env ctx originDomain,
     Js.truthy_s (GEMINI_API_KEY env) = false ->
     advise parse stringify w env ctx originDomain = ([], Ok JNull)) /\
  (forall w apiKey ctx originDomain,
     exists target payload v,
       generateOptimizations parse stringify w apiKey ctx originDomain =
         ([EvAdvisorFetch target payload], Ok v) /\
       advisor_result parse (advisor_fetch w target payload) = Ok v) /\
  (forall reply,
     AdvisorFailure parse reply -> advisor_result parse reply = Ok JNull) /\
  (forall reply v,
     advisor_result parse reply = Ok v ->
     v = JNull \/
     exists raw data s m,
       reply = Ok raw /\ parse raw = Ok data /\ reply_text data = Ok (JStr s) /\
       Str.match_braces s = Some m /\ parse m = Ok v) /\
  (forall field, Js.opt_get JNull field = JUndefined).
Proof.
  repeat split.
  - intros w env ctx originDomain Hkey. unfold advise.
    destruct (GEMINI_API_KEY env) as [apiKey |]; [| reflexivity].
    rewrite Hkey. reflexivity.
  - apply generateOptimizations_returns.
  - apply advisor_failure_null.
  - intros reply v Hv.
    destruct (advisor_result_cases reply)
      as [H | (raw & data & s & m & v' & Hr & Hd & Ht & Hm & Hp & H)];
      rewrite H in Hv; injection Hv as <-; [left; reflexivity |].
    right. exists raw, data, s, m. auto.
Qed.

End AdvisorFacts.

Lemma advisor_all_or_nothing_witness :
  advise Sample.parse Sample.stringify Sample.world Sample.no_env Sample.context
         "https://shop.example" = ([], Ok JNull) /\
  advisor_result Sample.parse (Ok "ERROR") = Ok JNull /\
  advisor_result Sample.parse (Err NetworkError) = Ok JNull.
Proof.
  destruct (advisor_all_or_nothing Sample.parse Sample.stringify)
    as (Hkey & _ & Hfail & _).
  split; [apply Hkey; reflexivity |]. split; apply Hfail.
  - eapply EnvelopeError; reflexivity.
  - eapply TransportFailure; reflexivity.
Defined.

(** The example of the specification: a reply wrapped in prose and code
    fences is read as the object it contains, and its [null]
    [metaDescription] registers no description handler. *)
Example advisor_reads_fenced_reply :
  Str.match_braces Sample.fenced_reply = Some Sample.suggestion_text /\
  advisor_result Sample.parse (Ok "ENVELOPE") = Ok Sample.suggestion /\
  Js.truthy (Js.opt_get Sample.suggestion "metaDescription") = false.
Proof. repeat split; vm_compute; reflexivity. Qed.

(** ** The handler *)

Lemma run_element_total {S : Type} (regs : list (Registration S)) :
  Forall (fun r => forall f, on_element r = Some f ->
                   forall st el, exists r', f st el = Ok r') regs ->
  forall tag a st el, exists r', run_element regs tag a st el = Ok r'.
Proof.
  induction 1 as [| r rest Hr _ IH]; intros tag a st el; [eexists; reflexivity |].
  cbn [run_element].
  destruct (if matches (selector r) tag a then on_element r else None) as [f |] eqn:E;
    [| apply IH].
  assert (Hf : on_element r = Some f)
    by (destruct (matches (selector r) tag a); [exact E | discriminate]).
  destruct (Hr f Hf st el) as ([st' el'] & ->). cbn [mbind result_bind rbind].
  apply IH.
Qed.

Lemma build_rewriter_decodable (decodes : option string -> bool) (r : Response) :
  build_rewriter decodes r = if decodable decodes r then Ok tt else Err TypeError.
Proof. reflexivity. Qed.

(** The extraction pass has no handler that throws: it fails only when the
    rewriter cannot decode the response or the stream it reads fails. *)
Lemma extractContext_total (url_origin : string -> result string)
  (decodes : option string -> bool) (r : Response) (doc : list Node) :
  decodable decodes r = true ->
  body r = Ok doc -> exists ctx, extractContext url_origin decodes r = Ok ctx.
Proof.
  intros Hdec Hbody. unfold extractContext, transform.
  rewrite build_rewriter_decodable, Hdec, Hbody.
  cbn [mbind result_bind rbind].
  assert (Hrun : forall tag a st, exists r',
            run_element (contextRewriter url_origin) tag a st (El.of_attrs a) = Ok r').
  { intros tag a st. apply run_element_total.
    unfold contextRewriter. repeat constructor; cbn [on_element];
      intros f [= <-] st0 el0; eexists; reflexivity. }
  destruct (transform_nodes_total _ Hrun doc [] empty_context) as ([ctx out] & ->).
  eexists; reflexivity.
Qed.


Lemma extractContext_rejects (url_origin : string -> result string)
  (decodes : option string -> bool) (r : Response) :
  decodable decodes r = false -> extractContext url_origin decodes r = Err TypeError.
Proof.
  intros Hdec. unfold extractContext. rewrite build_rewriter_decodable, Hdec.
  reflexivity.
Qed.

Lemma extractContext_Ok (url_origin : string -> result string)
  (decodes : option string -> bool) (r : Response) (ctx : PageContext) :
  extractContext url_origin decodes r = Ok ctx ->
  decodable decodes r = true /\ exists doc, body r = Ok doc.
Proof.
  unfold extractContext. rewrite build_rewriter_decodable.
  destruct (decodable decodes r); [| discriminate].
  destruct (body r) as [doc | e]; [| discriminate]. eauto.
Qed.

Lemma applyOptimizations_decodable (stringify : JsVal -> string)
  (decodes : option string -> bool) (r : Response) (ctx : PageContext)
  (sugg : JsVal) (originDomain : string) :
  decodable decodes r = true ->
  applyOptimizations stringify decodes r ctx sugg originDomain =
  Ok (rewritten_response stringify r ctx sugg originDomain).
Proof.
  intros Hdec. unfold applyOptimizations. rewrite build_rewriter_decodable, Hdec.
  reflexivity.
Qed.

Section HandlerFacts.

Variable parse : string -> result JsVal.
Variable stringify : JsVal -> string.
Variable url_origin : string -> result string.
Variable serialize : list (string * string) -> string.
Variable decodes : option string -> bool.
Variables (w : World) (request : Request) (env : Env).

Let originDomain := resolveOriginDomain request env.
Let originUrl := resolveOriginUrl serialize request env.
Let first_fetch := EvOriginFetch originUrl (userAgent request) (accept request).
Let run := pipeline parse stringify url_origin decodes w request env originDomain originUrl.

Lemma advise_returns (ctx : PageContext) :
  exists trace sugg,
    advise parse stringify w env ctx originDomain = (trace, Ok sugg) /\
    Forall (fun ev => is_plain_fetch ev = false) trace.
Proof.
  unfold advise.
  destruct (GEMINI_API_KEY env) as [apiKey |];
    [| exists [], JNull; split; [reflexivity | constructor]].
  destruct (Js.truthy_s (Some apiKey));
    [| exists [], JNull; split; [reflexivity | constructor]].
  destruct (generateOptimizations_returns parse stringify w apiKey ctx originDomain)
    as (target & payload & v & -> & _).
  exists [EvAdvisorFetch target payload], v.
  split; [reflexivity | repeat constructor].
Qed.

(** The [try] block, case by case. *)
Lemma pipeline_fetch_fails (e : JsError) :
  origin_fetch w originUrl (userAgent request) (accept request) = Err e ->
  run = ([first_fetch], Err e).
Proof.
  intros H. unfold run, pipeline. fold (userAgent request) (accept request).
  rewrite H. reflexivity.
Qed.

Lemma pipeline_not_html (r : Response) :
  origin_fetch w originUrl (userAgent request) (accept request) = Ok r ->
  is_html r = false ->
  run = ([first_fetch], Ok r).
Proof.
  intros H Hhtml. unfold run, pipeline. fold (userAgent request) (accept request).
  rewrite H. cbn [emit mbind M_bind]. fold (contentType r). fold (is_html r).
  rewrite Hhtml. reflexivity.
Qed.

Lemma pipeline_extraction_fails (r : Response) (e : JsError) :
  origin_fetch w originUrl (userAgent request) (accept request) = Ok r ->
  is_html r = true ->
  extractContext url_origin decodes r = Err e ->
  run = ([first_fetch; EvExtract], Err e).
Proof.
  intros H Hhtml Hctx. unfold run, pipeline.
  fold (userAgent request) (accept request).
  rewrite H. cbn [emit mbind M_bind]. fold (contentType r). fold (is_html r).
  rewrite Hhtml. cbn [negb]. rewrite Hctx. reflexivity.
Qed.

Lemma pipeline_extracted (r : Response) (ctx : PageContext) :
  origin_fetch w originUrl (userAgent request) (accept request) = Ok r ->
  is_html r = true ->
  extractContext url_origin decodes r = Ok ctx ->
  exists advisor_trace sugg,
    advise parse stringify w env ctx originDomain = (advisor_trace, Ok sugg) /\
    Forall (fun ev => is_plain_fetch ev = false) advisor_trace /\
    applyOptimizations stringify decodes r ctx sugg originDomain =
      Ok (rewritten_response stringify r ctx sugg originDomain) /\
    run =
      ([first_fetch; EvExtract] ++ advisor_trace,
       new_Response
         (body (rewritten_response stringify r ctx sugg originDomain))
         (status r)
         (headers_set (headers_set (headers r) marker_header "true")
                      cache_header cache_directives)).
Proof.
  intros H Hhtml Hctx.
  destruct (extractContext_Ok _ _ _ _ Hctx) as [Hdec _].
  destruct (advise_returns ctx) as (advisor_trace & sugg & Hadv & Hplain).
  exists advisor_trace, sugg.
  pose proof (applyOptimizations_decodable stringify decodes r ctx sugg originDomain
                Hdec) as Happly.
  repeat split; auto.
  unfold run, pipeline. fold (userAgent request) (accept request).
  rewrite H. cbn [emit mbind M_bind]. fold (contentType r). fold (is_html r).
  rewrite Hhtml. cbn [negb]. rewrite Hctx. cbn [emit mbind M_bind].
  rewrite Hadv. cbn [mbind M_bind lift app]. rewrite Happly.
  cbn [mbind M_bind lift app]. rewrite !app_nil_r. reflexivity.
Qed.

Lemma pipeline_html (r : Response) (doc : list Node) :
  origin_fetch w originUrl (userAgent request) (accept request) = Ok r ->
  is_html r = true ->
  decodable decodes r = true ->
  body r = Ok doc ->
  exists ctx advisor_trace sugg,
    extractContext url_origin decodes r = Ok ctx /\
    advise parse stringify w env ctx originDomain = (advisor_trace, Ok sugg) /\
    Forall (fun ev => is_plain_fetch ev = false) advisor_trace /\
    run =
      ([first_fetch; EvExtract] ++ advisor_trace,
       new_Response
         (body (rewritten_response stringify r ctx sugg originDomain))
         (status r)
         (headers_set (headers_set (headers r) marker_header "true")
                      cache_header cache_directives)).
Proof.
  intros H Hhtml Hdec Hbody.
  destruct (extractContext_total url_origin decodes r doc Hdec Hbody) as [ctx Hctx].
  destruct (pipeline_extracted r ctx H Hhtml Hctx)
    as (advisor_trace & sugg & Hadv & Hplain & _ & Hrun).
  exists ctx, advisor_trace, sugg. auto.
Qed.

Lemma new_Response_cases (b : result (list Node)) (st : Z) (h : gmap string string) :
  ((200 <= st <= 599)%Z /\
   new_Response b st h = Ok {| status := st; headers := h; body := b |}) \/
  (~ (200 <= st <= 599)%Z /\ new_Response b st h = Err RangeError).
Proof.
  unfold new_Response. case_bool_decide; [left | right]; auto.
Qed.


Lemma fetch_of_run :
  fetch parse stringify url_origin serialize decodes w request env =
  match run with
  | (trace, Ok response) => (trace, Ok response)
  | (trace, Err _) => (trace ++ [EvPlainFetch originUrl], plain_fetch w originUrl)
  end.
Proof. reflexivity. Qed.


(** C6. When the content type of the origin response does not contain
    [text/html], the handler returns that very response (same status, same
    headers, same body, nothing set on it), and the only thing it did is the
    one fetch of the origin: the trace holds no extraction pass, no advisor
    call and no second fetch. *)
Theorem non_html_passthrough (r : Response) :
  origin_fetch w originUrl (userAgent request) (accept request) = Ok r ->
  is_html r = false ->
  fetch parse stringify url_origin serialize decodes w request env =
    ([EvOriginFetch originUrl (userAgent request) (accept request)], Ok r).
Proof.
  intros H Hhtml. rewrite fetch_of_run, (pipeline_not_html r H Hhtml). reflexivity.
Qed.

(** C10. For an HTML response of the origin whose stream can be read and
    whose status is one a response can be built with, the optimized path
    succeeds exactly when the rewriter can decode the response; and whenever
    it succeeds the handler returns a response with the status of the origin
    response, the body of the rewritten response,
    [X-SiteFast-Optimized: true],
    [Cache-Control: public, max-age=3600, s-maxage=86400] (whatever the
    origin had under those names), and every other header as the rewritten
    origin response has it. *)
Theorem optimized_response (r : Response) :
  origin_fetch w originUrl (userAgent request) (accept request) = Ok r ->
  is_html r = true ->
  (forall doc, body r = Ok doc -> (200 <= status r <= 599)%Z ->
     (decodable decodes r = true <->
      exists trace response, run = (trace, Ok response))) /\
  (forall trace response, run = (trace, Ok response) ->
     fetch parse stringify url_origin serialize decodes w request env =
       (trace, Ok response) /\
     exists ctx advisor_trace sugg rewritten,
       extractContext url_origin decodes r = Ok ctx /\
       advise parse stringify w env ctx originDomain = (advisor_trace, Ok sugg) /\
       applyOptimizations stringify decodes r ctx sugg originDomain = Ok rewritten /\
       status response = status r /\
       body response = body rewritten /\
       headers_get (headers response) "X-SiteFast-Optimized" = Some "true" /\
       headers_get (headers response) "Cache-Control" =
         Some "public, max-age=3600, s-maxage=86400" /\
       forall name,
         Str.toLowerCase name <> "x-sitefast-optimized" ->
         Str.toLowerCase name <> "cache-control" ->
         headers_get (headers response) name = headers_get (headers rewritten) name).
Proof.
  intros H Hhtml. split.
  - intros doc Hbody Hstatus. split.
    + intros Hdec.
      destruct (pipeline_html r doc H Hhtml Hdec Hbody)
        as (ctx & tr & sugg & _ & _ & _ & ->).
      destruct (new_Response_cases
                  (body (rewritten_response stringify r ctx sugg originDomain))
                  (status r)
                  (headers_set (headers_set (headers r) marker_header "true")
                               cache_header cache_directives))
        as [[_ ->] | [Hno _]]; [eauto | contradiction].
    + intros (trace & response & Hrun).
      destruct (decodable decodes r) eqn:Hdec; [reflexivity |].
      rewrite (pipeline_extraction_fails r TypeError H Hhtml
                 (extractContext_rejects url_origin decodes r Hdec)) in Hrun.
      discriminate.
  - intros trace response Hrun. split; [rewrite fetch_of_run, Hrun; reflexivity |].
    destruct (extractContext url_origin decodes r) as [ctx | e] eqn:Hctx.
    + destruct (pipeline_extracted r ctx H Hhtml Hctx)
        as (tr & sugg & Hadv & _ & Happly & Hrun').
      rewrite Hrun in Hrun'. injection Hrun' as -> Hnew.
      exists ctx, tr, sugg, (rewritten_response stringify r ctx sugg originDomain).
      split; [reflexivity |]. split; [exact Hadv |]. split; [exact Happly |].
      match type of Hnew with
      | _ = new_Response ?b ?st ?h =>
          destruct (new_Response_cases b st h) as [[_ Heq] | [_ Heq]];
            rewrite Heq in Hnew; [injection Hnew as -> | discriminate]
      end.
      cbn [status headers body rewritten_response].
      unfold headers_get, headers_set, marker_header, cache_header, cache_directives.
      repeat split.
      * rewrite lookup_insert_ne by (vm_compute; discriminate).
        apply lookup_insert_eq.
      * apply lookup_insert_eq.
      * intros name Hmarker Hcache.
        rewrite !lookup_insert_ne; [reflexivity | |];
          intros Hname; [apply Hmarker | apply Hcache]; rewrite <- Hname;
          reflexivity.
    + rewrite (pipeline_extraction_fails r e H Hhtml Hctx) in Hrun. discriminate.
Qed.


End HandlerFacts.

Lemma non_html_passthrough_witness :
  fetch Sample.parse Sample.stringify Sample.url_origin Sample.serialize Sample.decodes
        Sample.image_world Sample.plain_request Sample.keyed_env =
  ([EvOriginFetch "https://shop.example/shop?page=2" "SiteFast-Edge/1.0" "text/html"],
   Ok Sample.image_response).
Proof.
  apply (non_html_passthrough Sample.parse Sample.stringify Sample.url_origin
           Sample.serialize Sample.decodes Sample.image_world Sample.plain_request Sample.keyed_env
           Sample.image_response); reflexivity.
Defined.

Lemma optimized_response_witness :
  exists trace response,
    fetch Sample.parse Sample.stringify Sample.url_origin Sample.serialize Sample.decodes
          Sample.world Sample.plain_request Sample.keyed_env = (trace, Ok response) /\
    status response = 200%Z /\
    headers_get (headers response) "ETag" = Some "abc" /\
    headers_get (headers response) "Cache-Control" =
      Some "public, max-age=3600, s-maxage=86400".
Proof.
  destruct (optimized_response Sample.parse Sample.stringify Sample.url_origin
              Sample.serialize Sample.decodes Sample.world Sample.plain_request Sample.keyed_env
              Sample.html_response eq_refl eq_refl) as [Hsucceeds Hresponse].
  destruct (proj1 (Hsucceeds Sample.page eq_refl ltac:(cbn; lia)) eq_refl)
    as (trace & response & Hrun).
  destruct (Hresponse trace response Hrun)
    as (Hfetch & ctx & tr & sugg & rewritten & _ & _ & Happly & Hstatus & _ & _ &
        Hcache & Hother).
  exists trace, response. repeat split; [exact Hfetch | exact Hstatus | | exact Hcache].
  rewrite (Hother "ETag") by (vm_compute; discriminate).
  injection Happly as <-. reflexivity.
Defined.



(** What the [try] block does not cover: a handler of the rewriting pass
    that throws does so while the body is read, after the handler has
    returned. Here the advisor lists objects where resources are expected;
    the handler returns the optimized response, makes no second fetch, and
    the body of that response fails with the [TypeError] of the [head]
    handler. *)
Example handler_exception_escapes :
  exists trace response,
    fetch Sample.careless_parse Sample.stringify Sample.url_origin Sample.serialize Sample.decodes
          Sample.world Sample.plain_request Sample.keyed_env = (trace, Ok response) /\
    filter (fun ev => is_plain_fetch ev) trace = [] /\
    headers_get (headers response) "X-SiteFast-Optimized" = Some "true" /\
    body response = Err TypeError.
Proof. eexists _, _. repeat split; vm_compute; reflexivity. Qed.

(** * Further properties of the worker *)

(** ** The extraction pass *)

Section ExtractionFacts.

Variable url_origin : string -> result string.

Lemma context_run (tag : string) (a : list (string * string)) (ctx : PageContext) :
  run_element (contextRewriter url_origin) tag a ctx (El.of_attrs a) =
  Ok (context_step url_origin (tag, a) ctx, El.of_attrs a).
Proof.
  unfold context_step. cbn [fst snd].
  assert (H : exists c, run_element (contextRewriter url_origin) tag a ctx
                          (El.of_attrs a) = Ok (c, El.of_attrs a)).
  { unfold contextRewriter. cbn [run_element selector on_element].
    repeat match goal with
    | |- context [matches ?sel tag a] => destruct (matches sel tag a)
    end; cbn [mbind result_bind rbind context_description context_image
              context_resource run_element]; eexists; reflexivity. }
  destruct H as [c H]. rewrite H. reflexivity.
Qed.

(** The text handlers leave alone what the element handlers write. *)
Lemma context_run_text open (s : string) (ctx : PageContext) :
  element_facts (run_text (contextRewriter url_origin) open s ctx) =
  element_facts ctx.
Proof.
  unfold contextRewriter. cbn [run_text on_text].
  repeat match goal with
  | |- context [opened ?r open] => destruct (opened r open)
  end; reflexivity.
Qed.

Lemma context_step_images e ctx :
  images (context_step url_origin e ctx) = images ctx ++ image_source e.
Proof.
  destruct e as [tag a]. unfold context_step, image_source, contextRewriter.
  cbn [fst snd run_element selector on_element matches].
  change (attr_equals "name" "description" a)
    with (bool_decide (El.lookup_attr "name" a = Some "description")).
  destruct (String.eqb_spec tag "img") as [-> | Himg].
  - eval_eqb. cbn [andb orb].
    destruct (El.lookup_attr "src" a) as [s |] eqn:Hsrc.
    + rewrite bool_decide_eq_true_2 by eauto.
      cbn [mbind result_bind rbind context_image El.getAttribute El.of_attrs El.attrs
           images Js.truthy_s].
      unfold El.getAttribute, El.of_attrs. cbn [El.attrs].
      rewrite Hsrc. cbn [Js.truthy_s]. destruct (String.eqb s EmptyString); cbn.
      * rewrite app_nil_r. reflexivity.
      * reflexivity.
    + rewrite bool_decide_eq_false_2 by (intros [x Hx]; discriminate).
      cbn. rewrite app_nil_r. reflexivity.
  - rewrite app_nil_r.
    repeat match goal with
    | |- context [String.eqb tag ?t] => destruct (String.eqb tag t)
    end; cbn [andb orb mbind result_bind rbind];
    repeat match goal with
    | |- context [bool_decide ?P] => destruct (bool_decide P)
    end; reflexivity.
Qed.

Lemma context_step_domains e ctx :
  externalDomains (context_step url_origin e ctx) =
  match resource_origin url_origin e with
  | Some d => set_add d (externalDomains ctx)
  | None => externalDomains ctx
  end.
Proof.
  destruct e as [tag a].
  unfold context_step, resource_origin, resource_href, contextRewriter.
  cbn [fst snd run_element selector on_element matches].
  change (attr_equals "name" "description" a)
    with (bool_decide (El.lookup_attr "name" a = Some "description")).
  assert (Hresource : forall (b : bool),
    externalDomains
      (match (if b then Some (context_resource url_origin) else None) with
       | Some f =>
           match f ctx (El.of_attrs a) with
           | Ok (ctx', _) => ctx'
           | Err _ => ctx
           end
       | None => ctx
       end) =
    match
      (if b
       then match Js.or_s (El.lookup_attr "href" a) (El.lookup_attr "src" a) with
            | Some h =>
                if negb (String.eqb h EmptyString) && Str.startsWith h "http"
                then Some h else None
            | None => None
            end
       else None)
    with
    | Some h => match url_origin h with
                | Ok d => set_add d (externalDomains ctx)
                | Err _ => externalDomains ctx
                end
    | None => externalDomains ctx
    end).
  { intros [|]; [| reflexivity].
    unfold context_resource, El.getAttribute, El.of_attrs. cbn [El.attrs externalDomains].
    destruct (Js.or_s (El.lookup_attr "href" a) (El.lookup_attr "src" a)) as [h |];
      [| reflexivity].
    cbn [Js.truthy_s].
    destruct (negb (String.eqb h EmptyString) && Str.startsWith h "http");
      [| reflexivity].
    destruct (url_origin h); reflexivity. }
  destruct (String.eqb_spec tag "link") as [-> | Hlink];
    [| destruct (String.eqb_spec tag "script") as [-> | Hscript]].
  - eval_eqb. cbn [andb orb]. rewrite orb_false_r.
    specialize (Hresource (bool_decide (is_Some (El.lookup_attr "href" a)))).
    destruct (bool_decide (is_Some (El.lookup_attr "href" a)));
      cbn [mbind result_bind rbind] in *.
    + etransitivity; [| etransitivity; [exact Hresource |]].
      * destruct (context_resource url_origin ctx (El.of_attrs a)) as [[c el] | e];
          reflexivity.
      * destruct (Js.or_s (El.lookup_attr "href" a) (El.lookup_attr "src" a))
          as [h |]; [| reflexivity].
        destruct (negb (String.eqb h EmptyString) && Str.startsWith h "http");
          [| reflexivity].
        destruct (url_origin h); reflexivity.
    + reflexivity.
  - eval_eqb. cbn [andb orb].
    specialize (Hresource (bool_decide (is_Some (El.lookup_attr "src" a)))).
    destruct (bool_decide (is_Some (El.lookup_attr "src" a)));
      cbn [mbind result_bind rbind] in *.
    + etransitivity; [| etransitivity; [exact Hresource |]].
      * destruct (context_resource url_origin ctx (El.of_attrs a)) as [[c el] | e];
          reflexivity.
      * destruct (Js.or_s (El.lookup_attr "href" a) (El.lookup_attr "src" a))
          as [h |]; [| reflexivity].
        destruct (negb (String.eqb h EmptyString) && Str.startsWith h "http");
          [| reflexivity].
        destruct (url_origin h); reflexivity.
    + reflexivity.
  - replace (String.eqb tag "link") with false
      by (symmetry; apply String.eqb_neq, Hlink).
    replace (String.eqb tag "script") with false
      by (symmetry; apply String.eqb_neq, Hscript).
    cbn [andb orb].
    repeat match goal with
    | |- context [String.eqb tag ?t] => destruct (String.eqb tag t)
    end; cbn [andb orb mbind result_bind rbind];
    repeat match goal with
    | |- context [bool_decide ?P] => destruct (bool_decide P)
    end; reflexivity.
Qed.

Lemma context_step_description e ctx :
  description (context_step url_origin e ctx) =
  if String.eqb (fst e) "meta" && is_description (snd e)
  then Js.or_default (El.lookup_attr "content" (snd e)) EmptyString
  else description ctx.
Proof.
  destruct e as [tag a]. unfold context_step, is_description, contextRewriter.
  cbn [fst snd run_element selector on_element matches].
  change (attr_equals "name" "description" a)
    with (bool_decide (El.lookup_attr "name" a = Some "description")).
  destruct (String.eqb_spec tag "meta") as [-> | Hmeta].
  - eval_eqb. cbn [andb orb].
    destruct (bool_decide (El.lookup_attr "name" a = Some "description"));
      reflexivity.
  - replace (String.eqb tag "meta") with false
      by (symmetry; apply String.eqb_neq, Hmeta).
    cbn [andb orb].
    repeat match goal with
    | |- context [String.eqb tag ?t] => destruct (String.eqb tag t)
    end; cbn [andb orb mbind result_bind rbind];
    repeat match goal with
    | |- context [bool_decide ?P] => destruct (bool_decide P)
    end; reflexivity.
Qed.

(** The facts the element handlers write depend on nothing else in the
    context. *)
Lemma context_step_facts e ctx1 ctx2 :
  element_facts ctx1 = element_facts ctx2 ->
  element_facts (context_step url_origin e ctx1) =
  element_facts (context_step url_origin e ctx2).
Proof.
  unfold element_facts. intros [= Hd Hi He].
  rewrite !context_step_description, !context_step_images, !context_step_domains.
  rewrite Hd, Hi, He. reflexivity.
Qed.

Lemma foldl_context_step_facts es ctx1 ctx2 :
  element_facts ctx1 = element_facts ctx2 ->
  element_facts (foldl (fun c e => context_step url_origin e c) ctx1 es) =
  element_facts (foldl (fun c e => context_step url_origin e c) ctx2 es).
Proof.
  revert ctx1 ctx2. induction es as [| e rest IH]; intros ctx1 ctx2 H; [exact H |].
  cbn [foldl]. apply IH, context_step_facts, H.
Qed.

(** The extraction pass on a node: it returns, the node comes out as it went
    in, and what the element handlers wrote is what they write along the
    start tags in document order. *)
Lemma context_pass_node (n : Node) :
  forall open ctx,
    exists ctx',
      transform_node (contextRewriter url_origin) open n ctx = Ok (ctx', n) /\
      element_facts ctx' =
      element_facts (foldl (fun c e => context_step url_origin e c) ctx (elements n)).
Proof.
  induction n as [tag a children IH | s | html] using Node_forest_ind;
    intros open ctx.
  - rewrite transform_node_Element, context_run. cbn [mbind result_bind rbind].
    set (open' := open ++ [(tag, a)]).
    assert (Hch : forall c, exists c',
              transform_nodes (contextRewriter url_origin) open' children c =
                Ok (c', children) /\
              element_facts c' =
              element_facts (foldl (fun c e => context_step url_origin e c) c
                                   (flat_map elements children))).
    { clear ctx. induction IH as [| x rest Hx _ IHrest]; intros c.
      - exists c. split; reflexivity.
      - cbn [transform_nodes flat_map].
        destruct (Hx open' c) as (c1 & -> & H1).
        cbn [mbind result_bind rbind].
        destruct (IHrest c1) as (c2 & -> & H2).
        exists c2. split; [reflexivity |].
        rewrite foldl_app, H2. apply foldl_context_step_facts, H1. }
    destruct (Hch (context_step url_origin (tag, a) ctx)) as (c' & -> & Hc').
    exists c'. split; [| exact Hc'].
    cbn [mbind result_bind rbind El.of_attrs El.attrs El.prepended El.appended map app].
    rewrite app_nil_r. reflexivity.
  - exists (run_text (contextRewriter url_origin) open s ctx).
    split; [reflexivity | apply context_run_text].
  - exists ctx. split; reflexivity.
Qed.

Lemma context_pass (doc : list Node) (ctx : PageContext) :
  exists ctx',
    transform (contextRewriter url_origin) doc ctx = Ok (ctx', doc) /\
    element_facts ctx' =
    element_facts (foldl (fun c e => context_step url_origin e c) ctx (doc_elements doc)).
Proof.
  unfold transform, doc_elements. revert ctx.
  induction doc as [| x rest IH]; intros ctx.
  - exists ctx. split; reflexivity.
  - cbn [transform_nodes flat_map].
    destruct (context_pass_node x [] ctx) as (c1 & -> & H1).
    cbn [mbind result_bind rbind]. destruct (IH c1) as (c2 & -> & H2).
    exists c2. split; [reflexivity |].
    rewrite foldl_app, H2. apply foldl_context_step_facts, H1.
Qed.

End ExtractionFacts.

Lemma NoDup_set_add (d : string) (s : list string) : NoDup s -> NoDup (set_add d s).
Proof.
  intros H. unfold set_add. case_bool_decide as Hd; [exact H |].
  apply NoDup_app. split; [exact H |]. split; [| apply NoDup_singleton].
  intros x Hx Hx'. apply list_elem_of_singleton in Hx'. subst. contradiction.
Qed.

Lemma elem_of_set_add (x d : string) (s : list string) :
  x ∈ set_add d s <-> x = d \/ x ∈ s.
Proof.
  unfold set_add. case_bool_decide as Hd.
  - split; [auto | intros [-> | H]; assumption].
  - rewrite elem_of_app, list_elem_of_singleton. tauto.
Qed.

Lemma NoDup_set_add_all (ds s : list string) : NoDup s -> NoDup (set_add_all ds s).
Proof.
  unfold set_add_all. revert s. induction ds as [| d rest IH]; intros s H; [exact H |].
  cbn [foldl]. apply IH, NoDup_set_add, H.
Qed.

Lemma elem_of_set_add_all (x : string) (ds s : list string) :
  x ∈ set_add_all ds s <-> x ∈ ds \/ x ∈ s.
Proof.
  unfold set_add_all. revert s. induction ds as [| d rest IH]; intros s.
  - cbn. rewrite elem_of_nil. tauto.
  - cbn [foldl]. rewrite IH, elem_of_set_add, elem_of_cons. tauto.
Qed.

Section ExtractedFacts.

Variable url_origin : string -> result string.
Variable decodes : option string -> bool.


Lemma foldl_step_images es ctx :
  images (foldl (fun c e => context_step url_origin e c) ctx es) = images ctx ++ flat_map image_source es.
Proof.
  revert ctx. induction es as [| e rest IH]; intros ctx.
  - cbn. rewrite app_nil_r. reflexivity.
  - cbn [foldl flat_map]. rewrite IH, context_step_images, app_assoc. reflexivity.
Qed.

Lemma foldl_step_domains es ctx :
  externalDomains (foldl (fun c e => context_step url_origin e c) ctx es) =
  set_add_all (omap (resource_origin url_origin) es) (externalDomains ctx).
Proof.
  revert ctx. induction es as [| e rest IH]; intros ctx; [reflexivity |].
  cbn [foldl]. rewrite IH, context_step_domains. cbn [omap list_omap].
  destruct (resource_origin url_origin e); reflexivity.
Qed.

Lemma foldl_step_description es ctx :
  description (foldl (fun c e => context_step url_origin e c) ctx es) =
  default (description ctx) (last (omap meta_description es)).
Proof.
  revert ctx. induction es as [| e rest IH]; intros ctx; [reflexivity |].
  cbn [foldl]. rewrite IH, context_step_description. cbn [omap list_omap].
  assert (Hm : meta_description e =
               if String.eqb (fst e) "meta" && is_description (snd e)
               then Some (Js.or_default (El.lookup_attr "content" (snd e)) EmptyString)
               else None) by reflexivity.
  rewrite Hm. clear Hm.
  destruct (String.eqb (fst e) "meta" && is_description (snd e)); [| reflexivity].
  rewrite last_cons. destruct (last (omap meta_description rest)); reflexivity.
Qed.

(** X1. The extraction pass fails in two cases only: when the rewriter
    cannot decode the response, with a [TypeError] and before anything is
    read; and when the stream it reads fails, with the error of the stream.
    On a response the rewriter decodes and whose stream can be read it
    returns a context: none of its handlers throws, a URL that does not parse
    included. *)
Theorem extraction_fails_with_stream (r : Response) :
  (decodable decodes r = false ->
     extractContext url_origin decodes r = Err TypeError) /\
  (forall e, decodable decodes r = true -> body r = Err e ->
     extractContext url_origin decodes r = Err e) /\
  (forall doc, decodable decodes r = true -> body r = Ok doc ->
     exists ctx, extractContext url_origin decodes r = Ok ctx).
Proof.
  split; [| split].
  - intros Hdec. unfold extractContext. rewrite build_rewriter_decodable, Hdec.
    reflexivity.
  - intros e Hdec H. unfold extractContext.
    rewrite build_rewriter_decodable, Hdec, H. reflexivity.
  - intros doc Hdec H. unfold extractContext.
    rewrite build_rewriter_decodable, Hdec, H. cbn [mbind result_bind rbind].
    destruct (context_pass url_origin doc empty_context) as (ctx & -> & _).
    exists ctx. reflexivity.
Qed.

Lemma extractContext_facts (r : Response) (doc : list Node) (ctx : PageContext) :
  body r = Ok doc ->
  extractContext url_origin decodes r = Ok ctx ->
  element_facts ctx = element_facts (foldl (fun c e => context_step url_origin e c) empty_context (doc_elements doc)).
Proof.
  intros Hbody H. unfold extractContext in H.
  rewrite build_rewriter_decodable in H.
  destruct (decodable decodes r); [| discriminate].
  rewrite Hbody in H. cbn [mbind result_bind rbind] in H.
  destruct (context_pass url_origin doc empty_context) as (ctx' & Hpass & Hfacts).
  rewrite Hpass in H. cbn [mbind result_bind rbind] in H. injection H as <-.
  exact Hfacts.
Qed.

(** X2. The extracted image sources are the [src] values of the [img]
    elements in document order, duplicates kept, an empty [src] skipped. *)
Theorem extracted_images (r : Response) (doc : list Node) (ctx : PageContext) :
  body r = Ok doc ->
  extractContext url_origin decodes r = Ok ctx ->
  images ctx = flat_map image_source (doc_elements doc).
Proof.
  intros Hbody H. pose proof (extractContext_facts r doc ctx Hbody H) as [= _ Hi _].
  rewrite Hi, foldl_step_images. reflexivity.
Qed.

(** X3. The extracted external domains are the origins of the absolute
    URLs ([href], else [src], beginning with [http]) of the [link[href]] and
    [script[src]] elements, in first-seen order and without duplicates; a
    URL that does not parse contributes nothing. *)
Theorem extracted_domains (r : Response) (doc : list Node) (ctx : PageContext) :
  body r = Ok doc ->
  extractContext url_origin decodes r = Ok ctx ->
  externalDomains ctx =
    set_add_all (omap (resource_origin url_origin) (doc_elements doc)) [] /\
  NoDup (externalDomains ctx) /\
  forall d, d ∈ externalDomains ctx <->
    exists e h, e ∈ doc_elements doc /\ resource_href e = Some h /\
                url_origin h = Ok d.
Proof.
  intros Hbody H. pose proof (extractContext_facts r doc ctx Hbody H) as [= _ _ He].
  rewrite He, foldl_step_domains. cbn [externalDomains empty_context].
  split; [reflexivity |]. split; [apply NoDup_set_add_all, NoDup_nil_2 |].
  intros d. rewrite elem_of_set_add_all, elem_of_nil, list_elem_of_omap.
  unfold resource_origin. split.
  - intros [(e & He' & Ho) | []]. exists e.
    destruct (resource_href e) as [h |]; [| discriminate].
    exists h. destruct (url_origin h) as [d' | err]; [| discriminate].
    injection Ho as ->. auto.
  - intros (e & h & He' & Hh & Hd). left. exists e. rewrite Hh, Hd. auto.
Qed.

(** X4. The extracted description is the content of the last
    [meta[name="description"]] of the document, the empty string when that
    element has no content or the document has no such element. *)
Theorem extracted_description (r : Response) (doc : list Node) (ctx : PageContext) :
  body r = Ok doc ->
  extractContext url_origin decodes r = Ok ctx ->
  description ctx =
    default EmptyString (last (omap meta_description (doc_elements doc))).
Proof.
  intros Hbody H. pose proof (extractContext_facts r doc ctx Hbody H) as [= Hd _ _].
  rewrite Hd, foldl_step_description. reflexivity.
Qed.

End ExtractedFacts.

Lemma fixture_extracts :
  exists ctx, extractContext Fixture.url_origin Sample.decodes Fixture.response = Ok ctx.
Proof. eexists. vm_compute. reflexivity. Qed.

Lemma extraction_fails_with_stream_witness :
  extractContext Fixture.url_origin Sample.decodes Sample.utf16_response =
    Err TypeError /\
  exists ctx, extractContext Fixture.url_origin Sample.decodes Fixture.response = Ok ctx.
Proof.
  split.
  - destruct (extraction_fails_with_stream Fixture.url_origin Sample.decodes
                Sample.utf16_response) as [Hrejects _].
    exact (Hrejects eq_refl).
  - destruct (extraction_fails_with_stream Fixture.url_origin Sample.decodes
                Fixture.response) as (_ & _ & Hreads).
    exact (Hreads Fixture.page eq_refl eq_refl).
Defined.

Lemma extracted_images_witness :
  exists ctx,
    extractContext Fixture.url_origin Sample.decodes Fixture.response = Ok ctx /\
    images ctx = ["/a.png"; "/a.png"].
Proof.
  destruct fixture_extracts as [ctx Hctx].
  exists ctx. split; [exact Hctx |].
  rewrite (extracted_images Fixture.url_origin Sample.decodes Fixture.response Fixture.page ctx
             eq_refl Hctx).
  reflexivity.
Defined.

Lemma extracted_domains_witness :
  exists ctx,
    extractContext Fixture.url_origin Sample.decodes Fixture.response = Ok ctx /\
    externalDomains ctx =
      ["https://fonts.example"; "https://cdn.example";
       "https://www.googletagmanager.com"].
Proof.
  destruct fixture_extracts as [ctx Hctx].
  exists ctx. split; [exact Hctx |].
  destruct (extracted_domains Fixture.url_origin Sample.decodes Fixture.response Fixture.page ctx
              eq_refl Hctx) as (-> & _).
  vm_compute. reflexivity.
Defined.

Lemma extracted_description_witness :
  exists ctx,
    extractContext Fixture.url_origin Sample.decodes Fixture.response = Ok ctx /\
    description ctx = "Second".
Proof.
  destruct fixture_extracts as [ctx Hctx].
  exists ctx. split; [exact Hctx |].
  rewrite (extracted_description Fixture.url_origin Sample.decodes Fixture.response Fixture.page ctx
             eq_refl Hctx).
  reflexivity.
Defined.

(** ** The rewriting pass, element by element *)

Lemma iframe_element_rule (a : list (string * string)) :
  iframe_element (El.of_attrs a) =
  {| El.attrs := keep_or_set "loading" "lazy" a;
     El.prepended := []; El.appended := [] |}.
Proof.
  unfold iframe_element, keep_or_set, El.getAttribute, El.setAttribute, El.of_attrs.
  cbn [El.attrs El.prepended El.appended].
  destruct (Js.truthy_s (El.lookup_attr "loading" a)); reflexivity.
Qed.

Lemma script_element_rule (a : list (string * string)) :
  script_element (El.of_attrs a) =
  {| El.attrs := script_rule a; El.prepended := []; El.appended := [] |}.
Proof.
  unfold script_element, script_rule, tracking_src, El.getAttribute, El.setAttribute,
    El.of_attrs.
  cbn [El.attrs El.prepended El.appended].
  destruct (Str.includes _ "analytics" || Str.includes _ "gtag"
            || Str.includes _ "facebook"); [| reflexivity].
  cbn [andb].
  destruct (Js.truthy_s (El.lookup_attr "async" a)),
           (Js.truthy_s (El.lookup_attr "defer" a)); reflexivity.
Qed.

Lemma stylesheet_element_rule (a : list (string * string)) :
  is_stylesheet a = true ->
  stylesheet_element (El.of_attrs a) =
  {| El.attrs := stylesheet_rule a; El.prepended := []; El.appended := [] |}.
Proof.
  intros Hrel.
  unfold stylesheet_element, stylesheet_rule, deferred_stylesheet, El.getAttribute,
    El.setAttribute, El.of_attrs.
  cbn [El.attrs El.prepended El.appended].
  rewrite Hrel. cbn [andb].
  destruct (Str.includes _ "font" || Str.includes _ "icon"); reflexivity.
Qed.

Lemma script_rule_without_src (a : list (string * string)) :
  El.lookup_attr "src" a = None -> script_rule a = a.
Proof. intros H. unfold script_rule, tracking_src. rewrite H. reflexivity. Qed.

Section ElementRules.

Variable stringify : JsVal -> string.
Variables (ctx : PageContext) (sugg : JsVal) (originDomain : string).

(** What a start tag comes out with, whichever handler it met. *)
Lemma rewrite_element_rule (tag : string) (a : list (string * string))
  (k k' : nat) (el : El.Handle) :
  run_element (rewriteRegistrations stringify ctx sugg originDomain) tag a k
              (El.of_attrs a) = Ok (k', el) ->
  El.attrs el = element_rule sugg k tag a /\
  k' = (if String.eqb tag "img" then Datatypes.S k else k).
Proof.
  rewrite run_rewrite. unfold element_rule.
  destruct (String.eqb_spec tag "head") as [-> | _].
  { eval_eqb. intros H. apply rbind_Ok in H as (el' & Hel & [= <- <-]).
    destruct (well_typed sugg) eqn:Hwt.
    - rewrite head_element_spec in Hel by exact Hwt. injection Hel as <-.
      split; reflexivity.
    - rewrite head_element_fails in Hel by exact Hwt. discriminate. }
  destruct (String.eqb_spec tag "meta") as [-> | _].
  { eval_eqb. intros [= <- <-]. split; [| reflexivity].
    unfold description_rule, description_element.
    destruct (Js.truthy _ && is_description a); reflexivity. }
  destruct (String.eqb_spec tag "img") as [-> | _].
  { rewrite img_element_rule. intros [= <- <-]. split; reflexivity. }
  destruct (String.eqb_spec tag "iframe") as [-> | _].
  { rewrite iframe_element_rule. intros [= <- <-]. split; reflexivity. }
  destruct (String.eqb_spec tag "script") as [-> | _].
  { intros [= <- <-]. split; [| reflexivity].
    case_bool_decide as Hsrc.
    - rewrite script_element_rule. reflexivity.
    - rewrite script_rule_without_src; [reflexivity |].
      destruct (El.lookup_attr "src" a) eqn:E; [| reflexivity].
      exfalso. apply Hsrc. eauto. }
  destruct (String.eqb_spec tag "link") as [-> | _].
  { intros [= <- <-]. split; [| reflexivity].
    destruct (is_stylesheet a) eqn:Hrel.
    - rewrite stylesheet_element_rule by exact Hrel. reflexivity.
    - unfold stylesheet_rule, deferred_stylesheet. rewrite Hrel. reflexivity. }
  destruct (String.eqb_spec tag "body") as [-> | _];
    intros [= <- <-]; split; reflexivity.
Qed.

Lemma run_elements_rules es :
  forall k k' els,
    run_elements (rewriteRegistrations stringify ctx sugg originDomain) es k =
      Ok (k', els) ->
    zip_with (fun e el => (fst e, El.attrs el)) es els = apply_rules sugg k es.
Proof.
  induction es as [| [tag a] rest IH]; intros k k' els H.
  - cbn in H. injection H as <- <-. reflexivity.
  - cbn [run_elements] in H.
    apply rbind_Ok in H as ([k1 el] & Hel & H).
    apply rbind_Ok in H as ([k2 els'] & Hrest & H).
    injection H as <- <-.
    apply rewrite_element_rule in Hel as [Hattrs ->].
    cbn [zip_with fst apply_rules]. rewrite Hattrs, (IH _ _ _ Hrest). reflexivity.
Qed.

(** The start tags of the output are those of the input under the rules. *)
Lemma rewriteDocument_rules (doc out : list Node) :
  rewriteDocument stringify ctx sugg originDomain doc = Ok out ->
  doc_elements out = apply_rules sugg 0 (doc_elements doc).
Proof.
  unfold rewriteDocument. intros H.
  apply rbind_Ok in H as ([k out'] & Hpass & [= <-]).
  apply transform_flat in Hpass as (els & Hrun & Hes & _ & _);
    [| apply rewrite_textless].
  rewrite Hes. eapply run_elements_rules, Hrun.
Qed.

End ElementRules.

Lemma tagged_apply_rules (sugg : JsVal) (t : string) (f : list (string * string) -> list (string * string)) :
  t <> "img" ->
  (forall seen a, element_rule sugg seen t a = f a) ->
  forall es seen, tagged t (apply_rules sugg seen es) = map f (tagged t es).
Proof.
  intros Ht Hf. induction es as [| [tag a] rest IH]; intros seen; [reflexivity |].
  cbn [apply_rules]. rewrite !tagged_cons.
  destruct (String.eqb_spec tag t) as [-> | Hne].
  - cbn [map]. rewrite Hf, IH. reflexivity.
  - apply IH.
Qed.

(** ** What the rewriting pass keeps *)











(** X6. On every document the rewriting pass returns, every [iframe] of the
    document has [loading="lazy"] unless it had a [loading] attribute with a
    value, which is kept; an empty [loading] is replaced; no other attribute
    of an [iframe] changes. *)
Theorem iframe_lazy_loading (stringify : JsVal -> string) (ctx : PageContext)
  (sugg : JsVal) (originDomain : string) (doc out : list Node) :
  rewriteDocument stringify ctx sugg originDomain doc = Ok out ->
  List.length (tagged "iframe" (doc_elements out)) =
    List.length (tagged "iframe" (doc_elements doc)) /\
  forall i a, tagged "iframe" (doc_elements doc) !! i = Some a ->
    exists a', tagged "iframe" (doc_elements out) !! i = Some a' /\
      El.lookup_attr "loading" a' =
        (if Js.truthy_s (El.lookup_attr "loading" a)
         then El.lookup_attr "loading" a else Some "lazy") /\
      forall name, name <> "loading" ->
        El.lookup_attr name a' = El.lookup_attr name a.
Proof.
  intros Hout.
  apply rewriteDocument_rules in Hout. rewrite Hout.
  rewrite (tagged_apply_rules sugg "iframe" (keep_or_set "loading" "lazy"))
    by (discriminate || reflexivity).
  split; [apply length_map |].
  intros i a Ha. exists (keep_or_set "loading" "lazy" a).
  rewrite list_lookup_fmap, Ha. split; [reflexivity |].
  split; [apply lookup_keep_or_set_eq |].
  intros name Hne. apply lookup_keep_or_set_ne, Hne.
Qed.

Lemma iframe_lazy_loading_witness :
  exists out first second,
    rewriteDocument Sample.stringify Sample.context JNull "https://shop.example"
                    Fixture.page = Ok out /\
    tagged "iframe" (doc_elements out) !! 0%nat = Some first /\
    El.lookup_attr "loading" first = Some "lazy" /\
    tagged "iframe" (doc_elements out) !! 1%nat = Some second /\
    El.lookup_attr "loading" second = Some "eager".
Proof.
  destruct (iframe_lazy_loading Sample.stringify Sample.context JNull
              "https://shop.example" Fixture.page _ eq_refl) as (_ & Hrule).
  destruct (Hrule 0%nat [("src", "https://video.example/embed/1")] eq_refl)
    as (first & Hfirst & Hlazy & _).
  destruct (Hrule 1%nat [("src", "/map"); ("loading", "eager")] eq_refl)
    as (second & Hsecond & Heager & _).
  eexists _, first, second. split; [reflexivity |]. auto.
Defined.

(** X7. On every document the rewriting pass returns: a [script] whose
    [src] contains [analytics], [gtag] or [facebook] and that had neither an
    [async] nor a [defer] attribute has [async], with an empty value; a
    [script] whose [src] contains none of the three, or whose [async] or
    [defer] had a value, is as it was; and no attribute of a [script] other
    than [async] changes. *)
Theorem script_async (stringify : JsVal -> string) (ctx : PageContext)
  (sugg : JsVal) (originDomain : string) (doc out : list Node) :
  rewriteDocument stringify ctx sugg originDomain doc = Ok out ->
  List.length (tagged "script" (doc_elements out)) =
    List.length (tagged "script" (doc_elements doc)) /\
  forall i a, tagged "script" (doc_elements doc) !! i = Some a ->
    exists a', tagged "script" (doc_elements out) !! i = Some a' /\
      (tracking_src a = true ->
       El.lookup_attr "async" a = None ->
       El.lookup_attr "defer" a = None ->
       a' = El.store_attr "async" EmptyString a) /\
      (tracking_src a = false \/
       Js.truthy_s (El.lookup_attr "async" a) = true \/
       Js.truthy_s (El.lookup_attr "defer" a) = true ->
       a' = a) /\
      forall name, name <> "async" ->
        El.lookup_attr name a' = El.lookup_attr name a.
Proof.
  intros Hout.
  apply rewriteDocument_rules in Hout. rewrite Hout.
  rewrite (tagged_apply_rules sugg "script" script_rule)
    by (discriminate || reflexivity).
  split; [apply length_map |].
  intros i a Ha. exists (script_rule a).
  rewrite list_lookup_fmap, Ha. split; [reflexivity |].
  unfold script_rule. repeat split.
  - intros -> -> ->. reflexivity.
  - intros [-> | [-> | ->]]; cbn [andb negb]; rewrite ?andb_false_r; reflexivity.
  - intros name Hne.
    destruct (tracking_src a && negb _ && negb _); [| reflexivity].
    apply lookup_store_ne, Hne.
Qed.

Lemma script_async_witness :
  exists out tracked deferred,
    rewriteDocument Sample.stringify Sample.context JNull "https://shop.example"
                    Fixture.page = Ok out /\
    tagged "script" (doc_elements out) !! 5%nat = Some tracked /\
    tracked = [("src", "https://www.googletagmanager.com/gtag/js?id=G-1");
               ("async", EmptyString)] /\
    tagged "script" (doc_elements out) !! 3%nat = Some deferred /\
    deferred = [("src", "https://www.googletagmanager.com/gtag/js");
                ("defer", "defer")].
Proof.
  destruct (script_async Sample.stringify Sample.context JNull
              "https://shop.example" Fixture.page _ eq_refl) as (_ & Hrule).
  destruct (Hrule 5%nat [("src", "https://www.googletagmanager.com/gtag/js?id=G-1")]
                  eq_refl) as (tracked & Htracked & Hasync & _).
  destruct (Hrule 3%nat [("src", "https://www.googletagmanager.com/gtag/js");
                         ("defer", "defer")] eq_refl)
    as (deferred & Hdeferred & _ & Hkept & _).
  eexists _, tracked, deferred. split; [reflexivity |].
  split; [exact Htracked |]. split; [exact (Hasync eq_refl eq_refl eq_refl) |].
  split; [exact Hdeferred |]. exact (Hkept (or_intror (or_intror eq_refl))).
Defined.

(** X8. On every document the rewriting pass returns: a [link] whose [rel]
    is [stylesheet], in whatever case it is written, and whose [href]
    contains [font] or [icon] has [media="print"], whatever [media] it had,
    and [onload="this.media='all'"]; every other [link] is as it was; and no
    attribute of a [link] other than these two changes. *)
Theorem stylesheet_deferral (stringify : JsVal -> string) (ctx : PageContext)
  (sugg : JsVal) (originDomain : string) (doc out : list Node) :
  rewriteDocument stringify ctx sugg originDomain doc = Ok out ->
  List.length (tagged "link" (doc_elements out)) =
    List.length (tagged "link" (doc_elements doc)) /\
  forall i a, tagged "link" (doc_elements doc) !! i = Some a ->
    exists a', tagged "link" (doc_elements out) !! i = Some a' /\
      (deferred_stylesheet a = true ->
       El.lookup_attr "media" a' = Some "print" /\
       El.lookup_attr "onload" a' = Some "this.media='all'") /\
      (deferred_stylesheet a = false -> a' = a) /\
      forall name, name <> "media" -> name <> "onload" ->
        El.lookup_attr name a' = El.lookup_attr name a.
Proof.
  intros Hout.
  apply rewriteDocument_rules in Hout. rewrite Hout.
  rewrite (tagged_apply_rules sugg "link" stylesheet_rule)
    by (discriminate || reflexivity).
  split; [apply length_map |].
  intros i a Ha. exists (stylesheet_rule a).
  rewrite list_lookup_fmap, Ha. split; [reflexivity |].
  unfold stylesheet_rule. split; [| split].
  - intros ->. split; [| apply lookup_store_eq].
    rewrite lookup_store_ne by discriminate. apply lookup_store_eq.
  - intros ->. reflexivity.
  - intros name Hm Ho. destruct (deferred_stylesheet a); [| reflexivity].
    rewrite !lookup_store_ne by assumption. reflexivity.
Qed.

Lemma stylesheet_deferral_witness :
  exists out fonts icons favicon,
    rewriteDocument Sample.stringify Sample.context JNull "https://shop.example"
                    Fixture.page = Ok out /\
    tagged "link" (doc_elements out) !! 0%nat = Some fonts /\
    El.lookup_attr "media" fonts = Some "print" /\
    tagged "link" (doc_elements out) !! 3%nat = Some icons /\
    El.lookup_attr "media" icons = Some "print" /\
    tagged "link" (doc_elements out) !! 2%nat = Some favicon /\
    favicon = [("rel", "icon"); ("href", "https://cdn.example/favicon.ico")].
Proof.
  destruct (stylesheet_deferral Sample.stringify Sample.context JNull
              "https://shop.example" Fixture.page _ eq_refl) as (_ & Hrule).
  destruct (Hrule 0%nat [("rel", "stylesheet");
                         ("href", "https://fonts.example/css?family=Inter");
                         ("media", "screen")] eq_refl)
    as (fonts & Hfonts & Hdeferred & _).
  destruct (Hrule 3%nat [("rel", "StyleSheet"); ("href", "/icons.css")] eq_refl)
    as (icons & Hicons & Hmixed & _).
  destruct (Hrule 2%nat [("rel", "icon"); ("href", "https://cdn.example/favicon.ico")]
                  eq_refl) as (favicon & Hfavicon & _ & Hkept & _).
  eexists _, fonts, icons, favicon. split; [reflexivity |].
  split; [exact Hfonts |]. split; [exact (proj1 (Hdeferred eq_refl)) |].
  split; [exact Hicons |]. split; [exact (proj1 (Hmixed eq_refl)) |].
  split; [exact Hfavicon |]. exact (Hkept eq_refl).
Defined.

(** ** What the head handler appends *)

Lemma preload_of_string (r : JsVal) : is_string r = true -> is_preload (preload_of r) = true.
Proof. destruct r; try discriminate. intros _. reflexivity. Qed.

Lemma append_cons_string (c : ascii) (p s : string) :
  String c p +:+ s = String c (p +:+ s).
Proof. reflexivity. Qed.

Lemma last_segment_from_dotless (s acc : string) :
  dotless s = true -> Str.last_segment_from acc s = acc +:+ s.
Proof.
  revert acc. induction s as [| c rest IH]; intros acc H.
  - cbn. clear. induction acc as [| c acc IH]; [reflexivity |].
    rewrite append_cons_string, <- IH. reflexivity.
  - cbn [dotless] in H. apply andb_prop in H as [Hc Hrest].
    cbn [Str.last_segment_from]. destruct (bool_decide (c = "."%char)); [discriminate |].
    rewrite (IH _ Hrest). clear. induction acc as [| d acc IH]; [reflexivity |].
    rewrite !append_cons_string, IH. reflexivity.
Qed.

Lemma last_segment_from_dot (p s acc : string) :
  Str.last_segment_from acc (p +:+ "." +:+ s) = Str.last_segment_from EmptyString s.
Proof.
  revert acc. induction p as [| c rest IH]; intros acc.
  - reflexivity.
  - rewrite append_cons_string. cbn [Str.last_segment_from].
    destruct (bool_decide (c = "."%char)); apply IH.
Qed.

(** X9. What decides the [as] of a preload is the text after the last dot
    of the resource, compared without regard to case: [css] gives [style],
    [js] gives [script], anything else [fetch] (a query string after the
    extension included); a resource without a dot is compared whole; and a
    resource that is not a string throws a [TypeError]. *)
Theorem preload_as_type :
  (forall p ext, dotless ext = true ->
     asType (JStr (p +:+ "." +:+ ext)) =
       Ok (p +:+ "." +:+ ext, as_of_extension ext)) /\
  (forall r, dotless r = true -> asType (JStr r) = Ok (r, as_of_extension r)) /\
  (forall v, is_string v = false -> asType v = Err TypeError).
Proof.
  split; [| split].
  - intros p ext Hext. unfold asType, Str.last_segment, as_of_extension.
    rewrite last_segment_from_dot, (last_segment_from_dotless _ _ Hext).
    reflexivity.
  - intros r Hr. unfold asType, Str.last_segment, as_of_extension.
    rewrite (last_segment_from_dotless _ _ Hr). reflexivity.
  - intros v Hv. destruct v; try reflexivity. discriminate.
Qed.

Lemma preload_as_type_witness :
  asType (JStr "/assets/app.min.CSS") = Ok ("/assets/app.min.CSS", "style") /\
  asType (JStr "/assets/app.js?v=2") = Ok ("/assets/app.js?v=2", "fetch") /\
  asType (JNum "7") = Err TypeError.
Proof.
  destruct preload_as_type as (Hdot & _ & Htype).
  split; [exact (Hdot "/assets/app.min" "CSS" eq_refl) |].
  split; [exact (Hdot "/assets/app" "js?v=2" eq_refl) | exact (Htype (JNum "7") eq_refl)].
Defined.

(** X10. With a suggestion that is absent or well typed, the [head] handler
    leaves the attributes of the element alone, prepends the base tag and
    nothing else, and appends in this order: the preconnect tags, the
    dns-prefetch tags, one JSON-LD script holding the serialized [jsonLd]
    when the suggestion has a truthy one and none otherwise, one preload tag
    per critical resource, and last, in every case, the viewport and
    compatibility [meta] tags. *)
Theorem head_injection_order (stringify : JsVal -> string) (ctx : PageContext)
  (sugg : JsVal) (originDomain : string) (a : list (string * string)) :
  well_typed sugg = true ->
  exists el' preconnects prefetches scripts preloads,
    head_element stringify ctx sugg originDomain (El.of_attrs a) = Ok el' /\
    El.attrs el' = a /\
    El.prepended el' = [base_tag originDomain] /\
    El.appended el' =
      preconnects ++ prefetches ++ scripts ++ preloads ++ [viewport_metas] /\
    Forall (fun h => is_preconnect h = true) preconnects /\
    Forall (fun h => is_dns_prefetch h = true) prefetches /\
    scripts = (if Js.truthy (Js.opt_get sugg "jsonLd")
               then [jsonld_script (stringify (Js.prop sugg "jsonLd"))] else []) /\
    Forall (fun h => is_preload h = true) preloads /\
    List.length preloads =
      (if Js.truthy (Js.opt_get sugg "criticalResources")
       then List.length (items (Js.opt_get sugg "criticalResources")) else 0%nat).
Proof.
  intros Hwt. eexists. do 4 eexists.
  split; [apply head_element_spec, Hwt |].
  cbn [El.attrs El.prepended El.appended El.of_attrs app]. unfold head_appended.
  repeat split.
  - apply Forall_forall. intros h Hh. apply list_elem_of_fmap in Hh as (d & -> & _).
    reflexivity.
  - apply Forall_forall. intros h Hh. apply list_elem_of_fmap in Hh as (d & -> & _).
    reflexivity.
  - unfold well_typed in Hwt. apply andb_prop in Hwt as [_ Hcr].
    destruct (Js.truthy (Js.opt_get sugg "criticalResources")) eqn:T;
      [| constructor].
    cbn [negb orb] in Hcr. apply andb_prop in Hcr as [_ Hstrings].
    rewrite (opt_get_prop _ _ T).
    apply Forall_forall. intros h Hh. apply list_elem_of_fmap in Hh as (r & -> & Hr).
    apply preload_of_string.
    rewrite forallb_forall in Hstrings. apply Hstrings, list_elem_of_In, Hr.
  - destruct (Js.truthy (Js.opt_get sugg "criticalResources")) eqn:T; [| reflexivity].
    rewrite (opt_get_prop _ _ T). apply length_map.
Qed.

Lemma head_injection_order_witness :
  exists el',
    head_element Sample.stringify Sample.context Sample.suggestion
                 "https://shop.example" (El.of_attrs [("lang", "en")]) = Ok el' /\
    El.attrs el' = [("lang", "en")] /\
    List.length (El.appended el') = 5%nat.
Proof.
  destruct (head_injection_order Sample.stringify Sample.context Sample.suggestion
              "https://shop.example" [("lang", "en")] eq_refl)
    as (el' & P & D & J & L & Hrun & Hattrs & _).
  exists el'. split; [exact Hrun |]. split; [exact Hattrs |].
  vm_compute in Hrun. injection Hrun as <-. reflexivity.
Defined.

Lemma map_chars (f : string -> string) (s : string) :
  map (fun d => f (Js.to_string d)) (Js.chars s) = map f (Js.code_points s).
Proof. unfold Js.chars. rewrite map_map. reflexivity. Qed.

Lemma code_points_from_ascii (s : string) :
  ascii_only s = true ->
  Js.code_points_from s =
    (EmptyString, map (fun c => String c EmptyString) (list_ascii_of_string s)).
Proof.
  induction s as [| c rest IH]; [reflexivity |].
  cbn [ascii_only]. intros H. apply andb_prop in H as [Hc Hrest].
  cbn [Js.code_points_from list_ascii_of_string map]. rewrite (IH Hrest).
  assert (Hcont : Js.continuation c = false).
  { unfold Js.continuation. apply Nat.ltb_lt in Hc.
    replace (128 <=? nat_of_ascii c)%nat with false; [reflexivity |].
    symmetry. apply Nat.leb_gt. exact Hc. }
  rewrite Hcont. reflexivity.
Qed.

Lemma code_points_ascii (s : string) :
  ascii_only s = true ->
  Js.code_points s = map (fun c => String c EmptyString) (list_ascii_of_string s).
Proof.
  intros H. unfold Js.code_points. rewrite (code_points_from_ascii s H). reflexivity.
Qed.

Lemma length_list_ascii (s : string) :
  List.length (list_ascii_of_string s) = String.length s.
Proof. induction s as [| c rest IH]; [reflexivity |]. cbn. rewrite IH. reflexivity. Qed.

(** X11. A suggestion whose [preconnectDomains] is a string, not a list,
    and whose [criticalResources] is absent or a list of strings, is iterated
    code point by code point: the handler appends one preconnect tag per code
    point of the string, each with that one code point as its [href]. For a
    string of ASCII characters that is one tag per character. *)
Theorem preconnect_from_string (stringify : JsVal -> string) (ctx : PageContext)
  (sugg : JsVal) (originDomain : string) (a : list (string * string)) (s : string) :
  well_typed sugg = true ->
  Js.opt_get sugg "preconnectDomains" = JStr s ->
  s <> EmptyString ->
  exists el',
    head_element stringify ctx sugg originDomain (El.of_attrs a) = Ok el' /\
    filter (fun h => is_preconnect h) (El.appended el') =
      map preconnect_tag (Js.code_points s) /\
    (ascii_only s = true ->
     filter (fun h => is_preconnect h) (El.appended el') =
       map (fun c => preconnect_tag (String c EmptyString)) (list_ascii_of_string s) /\
     List.length (filter (fun h => is_preconnect h) (El.appended el')) =
       String.length s).
Proof.
  intros Hwt Hpd Hs. eexists. split; [apply head_element_spec, Hwt |].
  cbn [El.appended El.of_attrs app]. rewrite head_appended_preconnect.
  assert (T : Js.truthy (Js.opt_get sugg "preconnectDomains") = true).
  { rewrite Hpd. cbn. destruct (String.eqb_spec s EmptyString); [congruence | reflexivity]. }
  rewrite (preconnectDomains_present ctx sugg T), Hpd. cbn [items].
  rewrite (map_chars preconnect_tag). split; [reflexivity |].
  intros Hascii. rewrite (code_points_ascii s Hascii), map_map.
  split; [reflexivity |]. rewrite length_map. apply length_list_ascii.
Qed.

Lemma preconnect_from_string_witness :
  exists el',
    head_element Sample.stringify Sample.context
                 (JObj [("preconnectDomains", JStr Fixture.accented)])
                 "https://shop.example" (El.of_attrs []) = Ok el' /\
    List.length (filter (fun h => is_preconnect h) (El.appended el')) = 2%nat.
Proof.
  destruct (preconnect_from_string Sample.stringify Sample.context
              (JObj [("preconnectDomains", JStr Fixture.accented)])
              "https://shop.example" [] Fixture.accented eq_refl eq_refl
              ltac:(discriminate)) as (el' & Hrun & Htags & _).
  exists el'. split; [exact Hrun |]. rewrite Htags. reflexivity.
Defined.

(** ** When the rewriting pass fails *)

Lemma transform_node_total_on {S : Type} (regs : list (Registration S)) (n : Node) :
  (forall tag a st, (tag, a) ∈ elements n ->
     exists r, run_element regs tag a st (El.of_attrs a) = Ok r) ->
  forall active st, exists r, transform_node regs active n st = Ok r.
Proof.
  induction n as [tag a children IH | s | html] using Node_forest_ind;
    intros Hrun active st; [| eexists; reflexivity ..].
  rewrite transform_node_Element.
  destruct (Hrun tag a st) as ([st1 el] & ->); [cbn; apply list_elem_of_here |].
  cbn [mbind result_bind rbind].
  assert (Hch : forall act st0, exists r, transform_nodes regs act children st0 = Ok r).
  { assert (Hin : forall tag' a' st', (tag', a') ∈ flat_map elements children ->
              exists r, run_element regs tag' a' st' (El.of_attrs a') = Ok r)
      by (intros; apply Hrun; cbn; apply list_elem_of_further; assumption).
    clear Hrun. induction IH as [| x rest Hx _ IHrest]; intros act st0;
      [eexists; reflexivity |].
    cbn [transform_nodes].
    destruct (Hx (fun t b s Hb => Hin t b s ltac:(cbn; apply elem_of_app; auto))
                 act st0) as ([sta x'] & ->).
    cbn [mbind result_bind rbind].
    destruct (IHrest (fun t b s Hb => Hin t b s ltac:(cbn; apply elem_of_app; auto))
                     act sta) as ([stb rest'] & ->).
    eexists; reflexivity. }
  destruct (Hch (active ++ [(tag, a)]) st1) as ([st2 children'] & ->).
  eexists; reflexivity.
Qed.

Lemma transform_total_on {S : Type} (regs : list (Registration S)) (doc : list Node) :
  (forall tag a st, (tag, a) ∈ doc_elements doc ->
     exists r, run_element regs tag a st (El.of_attrs a) = Ok r) ->
  forall st, exists r, transform regs doc st = Ok r.
Proof.
  unfold transform, doc_elements. induction doc as [| x rest IH]; intros Hrun st;
    [eexists; reflexivity |].
  cbn [transform_nodes].
  destruct (transform_node_total_on regs x
              (fun t b s Hb => Hrun t b s ltac:(cbn; apply elem_of_app; auto)) [] st)
    as ([sta x'] & ->).
  cbn [mbind result_bind rbind].
  destruct (IH (fun t b s Hb => Hrun t b s ltac:(cbn; apply elem_of_app; auto)) sta)
    as ([stb rest'] & ->).
  eexists; reflexivity.
Qed.

(** An error of the pass is the error of a handler. *)
Lemma transform_node_error {S : Type} (regs : list (Registration S)) (n : Node) :
  forall active st e,
    transform_node regs active n st = Err e ->
    exists tag a st', run_element regs tag a st' (El.of_attrs a) = Err e.
Proof.
  induction n as [tag a children IH | s | html] using Node_forest_ind;
    intros active st e H; [| discriminate ..].
  rewrite transform_node_Element in H.
  destruct (run_element regs tag a st (El.of_attrs a)) as [[st1 el] | e1] eqn:Hel.
  - cbn [mbind result_bind rbind] in H.
    destruct (transform_nodes regs (active ++ [(tag, a)]) children st1)
      as [[st2 ch'] | e2] eqn:Hch; [discriminate |].
    cbn [mbind result_bind rbind] in H. injection H as ->.
    clear Hel. revert st1 Hch.
    generalize (active ++ [(tag, a)]) as act.
    induction IH as [| x rest Hx _ IHrest]; intros act st1 Hch; [discriminate |].
    cbn [transform_nodes] in Hch.
    destruct (transform_node regs act x st1) as [[sta x'] | ea] eqn:Hx'.
    + cbn [mbind result_bind rbind] in Hch.
      destruct (transform_nodes regs act rest sta) as [[stb r'] | eb] eqn:Hr;
        [discriminate |].
      cbn [mbind result_bind rbind] in Hch. injection Hch as ->. eauto.
    + cbn [mbind result_bind rbind] in Hch. injection Hch as ->. eauto.
  - cbn [mbind result_bind rbind] in H. injection H as ->. eauto.
Qed.

Lemma transform_error {S : Type} (regs : list (Registration S)) (doc : list Node) :
  forall st e,
    transform regs doc st = Err e ->
    exists tag a st', run_element regs tag a st' (El.of_attrs a) = Err e.
Proof.
  unfold transform. induction doc as [| x rest IH]; intros st e H; [discriminate |].
  cbn [transform_nodes] in H.
  destruct (transform_node regs [] x st) as [[sta x'] | ea] eqn:Hx.
  - cbn [mbind result_bind rbind] in H.
    destruct (transform_nodes regs [] rest sta) as [[stb r'] | eb] eqn:Hr;
      [discriminate |].
    cbn [mbind result_bind rbind] in H. injection H as ->. eauto.
  - cbn [mbind result_bind rbind] in H. injection H as ->.
    eapply transform_node_error, Hx.
Qed.

Lemma run_elements_each {S : Type} (regs : list (Registration S)) es :
  forall st st' els,
    run_elements regs es st = Ok (st', els) ->
    forall tag a, (tag, a) ∈ es ->
      exists k k' el, run_element regs tag a k (El.of_attrs a) = Ok (k', el).
Proof.
  induction es as [| [t b] rest IH]; intros st st' els H tag a Hin.
  - apply elem_of_nil in Hin. contradiction.
  - cbn [run_elements] in H.
    apply rbind_Ok in H as ([st1 el] & Hel & H).
    apply rbind_Ok in H as ([st2 els'] & Hrest & H).
    apply elem_of_cons in Hin as [[= -> ->] | Hin]; eauto.
Qed.

Lemma elem_of_tagged (t : string) (a : list (string * string)) es :
  a ∈ tagged t es <-> (t, a) ∈ es.
Proof.
  induction es as [| [tag b] rest IH].
  - unfold tagged. cbn. rewrite !elem_of_nil. tauto.
  - rewrite tagged_cons, elem_of_cons.
    destruct (String.eqb_spec tag t) as [-> | Hne].
    + rewrite elem_of_cons, IH. split; intros [H | H]; auto.
      * left. congruence.
      * injection H as ->. auto.
    + rewrite IH. split; [auto |]. intros [[= <- _] | H]; [congruence | exact H].
Qed.

(** X12. The rewriting pass returns a document exactly when the suggestion
    is absent or well typed, or the document has no [head] element. On a
    document with a [head] element and a suggestion whose
    [preconnectDomains] cannot be iterated, or whose [criticalResources]
    cannot be iterated or holds something else than strings, the rewritten
    stream fails with a [TypeError]. *)
Theorem rewriting_fails_on_ill_typed (stringify : JsVal -> string) (ctx : PageContext)
  (sugg : JsVal) (originDomain : string) (doc : list Node) :
  (well_typed sugg = true \/ count_heads doc = 0%nat ->
     exists out, rewriteDocument stringify ctx sugg originDomain doc = Ok out) /\
  (well_typed sugg = false -> count_heads doc <> 0%nat ->
     rewriteDocument stringify ctx sugg originDomain doc = Err TypeError).
Proof.
  split.
  - intros [Hwt | Hnone]; [apply rewriteDocument_total, Hwt |].
    unfold rewriteDocument.
    destruct (transform_total_on
                (rewriteRegistrations stringify ctx sugg originDomain) doc)
      with (st := 0%nat) as ([k out] & ->); [| eexists; reflexivity].
    intros tag a st Hin. rewrite run_rewrite.
    destruct (String.eqb_spec tag "head") as [-> | _].
    + exfalso. apply elem_of_tagged in Hin. unfold count_heads in Hnone.
      destruct (tagged "head" (doc_elements doc)); [| discriminate].
      apply elem_of_nil in Hin. exact Hin.
    + repeat match goal with |- context [String.eqb tag ?t] =>
        destruct (String.eqb tag t) end; eexists; reflexivity.
  - intros Hwt Hhead.
    destruct (rewriteDocument stringify ctx sugg originDomain doc) as [out | e] eqn:H.
    + exfalso. unfold rewriteDocument in H.
      apply rbind_Ok in H as ([k out'] & Hpass & _).
      apply transform_flat in Hpass as (els & Hrun & _); [| apply rewrite_textless].
      unfold count_heads in Hhead.
      destruct (tagged "head" (doc_elements doc)) as [| a rest] eqn:Ht;
        [contradiction Hhead; reflexivity |].
      assert (Hin : ("head", a) ∈ doc_elements doc)
        by (apply elem_of_tagged; rewrite Ht; apply list_elem_of_here).
      destruct (run_elements_each _ _ _ _ _ Hrun _ _ Hin) as (st & st' & el & Hel).
      rewrite run_rewrite in Hel. cbn in Hel.
      rewrite head_element_fails in Hel by exact Hwt. discriminate.
    + f_equal. unfold rewriteDocument in H.
      destruct (transform (rewriteRegistrations stringify ctx sugg originDomain) doc 0%nat)
        as [[k out] | e'] eqn:Hpass; [discriminate |].
      cbn [mbind result_bind rbind] in H. injection H as ->.
      apply transform_error in Hpass as (tag & a & st' & Hel).
      rewrite run_rewrite in Hel.
      destruct (String.eqb tag "head").
      * rewrite head_element_fails in Hel by exact Hwt. injection Hel as <-.
        reflexivity.
      * repeat match type of Hel with context [String.eqb tag ?t] =>
          destruct (String.eqb tag t) end; discriminate.
Qed.

Lemma rewriting_fails_on_ill_typed_witness :
  rewriteDocument Sample.stringify Sample.context Sample.ill_typed_suggestion
                  "https://shop.example" Sample.page = Err TypeError /\
  exists out,
    rewriteDocument Sample.stringify Sample.context Sample.ill_typed_suggestion
                    "https://shop.example" [ Element "p" [] [ Text "no head" ] ] = Ok out.
Proof.
  destruct (rewriting_fails_on_ill_typed Sample.stringify Sample.context
              Sample.ill_typed_suggestion "https://shop.example" Sample.page)
    as [_ Hfails].
  destruct (rewriting_fails_on_ill_typed Sample.stringify Sample.context
              Sample.ill_typed_suggestion "https://shop.example"
              [ Element "p" [] [ Text "no head" ] ]) as [Hreturns _].
  split; [apply Hfails; [reflexivity | discriminate] | apply Hreturns; right; reflexivity].
Defined.

(** ** The attribution comment *)

Lemma preload_not_attribution r : is_attribution (preload_of r) = false.
Proof. destruct (preload_of_cases r) as [-> | (s & a & ->)]; reflexivity. Qed.

Lemma head_appended_attribution (stringify : JsVal -> string) (ctx : PageContext)
  (sugg : JsVal) :
  filter (fun h => is_attribution h) (head_appended stringify ctx sugg) = [].
Proof.
  unfold head_appended. rewrite !filter_app.
  rewrite (filter_map_none is_attribution) by (intros; reflexivity).
  rewrite (filter_map_none is_attribution dns_prefetch_tag) by (intros; reflexivity).
  assert (Hj : filter (fun h => is_attribution h)
            (if Js.truthy (Js.opt_get sugg "jsonLd")
             then [jsonld_script (stringify (Js.prop sugg "jsonLd"))] else []) = []).
  { destruct (Js.truthy (Js.opt_get sugg "jsonLd")); [| reflexivity].
    rewrite filter_one. reflexivity. }
  assert (Hc : filter (fun h => is_attribution h)
            (if Js.truthy (Js.opt_get sugg "criticalResources")
             then map preload_of (items (Js.prop sugg "criticalResources")) else []) = []).
  { destruct (Js.truthy (Js.opt_get sugg "criticalResources")); [| reflexivity].
    apply filter_map_none. intros; apply preload_not_attribution. }
  rewrite Hj, Hc, filter_one. reflexivity.
Qed.

Lemma run_elements_injected {S : Type} (regs : list (Registration S))
  (P : string -> bool) (g : string -> list string) :
  (forall tag a st st' el,
     run_element regs tag a st (El.of_attrs a) = Ok (st', el) ->
     filter (fun h => P h) (El.prepended el ++ El.appended el) = g tag) ->
  forall es st st' els,
    run_elements regs es st = Ok (st', els) ->
    filter (fun h => P h) (injected els) = flat_map (fun e => g (fst e)) es.
Proof.
  intros Hg. induction es as [| [tag a] rest IH]; intros st st' els H.
  - cbn in H. injection H as <- <-. reflexivity.
  - cbn [run_elements] in H.
    apply rbind_Ok in H as ([st1 el] & Hel & H).
    apply rbind_Ok in H as ([st2 els'] & Hrest & H).
    injection H as <- <-. unfold injected in *. cbn [flat_map fst].
    rewrite filter_app, (Hg _ _ _ _ _ Hel), (IH _ _ _ Hrest). reflexivity.
Qed.

Section Attribution.

Variable stringify : JsVal -> string.
Variables (ctx : PageContext) (sugg : JsVal) (originDomain : string).

Lemma rewrite_element_attribution (tag : string) (a : list (string * string))
  (k k' : nat) (el : El.Handle) :
  run_element (rewriteRegistrations stringify ctx sugg originDomain) tag a k
              (El.of_attrs a) = Ok (k', el) ->
  filter (fun h => is_attribution h) (El.prepended el ++ El.appended el) =
    (if String.eqb tag "body" then [attribution_comment] else []).
Proof.
  rewrite run_rewrite.
  destruct (String.eqb_spec tag "head") as [-> | _].
  { eval_eqb. intros H. apply rbind_Ok in H as (el' & Hel & [= <- <-]).
    destruct (well_typed sugg) eqn:Hwt.
    - rewrite head_element_spec in Hel by exact Hwt. injection Hel as <-.
      cbn [El.prepended El.appended El.of_attrs app].
      change (base_tag originDomain :: head_appended stringify ctx sugg)
        with ([base_tag originDomain] ++ head_appended stringify ctx sugg).
      rewrite filter_app, head_appended_attribution, filter_one. reflexivity.
    - rewrite head_element_fails in Hel by exact Hwt. discriminate. }
  destruct (String.eqb_spec tag "meta") as [-> | _].
  { eval_eqb. intros [= <- <-].
    destruct (Js.truthy _ && is_description a); reflexivity. }
  destruct (String.eqb_spec tag "img") as [-> | _].
  { eval_eqb. rewrite img_element_rule. intros [= <- <-]. reflexivity. }
  destruct (String.eqb_spec tag "iframe") as [-> | _].
  { eval_eqb. rewrite iframe_element_rule. intros [= <- <-]. reflexivity. }
  destruct (String.eqb_spec tag "script") as [-> | _].
  { eval_eqb. rewrite script_element_rule. intros [= <- <-].
    destruct (bool_decide _); reflexivity. }
  destruct (String.eqb_spec tag "link") as [-> | _].
  { eval_eqb. intros [= <- <-]. destruct (is_stylesheet a) eqn:Hrel; [| reflexivity].
    rewrite stylesheet_element_rule by exact Hrel. reflexivity. }
  destruct (String.eqb_spec tag "body") as [-> | _]; intros [= <- <-]; reflexivity.
Qed.

(** X13. With a suggestion that is absent or well typed, the rewriting pass
    inserts the attribution comment once per [body] element of the document
    and nowhere else, and in a [body] element it is the first child of the
    output, before the rewritten children; nothing is appended to a
    [body]. *)
Theorem body_attribution :
  well_typed sugg = true ->
  (forall doc, exists out,
     rewriteDocument stringify ctx sugg originDomain doc = Ok out /\
     count_attributions out = (count_attributions doc + count_bodies doc)%nat) /\
  (forall a children imageCount, exists imageCount' children',
     let regs := rewriteRegistrations stringify ctx sugg originDomain in
     transform_nodes regs [] children imageCount = Ok (imageCount', children') /\
     transform_node regs [] (Element "body" a children) imageCount =
       Ok (imageCount', Element "body" a (Raw attribution_comment :: children'))).
Proof.
  intros Hwt. split.
  - intros doc.
    destruct (rewriteDocument_total stringify ctx sugg originDomain doc Hwt)
      as [out Hout].
    exists out. split; [exact Hout |].
    unfold rewriteDocument in Hout.
    apply rbind_Ok in Hout as ([k out'] & Hpass & [= <-]).
    apply transform_flat in Hpass as (els & Hrun & _ & _ & Hraws);
      [| apply rewrite_textless].
    apply (run_elements_injected _ is_attribution
             (fun tag => if String.eqb tag "body" then [attribution_comment] else []))
      in Hrun; [| apply rewrite_element_attribution].
    unfold count_attributions, count_bodies.
    rewrite Hraws, filter_app, length_app, Hrun. f_equal.
    clear. induction (doc_elements doc) as [| [tag a] rest IH]; [reflexivity |].
    cbn [flat_map fst]. rewrite tagged_cons, length_app, IH.
    destruct (String.eqb tag "body"); reflexivity.
  - intros a children imageCount.
    destruct (transform_nodes_total _ (run_rewrite_total stringify ctx sugg
                originDomain Hwt) children [] imageCount) as ([k' children'] & Hch).
    exists k', children'. cbn zeta. split; [exact Hch |].
    rewrite transform_node_Element.
    rewrite run_rewrite. eval_eqb.
    cbn [mbind result_bind rbind app].
    rewrite (textless_open_nodes _ (rewrite_textless stringify ctx sugg originDomain)).
    rewrite Hch.
    cbn [mbind result_bind rbind body_element El.prepend El.attrs El.prepended
         El.appended El.of_attrs map app].
    rewrite app_nil_r. reflexivity.
Qed.

End Attribution.

Lemma body_attribution_witness :
  exists out,
    rewriteDocument Sample.stringify Sample.context JNull "https://shop.example"
                    Sample.two_heads = Ok out /\
    count_attributions out = 1%nat.
Proof.
  destruct (body_attribution Sample.stringify Sample.context JNull
              "https://shop.example" eq_refl) as [Hdoc _].
  destruct (Hdoc Sample.two_heads) as (out & Hout & Hcount).
  exists out. split; [exact Hout | exact Hcount].
Defined.

(** ** Reading the reply of the advisor *)

Lemma append_assoc_string (p q r : string) : (p +:+ q) +:+ r = p +:+ (q +:+ r).
Proof.
  induction p as [| c p IH]; [reflexivity |].
  rewrite !append_cons_string, IH. reflexivity.
Qed.

Lemma from_first_open_split (s t : string) :
  Str.from_first_open s = Some t ->
  exists pre rest, s = pre +:+ t /\ t = String "{" rest /\ contains "{" pre = false.
Proof.
  induction s as [| c s IH]; [discriminate |]. cbn [Str.from_first_open].
  case_bool_decide as Hc.
  - intros [= <-]. subst c. exists EmptyString, s. auto.
  - intros H. destruct (IH H) as (pre & rest & -> & -> & Hpre).
    exists (String c pre), rest. repeat split.
    cbn [contains]. rewrite bool_decide_eq_false_2 by exact Hc. exact Hpre.
Qed.

Lemma from_first_open_found (pre rest : string) :
  contains "{" pre = false ->
  Str.from_first_open (pre +:+ String "{" rest) = Some (String "{" rest).
Proof.
  induction pre as [| c pre IH]; intros H; [reflexivity |].
  cbn [contains] in H. apply orb_false_elim in H as [Hc Hpre].
  rewrite append_cons_string. cbn [Str.from_first_open]. rewrite Hc. apply IH, Hpre.
Qed.

Lemma upto_last_close_none (s : string) :
  Str.upto_last_close s = None <-> contains "}" s = false.
Proof.
  induction s as [| c s IH]; [split; reflexivity |].
  cbn [Str.upto_last_close contains].
  destruct (Str.upto_last_close s) as [p |].
  - split; [discriminate |]. intros H. apply orb_false_elim in H as [_ H].
    apply IH in H. discriminate.
  - destruct (bool_decide (c = "}"%char)); cbn [orb].
    + split; discriminate.
    + split; [intros _; apply IH; reflexivity | reflexivity].
Qed.

Lemma upto_last_close_split (s m : string) :
  Str.upto_last_close s = Some m ->
  exists body post, m = body +:+ "}" /\ s = m +:+ post /\ contains "}" post = false.
Proof.
  revert m. induction s as [| c s IH]; intros m; [discriminate |].
  cbn [Str.upto_last_close].
  destruct (Str.upto_last_close s) as [p |] eqn:Hp.
  - intros [= <-]. destruct (IH p eq_refl) as (body & post & -> & -> & Hpost).
    exists (String c body), post. auto.
  - case_bool_decide as Hc; [| discriminate]. intros [= <-]. subst c.
    exists EmptyString, s. repeat split. apply upto_last_close_none, Hp.
Qed.

Lemma upto_last_close_found (body post : string) :
  contains "}" post = false ->
  Str.upto_last_close (body +:+ String "}" post) = Some (body +:+ "}").
Proof.
  intros Hpost. induction body as [| c body IH].
  - change (EmptyString +:+ String "}" post) with (String "}" post).
    cbn [Str.upto_last_close]. rewrite (proj2 (upto_last_close_none post) Hpost).
    reflexivity.
  - rewrite append_cons_string. cbn [Str.upto_last_close]. rewrite IH. reflexivity.
Qed.

Lemma match_braces_found (pre inner post : string) :
  contains "{" pre = false -> contains "}" post = false ->
  Str.match_braces (pre +:+ "{" +:+ inner +:+ "}" +:+ post) =
    Some ("{" +:+ inner +:+ "}").
Proof.
  intros Hpre Hpost. unfold Str.match_braces.
  change (pre +:+ "{" +:+ inner +:+ "}" +:+ post)
    with (pre +:+ String "{" (inner +:+ "}" +:+ post)).
  rewrite (from_first_open_found _ _ Hpre). cbn [mbind option_bind].
  change (String "{" (inner +:+ "}" +:+ post))
    with (String "{" inner +:+ String "}" post).
  rewrite (upto_last_close_found _ _ Hpost). reflexivity.
Qed.

(** X14. The match that reads the reply is leftmost and greedy. When it
    succeeds, the matched text begins at the first opening brace of the
    reply and ends at its last closing brace: nothing before it holds an
    opening brace, nothing after it a closing one. And an object wrapped in
    prose without braces is recovered exactly, whatever braces it holds
    inside. A text with no opening brace, or with no closing brace, does not
    match. *)
Theorem match_braces_greedy :
  (forall s m, Str.match_braces s = Some m ->
     exists pre inner post,
       s = pre +:+ m +:+ post /\ m = "{" +:+ inner +:+ "}" /\
       contains "{" pre = false /\ contains "}" post = false) /\
  (forall pre inner post,
     contains "{" pre = false -> contains "}" post = false ->
     Str.match_braces (pre +:+ "{" +:+ inner +:+ "}" +:+ post) =
       Some ("{" +:+ inner +:+ "}")) /\
  (forall s, contains "{" s = false \/ contains "}" s = false ->
     Str.match_braces s = None).
Proof.
  split; [| split].
  - intros s m H. unfold Str.match_braces in H.
    destruct (Str.from_first_open s) as [t |] eqn:Ht; [| discriminate].
    cbn in H.
    destruct (from_first_open_split s t Ht) as (pre & rest & -> & -> & Hpre).
    destruct (upto_last_close_split _ _ H) as (body & post & -> & Hm & Hpost).
    destruct body as [| c body].
    + discriminate.
    + rewrite append_cons_string in Hm. injection Hm as <- Hrest.
      exists pre, body, post. rewrite Hrest. repeat split; auto.
  - exact match_braces_found.
  - intros s [Hopen | Hclose]; unfold Str.match_braces.
    + destruct (Str.from_first_open s) as [t |] eqn:Ht; [| reflexivity].
      destruct (from_first_open_split s t Ht) as (pre & rest & -> & -> & Hpre).
      exfalso. clear Ht. induction pre as [| c pre IH].
      * change (EmptyString +:+ String "{" rest) with (String "{" rest) in Hopen.
        cbn [contains] in Hopen.
        rewrite bool_decide_eq_true_2 in Hopen by reflexivity. discriminate.
      * rewrite append_cons_string in Hopen. cbn [contains] in *.
        apply orb_false_elim in Hopen as [_ Hopen].
        apply orb_false_elim in Hpre as [_ Hpre]. auto.
    + destruct (Str.from_first_open s) as [t |] eqn:Ht; [| reflexivity].
      cbn [mbind option_bind].
      destruct (from_first_open_split s t Ht) as (pre & rest & -> & -> & _).
      apply upto_last_close_none. clear Ht.
      induction pre as [| c pre IH]; [exact Hclose |].
      rewrite append_cons_string in Hclose. cbn [contains] in Hclose.
      apply orb_false_elim in Hclose as [_ Hclose]. auto.
Qed.

Lemma match_braces_greedy_witness :
  Str.match_braces ("Sure: " +:+ "{" +:+ "a: {b}, c: {}" +:+ "}" +:+ " Done.") =
    Some ("{" +:+ "a: {b}, c: {}" +:+ "}") /\
  Str.match_braces "} no object here {" = None /\
  Str.match_braces "no braces" = None.
Proof.
  destruct match_braces_greedy as (_ & Hfound & Hnone).
  split; [exact (Hfound "Sure: " "a: {b}, c: {}" " Done." eq_refl eq_refl) |].
  split; [vm_compute; reflexivity | exact (Hnone "no braces" (or_introl eq_refl))].
Defined.

Section AdvisorReply.

Variable parse : string -> result JsVal.
Variable stringify : JsVal -> string.

(** X15. The advisor answered and the answer is read. When the reply parses,
    its first candidate has a first part, and the text of that part is an
    object between two stretches of prose that hold no brace of the kind
    that would extend the match, [generateOptimizations] makes its one call
    and returns the parse of exactly that object; if that object does not
    parse it returns [null]. *)
Theorem advisor_reads_wrapped_object (w : World) (apiKey : string) (ctx : PageContext)
  (originDomain raw : string) (data candidate part : JsVal)
  (candidates parts : list JsVal) (pre inner post : string) :
  let target := advisor_endpoint apiKey in
  let payload := stringify (advisor_payload (prompt ctx originDomain)) in
  advisor_fetch w target payload = Ok raw ->
  parse raw = Ok data ->
  Js.prop data "candidates" = JArr (candidate :: candidates) ->
  Js.prop (Js.prop candidate "content") "parts" = JArr (part :: parts) ->
  Js.prop part "text" = JStr (pre +:+ "{" +:+ inner +:+ "}" +:+ post) ->
  contains "{" pre = false ->
  contains "}" post = false ->
  generateOptimizations parse stringify w apiKey ctx originDomain =
    ([EvAdvisorFetch target payload],
     Ok (match parse ("{" +:+ inner +:+ "}") with
         | Ok v => v
         | Err _ => JNull
         end)).
Proof.
  intros target payload Hfetch Hparse Hcandidates Hparts Htext Hpre Hpost.
  unfold generateOptimizations, emit. fold target. fold payload. rewrite Hfetch.
  f_equal. unfold advisor_result, advisor_try.
  cbn [mbind result_bind rbind]. rewrite Hparse. cbn [mbind result_bind rbind].
  assert (Hreply : reply_text data =
                   Ok (JStr (pre +:+ "{" +:+ inner +:+ "}" +:+ post))).
  { unfold reply_text, Js.get.
    destruct data; try discriminate Hcandidates.
    cbn [Js.nullish mbind result_bind rbind]. rewrite Hcandidates.
    cbn [Js.opt_index0 Js.nullish Js.index0].
    destruct candidate; try discriminate Hparts.
    unfold Js.opt_get at 3. cbn [Js.nullish].
    destruct (Js.prop (JObj _) "content") eqn:Hcontent; try discriminate Hparts.
    unfold Js.opt_get at 2. cbn [Js.nullish]. rewrite Hparts.
    cbn [Js.opt_index0 Js.nullish Js.index0].
    destruct part; try discriminate Htext.
    unfold Js.opt_get. cbn [Js.nullish]. rewrite Htext.
    unfold Js.or. cbn [Js.truthy].
    destruct pre; reflexivity. }
  rewrite Hreply. cbn [mbind result_bind rbind text_match].
  rewrite (match_braces_found _ _ _ Hpre Hpost).
  destruct (parse ("{" +:+ inner +:+ "}")); reflexivity.
Qed.

End AdvisorReply.

Lemma advisor_reads_wrapped_object_witness :
  generateOptimizations Fixture.parse Fixture.stringify Fixture.world "secret"
                        empty_context "https://shop.example" =
    ([EvAdvisorFetch (advisor_endpoint "secret") "PAYLOAD"],
     Ok (JObj [ ("jsonLd", JObj []) ])).
Proof.
  exact (advisor_reads_wrapped_object Fixture.parse Fixture.stringify Fixture.world
           "secret" empty_context "https://shop.example" "REPLY" Fixture.reply
           Fixture.reply_candidate Fixture.reply_part [] []
           Fixture.prose_before Fixture.object_inside Fixture.prose_after
           eq_refl eq_refl eq_refl eq_refl eq_refl eq_refl eq_refl).
Defined.

(** ** The title and the headings *)

Lemma append_nil_r_string (s : string) : s +:+ EmptyString = s.
Proof.
  induction s as [| c s IH]; [reflexivity |].
  rewrite append_cons_string, IH. reflexivity.
Qed.

Lemma heading_text_Element (tag t : string) (a : list (string * string))
  (children : list Node) :
  heading_text tag (Element t a children) =
  (if String.eqb t tag then own_text children else EmptyString) +:+
  doc_heading_text tag children.
Proof.
  cbn [heading_text]. reflexivity.
Qed.

Lemma plain_headings_Element (t : string) (a : list (string * string))
  (children : list Node) :
  plain_headings (Element t a children) =
  if String.eqb t "title" || String.eqb t "h1"
  then forallb (fun c => negb (is_element c)) children
  else forallb plain_headings children.
Proof.
  cbn [plain_headings]. destruct (String.eqb t "title" || String.eqb t "h1");
    reflexivity.
Qed.

Lemma doc_heading_text_leaves (tag : string) (children : list Node) :
  forallb (fun c => negb (is_element c)) children = true ->
  doc_heading_text tag children = EmptyString.
Proof.
  induction children as [| x rest IH]; [reflexivity |].
  cbn [forallb]. intros H. apply andb_prop in H as [Hx Hrest].
  cbn [doc_heading_text foldr]. fold (doc_heading_text tag rest).
  rewrite (IH Hrest). destruct x; [discriminate | reflexivity | reflexivity].
Qed.

Section Headings.

Variable url_origin : string -> result string.
Variable decodes : option string -> bool.

Lemma context_step_headings e ctx :
  title (context_step url_origin e ctx) = title ctx /\
  h1 (context_step url_origin e ctx) = h1 ctx.
Proof.
  destruct e as [tag a]. unfold context_step, contextRewriter.
  cbn [fst snd run_element selector on_element].
  repeat match goal with
  | |- context [matches ?sel tag a] => destruct (matches sel tag a)
  end; cbn [mbind result_bind rbind context_description context_image
            context_resource run_element title h1]; split; reflexivity.
Qed.

(** The text handlers that run on a chunk: the one of [title] inside a
    [title], then the one of [h1] inside an [h1]. *)
Lemma context_run_text_of open (s : string) (ctx : PageContext) :
  run_text (contextRewriter url_origin) open s ctx =
  (let c := if has_open "title" open then context_title_text ctx s else ctx in
   if has_open "h1" open then context_h1_text c s else c).
Proof.
  unfold contextRewriter, has_open. cbn [run_text on_text].
  unfold opened. cbn [selector matches].
  destruct (existsb (fun e => String.eqb (fst e) "title") open);
    destruct (existsb (fun e => String.eqb (fst e) "h1") open);
    repeat match goal with
    | |- context [if ?b then None else None] => destruct b
    end; reflexivity.
Qed.

Lemma has_open_app (tag : string) open open' :
  has_open tag (open ++ open') = has_open tag open || has_open tag open'.
Proof. unfold has_open. apply existsb_app. Qed.

Lemma text_children_pass (children : list Node) open :
  forallb (fun c => negb (is_element c)) children = true ->
  forall ctx, exists ctx',
    transform_nodes (contextRewriter url_origin) open children ctx =
      Ok (ctx', children) /\
    title ctx' =
      title ctx +:+ (if has_open "title" open then own_text children else EmptyString) /\
    h1 ctx' =
      h1 ctx +:+ (if has_open "h1" open then own_text children else EmptyString).
Proof.
  induction children as [| x rest IH]; intros H ctx.
  - exists ctx. cbn [own_text foldr].
    destruct (has_open "title" open); destruct (has_open "h1" open);
      rewrite !append_nil_r_string; repeat split.
  - cbn [forallb] in H. apply andb_prop in H as [Hx Hrest].
    destruct x as [t a ch | t | html]; [discriminate | |].
    + cbn [transform_nodes transform_node mbind result_bind rbind].
      rewrite context_run_text_of.
      destruct (IH Hrest
                  (let c := if has_open "title" open
                            then context_title_text ctx t else ctx in
                   if has_open "h1" open then context_h1_text c t else c))
        as (c & -> & Ht & Hh).
      exists c. cbn [mbind result_bind rbind]. split; [reflexivity |].
      rewrite Ht, Hh. cbn [own_text foldr]. cbn zeta.
      destruct (has_open "title" open); destruct (has_open "h1" open);
        cbn [context_title_text context_h1_text title h1];
        rewrite ?append_assoc_string; split; reflexivity.
    + cbn [transform_nodes transform_node mbind result_bind rbind].
      destruct (IH Hrest ctx) as (c & -> & Ht & Hh).
      exists c. cbn [mbind result_bind rbind]. repeat split; assumption.
Qed.

Lemma headings_pass_node (n : Node) :
  forall open ctx,
    has_open "title" open = false -> has_open "h1" open = false ->
    plain_headings n = true ->
    exists ctx',
      transform_node (contextRewriter url_origin) open n ctx = Ok (ctx', n) /\
      title ctx' = title ctx +:+ heading_text "title" n /\
      h1 ctx' = h1 ctx +:+ heading_text "h1" n.
Proof.
  induction n as [tag a children IH | s | html] using Node_forest_ind;
    intros open ctx Hot Hoh Hplain.
  - rewrite transform_node_Element, context_run. cbn [mbind result_bind rbind].
    rewrite !heading_text_Element.
    rewrite plain_headings_Element in Hplain.
    destruct (context_step_headings (tag, a) ctx) as [Ht0 Hh0].
    set (ctx0 := context_step url_origin (tag, a) ctx) in *.
    assert (Hopen_t : has_open "title" (open ++ [(tag, a)]) = String.eqb tag "title")
      by (rewrite has_open_app, Hot; unfold has_open; cbn; apply orb_false_r).
    assert (Hopen_h : has_open "h1" (open ++ [(tag, a)]) = String.eqb tag "h1")
      by (rewrite has_open_app, Hoh; unfold has_open; cbn; apply orb_false_r).
    destruct (String.eqb tag "title" || String.eqb tag "h1") eqn:Hheading.
    + destruct (text_children_pass children (open ++ [(tag, a)]) Hplain ctx0)
        as (c & -> & Ht & Hh).
      exists c. cbn [mbind result_bind rbind El.of_attrs El.attrs El.prepended
                     El.appended map app].
      rewrite app_nil_r, Ht, Hh, Ht0, Hh0, Hopen_t, Hopen_h.
      rewrite (doc_heading_text_leaves "title" _ Hplain).
      rewrite (doc_heading_text_leaves "h1" _ Hplain).
      rewrite !append_nil_r_string. repeat split.
    + apply orb_false_elim in Hheading as [Htitle Hh1].
      rewrite Htitle in Hopen_t. rewrite Hh1 in Hopen_h. rewrite Htitle, Hh1.
      assert (Hch : forall c, exists c',
                transform_nodes (contextRewriter url_origin) (open ++ [(tag, a)])
                                children c = Ok (c', children) /\
                title c' = title c +:+ doc_heading_text "title" children /\
                h1 c' = h1 c +:+ doc_heading_text "h1" children).
      { clear ctx ctx0 Ht0 Hh0.
        induction IH as [| x rest Hx _ IHrest]; intros c.
        - exists c. cbn [doc_heading_text foldr]. rewrite !append_nil_r_string.
          repeat split.
        - cbn [forallb] in Hplain. apply andb_prop in Hplain as [Hpx Hprest].
          cbn [transform_nodes].
          destruct (Hx _ c Hopen_t Hopen_h Hpx) as (c1 & -> & Ht1 & Hh1').
          cbn [mbind result_bind rbind].
          destruct (IHrest Hprest c1) as (c2 & -> & Ht2 & Hh2).
          exists c2. split; [reflexivity |].
          cbn [doc_heading_text foldr]. fold (doc_heading_text "title" rest).
          fold (doc_heading_text "h1" rest).
          rewrite Ht2, Hh2, Ht1, Hh1', !append_assoc_string. split; reflexivity. }
      destruct (Hch ctx0) as (c & -> & Ht & Hh).
      exists c. cbn [mbind result_bind rbind El.of_attrs El.attrs El.prepended
                     El.appended map app].
      rewrite app_nil_r, Ht, Hh, Ht0, Hh0. repeat split.
  - exists ctx. cbn [transform_node heading_text].
    rewrite context_run_text_of, Hot, Hoh. cbn zeta.
    rewrite !append_nil_r_string. repeat split.
  - exists ctx. cbn [transform_node heading_text].
    rewrite !append_nil_r_string. repeat split.
Qed.

(** X16. The title and the main heading of the context. On a page whose
    [title] and [h1] elements hold text only, the extracted title is the
    text of the [title] elements and the extracted heading the text of the
    [h1] elements, every piece of text joined in document order, whatever
    the number of such elements and wherever they are. *)
Theorem extracted_headings (r : Response) (doc : list Node) (ctx : PageContext) :
  body r = Ok doc ->
  forallb plain_headings doc = true ->
  extractContext url_origin decodes r = Ok ctx ->
  title ctx = doc_heading_text "title" doc /\
  h1 ctx = doc_heading_text "h1" doc.
Proof.
  intros Hbody Hplain. unfold extractContext, transform.
  rewrite build_rewriter_decodable.
  destruct (decodable decodes r); [| discriminate].
  rewrite Hbody. cbn [mbind result_bind rbind].
  assert (Hdoc : forall c, exists c',
            transform_nodes (contextRewriter url_origin) [] doc c = Ok (c', doc) /\
            title c' = title c +:+ doc_heading_text "title" doc /\
            h1 c' = h1 c +:+ doc_heading_text "h1" doc).
  { clear Hbody. induction doc as [| x rest IH]; intros c.
    - exists c. cbn [doc_heading_text foldr]. rewrite !append_nil_r_string.
      repeat split.
    - cbn [forallb] in Hplain. apply andb_prop in Hplain as [Hx Hrest].
      cbn [transform_nodes].
      destruct (headings_pass_node x [] c eq_refl eq_refl Hx) as (c1 & -> & Ht1 & Hh1).
      cbn [mbind result_bind rbind].
      destruct (IH Hrest c1) as (c2 & -> & Ht2 & Hh2).
      exists c2. split; [reflexivity |].
      cbn [doc_heading_text foldr]. fold (doc_heading_text "title" rest).
      fold (doc_heading_text "h1" rest).
      rewrite Ht2, Hh2, Ht1, Hh1, !append_assoc_string. split; reflexivity. }
  destruct (Hdoc empty_context) as (c & -> & Ht & Hh).
  cbn [mbind result_bind rbind]. intros [= <-]. rewrite Ht, Hh. split; reflexivity.
Qed.

End Headings.

Lemma extracted_headings_witness :
  exists ctx,
    extractContext Fixture.url_origin Sample.decodes Fixture.headings_response = Ok ctx /\
    title ctx = "Shop - Home" /\ h1 ctx = "Welcome back".
Proof.
  eexists. split; [vm_compute; reflexivity |].
  exact (extracted_headings Fixture.url_origin Sample.decodes Fixture.headings_response
           Fixture.headings _ eq_refl eq_refl eq_refl).
Defined.

(** ** The upstream URL and the trace of the handler *)

Lemma cleanOrigin_http (s : string) : Str.startsWith (cleanOrigin s) "http" = true.
Proof.
  unfold cleanOrigin. destruct (Str.startsWith s "http") eqn:H; cbn [negb].
  - exact H.
  - reflexivity.
Qed.

Lemma or_default_not_empty (a : option string) (d : string) :
  d <> EmptyString -> Js.or_default a d <> EmptyString.
Proof.
  intros Hd. unfold Js.or_default. destruct a as [s |]; [| exact Hd].
  destruct (String.eqb_spec s EmptyString); assumption.
Qed.

(** X17. What the worker fetches always names a scheme. For every request
    and environment the chosen origin is not empty, the resolved origin
    begins with [http] and so does the upstream URL, which begins with the
    resolved origin; resolving an origin that is resolved already changes
    nothing. *)
Theorem upstream_begins_with_http (serialize : list (string * string) -> string)
  (request : Request) (env : Env) :
  chooseOrigin request env <> EmptyString /\
  Str.startsWith (resolveOriginDomain request env) "http" = true /\
  Str.startsWith (resolveOriginUrl serialize request env)
                 (resolveOriginDomain request env) = true /\
  Str.startsWith (resolveOriginUrl serialize request env) "http" = true /\
  cleanOrigin (resolveOriginDomain request env) = resolveOriginDomain request env.
Proof.
  assert (Hhttp : Str.startsWith (resolveOriginDomain request env) "http" = true)
    by apply cleanOrigin_http.
  split; [apply or_default_not_empty; discriminate |].
  split; [exact Hhttp |].
  split; [apply prefix_app; eexists; reflexivity |].
  split.
  - apply prefix_app in Hhttp as [rest Hrest]. apply prefix_app.
    unfold resolveOriginUrl. rewrite Hrest, append_assoc_string.
    eexists. reflexivity.
  - unfold cleanOrigin at 1. rewrite Hhttp. reflexivity.
Qed.

Section HandlerTrace.

Variable parse : string -> result JsVal.
Variable stringify : JsVal -> string.
Variable url_origin : string -> result string.
Variable serialize : list (string * string) -> string.
Variable decodes : option string -> bool.
Variable w : World.
Variable request : Request.
Variable env : Env.

(** X18. The calls of one request. The handler first fetches the upstream
    URL; it runs the extraction pass at most once, and only on an HTML
    answer; it calls the advisor at most once, and only after the extraction
    pass has returned a context and with a key that is not empty, at the
    endpoint that carries the key and with the prompt made of that context;
    and it ends either with a response, or with the one plain fetch of the
    upstream URL, whose outcome is then its own. Nothing else reaches the
    network. *)
Theorem handler_trace_shape :
  let originDomain := resolveOriginDomain request env in
  let originUrl := resolveOriginUrl serialize request env in
  let first := origin_fetch w originUrl (userAgent request) (accept request) in
  let outcome := fetch parse stringify url_origin serialize decodes w request env in
  exists extraction advisor fallback,
    fst outcome =
      [EvOriginFetch originUrl (userAgent request) (accept request)]
      ++ extraction ++ advisor ++ fallback /\
    ((extraction = [EvExtract] /\ exists r, first = Ok r /\ is_html r = true) \/
     (extraction = [] /\ advisor = [] /\ forall r, first = Ok r -> is_html r = false)) /\
    (advisor = [] \/
     exists apiKey r ctx,
       GEMINI_API_KEY env = Some apiKey /\ apiKey <> EmptyString /\
       first = Ok r /\ extractContext url_origin decodes r = Ok ctx /\
       advisor = [EvAdvisorFetch (advisor_endpoint apiKey)
                    (stringify (advisor_payload (prompt ctx originDomain)))]) /\
    ((fallback = [] /\ exists response, snd outcome = Ok response) \/
     (fallback = [EvPlainFetch originUrl] /\ snd outcome = plain_fetch w originUrl)).
Proof.
  intros originDomain originUrl first outcome.
  subst originDomain originUrl first outcome. rewrite fetch_of_run.
  destruct (origin_fetch w (resolveOriginUrl serialize request env)
                         (userAgent request) (accept request))
    as [r | e] eqn:Hfirst.
  - destruct (is_html r) eqn:Hhtml.
    + destruct (extractContext url_origin decodes r) as [ctx | e] eqn:Hctx.
      * destruct (pipeline_extracted parse stringify url_origin serialize decodes w
                    request env r ctx Hfirst Hhtml Hctx)
          as (advisor_trace & sugg & Hadvise & _ & _ & Hrun).
        rewrite Hrun.
        assert (Hadvisor :
          advisor_trace = [] \/
          exists apiKey r0 ctx0,
            GEMINI_API_KEY env = Some apiKey /\ apiKey <> EmptyString /\
            Ok r = Ok r0 /\ extractContext url_origin decodes r0 = Ok ctx0 /\
            advisor_trace =
              [EvAdvisorFetch (advisor_endpoint apiKey)
                 (stringify (advisor_payload (prompt ctx0 (resolveOriginDomain request env))))]).
        { unfold advise in Hadvise.
          destruct (GEMINI_API_KEY env) as [apiKey |] eqn:Hkey.
          - destruct (Js.truthy_s (Some apiKey)) eqn:Htruthy.
            + right. exists apiKey, r, ctx.
              unfold generateOptimizations, emit in Hadvise.
              injection Hadvise as <- _.
              repeat split; try assumption; try reflexivity.
              intros ->. discriminate Htruthy.
            + left. injection Hadvise as <- _. reflexivity.
          - left. injection Hadvise as <- _. reflexivity. }
        destruct (new_Response_cases
                    (body (rewritten_response stringify r ctx sugg
                                              (resolveOriginDomain request env)))
                    (status r)
                    (headers_set (headers_set (headers r) marker_header "true")
                                 cache_header cache_directives))
          as [[_ ->] | [_ ->]].
        -- exists [EvExtract], advisor_trace, []. cbn [fst snd].
           split; [rewrite app_nil_r; reflexivity |].
           split; [left; eauto |]. split; [exact Hadvisor |]. left. eauto.
        -- exists [EvExtract], advisor_trace, [EvPlainFetch (resolveOriginUrl serialize request env)]. cbn [fst snd].
           split; [rewrite <- app_assoc; reflexivity |].
           split; [left; eauto |]. split; [exact Hadvisor |]. right. auto.
      * rewrite (pipeline_extraction_fails parse stringify url_origin serialize decodes
                   w request env r e Hfirst Hhtml Hctx).
        exists [EvExtract], [], [EvPlainFetch (resolveOriginUrl serialize request env)]. cbn [fst snd].
        split; [reflexivity |]. split; [left; eauto |]. split; [left; reflexivity |].
        right. auto.
    + rewrite (pipeline_not_html parse stringify url_origin serialize decodes w request env
                 r Hfirst Hhtml).
      exists [], [], []. cbn [fst snd].
      split; [reflexivity |].
      split; [right; repeat split; intros r0 [= <-]; exact Hhtml |].
      split; [left; reflexivity |]. left. eauto.
  - rewrite (pipeline_fetch_fails parse stringify url_origin serialize decodes w request env
               e Hfirst).
    exists [], [], [EvPlainFetch (resolveOriginUrl serialize request env)]. cbn [fst snd].
    split; [reflexivity |].
    split; [right; repeat split; intros r0 [=] |].
    split; [left; reflexivity |]. right. auto.
Qed.

End HandlerTrace.

Lemma handler_trace_shape_witness :
  exists advisor,
    fst (fetch Fixture.parse Fixture.stringify Fixture.url_origin Sample.serialize Sample.decodes
               Fixture.world Sample.plain_request Sample.keyed_env) =
    [EvOriginFetch "https://shop.example/shop?page=2" "SiteFast-Edge/1.0" "text/html";
     EvExtract] ++ advisor /\
    List.length advisor = 1%nat.
Proof.
  destruct (handler_trace_shape Fixture.parse Fixture.stringify Fixture.url_origin
              Sample.serialize Sample.decodes Fixture.world Sample.plain_request Sample.keyed_env)
    as (extraction & advisor & fallback & Htrace & _).
  exists [EvAdvisorFetch (advisor_endpoint "secret") "PAYLOAD"].
  split; vm_compute; reflexivity.
Defined.
